(** * Coaching-Backend: the admin and user routers over an explicit store

    The two Express routers ([routes/admin], [routes/user]) and the
    application wiring are embedded as functions from a request and a
    database to a response and a database.  The document store is three
    collections kept in insertion order; the password-hashing, token and
    e-mail-format primitives are an interface.

    Scope of the model.
    - Strings are byte strings; [toUpperCase] and the whitespace class of the
      login regular expression act on ASCII.
    - A request body is the object that [express.json()] supplies, with
      string-valued fields; [studentIds] is its one array-valued field.
    - An ObjectId is kept as the text the driver writes for it; the text
      of the [n]-th generated one is [oid n] and stands for the driver's 24
      hexadecimal digits.  The driver's cast of a request text to an
      ObjectId is part of the model: it accepts the digits in either letter
      case and throws a CastError on every other text, as the current
      driver does (older ones also took any text of twelve bytes).
    - The store itself does not fail: the only errors it raises are the
      schema ones (a required path, a unique index). *)

From Stdlib Require Import List String Ascii NArith Arith Bool Lia.
From Stdlib Require Import HexString Permutation.
Import ListNotations.
Local Open Scope string_scope.
Local Open Scope list_scope.

Set Implicit Arguments.

(* ================================================================= *)
(** ** JavaScript strings and values *)

Module Js.

Definition is_lower (c : ascii) : bool :=
  let n := nat_of_ascii c in (97 <=? n)%nat && (n <=? 122)%nat.

Definition upper_char (c : ascii) : ascii :=
  if is_lower c then ascii_of_nat (nat_of_ascii c - 32) else c.

(** [String.prototype.toUpperCase], on ASCII letters. *)
Fixpoint toUpperCase (s : string) : string :=
  match s with
  | EmptyString => EmptyString
  | String c r => String (upper_char c) (toUpperCase r)
  end.

(** [s.startsWith(p)]. *)
Definition startsWith (p s : string) : bool := String.prefix p s.

(** [s.split(sep)] for a one-character separator: never empty, and two
    adjacent separators give an empty segment. *)
Fixpoint split (sep : ascii) (s : string) : list string :=
  match s with
  | EmptyString => [EmptyString]
  | String c r =>
      if Ascii.eqb c sep then EmptyString :: split sep r
      else match split sep r with
           | h :: t => String c h :: t
           | [] => [String c EmptyString]
           end
  end.

(** Truthiness of a property that is a string or [undefined]. *)
Definition truthy (v : option string) : bool :=
  match v with
  | Some s => negb (s =? "")
  | None => false
  end.

(** [\s], on ASCII: tab, line feed, vertical tab, form feed, carriage
    return, space. *)
Definition is_space (c : ascii) : bool :=
  let n := nat_of_ascii c in
  ((9 <=? n)%nat && (n <=? 13)%nat) || (n =? 32)%nat.

Fixpoint no_space (s : string) : bool :=
  match s with
  | EmptyString => true
  | String c r => negb (is_space c) && no_space r
  end.

(** Is there a ["."] in [s] with something after it? *)
Fixpoint dot_then_more (s : string) : bool :=
  match s with
  | EmptyString => false
  | String c r =>
      (Ascii.eqb c "."%char && negb (r =? "")) || dot_then_more r
  end.

(** After a non-empty local part: an ["@"], at least one character, then
    [dot_then_more]. *)
Fixpoint at_then_domain (s : string) : bool :=
  match s with
  | EmptyString => false
  | String c r =>
      (Ascii.eqb c "@"%char
       && match r with
          | EmptyString => false
          | String _ r' => dot_then_more r'
          end)
      || at_then_domain r
  end.

(** [/^\S+@\S+\.\S+$/.test(s)]: no white space anywhere, and the text
    splits as [a @ b . c] with [a], [b], [c] non-empty. *)
Definition email_regex (s : string) : bool :=
  no_space s
  && match s with
     | EmptyString => false
     | String _ r => at_then_domain r
     end.

End Js.

(* ================================================================= *)
(** ** JSON payloads *)

#[local] Unset Elimination Schemes.
Inductive json : Type :=
| JNull
| JBool (b : bool)
| JNum (n : N)
| JStr (s : string)
| JArr (items : list json)
| JObj (fields : list (string * json)).
#[local] Set Elimination Schemes.

(** Property access on a payload; [None] is [undefined]. *)
Definition jget (k : string) (j : json) : option json :=
  match j with
  | JObj fields =>
      match find (fun kv => fst kv =? k) fields with
      | Some kv => Some (snd kv)
      | None => None
      end
  | _ => None
  end.

(** Property access along a path. *)
Fixpoint jpath (path : list string) (j : json) : option json :=
  match path with
  | [] => Some j
  | k :: rest =>
      match jget k j with
      | Some v => jpath rest v
      | None => None
      end
  end.

(** A property that [JSON.stringify] drops when it is [undefined]. *)
Definition jopt (k : string) (v : option json) : list (string * json) :=
  match v with
  | Some j => [(k, j)]
  | None => []
  end.

Definition jstr_opt (v : option string) : option json :=
  option_map JStr v.

(* ================================================================= *)
(** ** Documents and collections *)

(** [models/user]. *)
Record User : Type := mkUser {
  u_id : string;
  u_name : string;
  u_email : string;
  u_parentEmail : option string;
  u_password : string;
  u_role : string
}.

(** [models/adminUser]. *)
Record AdminUser : Type := mkAdminUser {
  a_id : string;
  a_name : string;
  a_email : string;
  a_password : string;
  a_role : string;
  a_active : bool
}.

(** An element of [BatchSchema.announcements]. *)
Record Announcement : Type := mkAnnouncement {
  an_title : option string;
  an_content : option string;
  an_teacher_id : string;
  an_createdAt : N
}.

(** [BatchSchema] of [Models/batch.js], with its two timestamps. *)
Record Batch : Type := mkBatch {
  b_id : string;
  b_name : string;
  b_batch_code : string;
  b_class : string;
  b_teacher_id : string;
  b_students : list string;
  b_announcements : list Announcement;
  b_createdAt : N;
  b_updatedAt : N
}.

(** The database: three collections in insertion order and the ObjectId
    generator. *)
Record DB : Type := mkDB {
  users : list User;
  admins : list AdminUser;
  batches : list Batch;
  next_oid : N
}.

Definition empty_db : DB := mkDB [] [] [] 0.

(** The text of the [n]-th generated ObjectId, as the driver writes it:
    hexadecimal digits in lower case.  It stands for the driver's
    generator; distinct counters give distinct texts. *)
Definition oid (n : N) : string := HexString.of_N n.

(** The driver's cast of a text to an ObjectId, [None] when it throws: a
    text casts when it is the text of an identifier up to the letter case
    of its digits, and the ObjectId is the one the digits name
    ([oid_of_text]). *)
Definition oid_of_text (s : string) : string := oid (HexString.to_N s).

Definition cast_id (s : string) : option string :=
  let _id := oid_of_text s in
  if String.prefix "0x" s && (Js.toUpperCase _id =? Js.toUpperCase s)
  then Some _id
  else None.
Arguments cast_id : simpl never.

(* ================================================================= *)
(** ** Errors and the handler monad *)

(** A thrown JavaScript error, with the properties the [catch] blocks read. *)
Record Error : Type := mkError {
  e_name : string;
  e_message : string;
  e_errors : option json;
  e_status : option nat
}.

Inductive Result (A : Type) : Type :=
| Ok (a : A)
| Throw (e : Error).
Arguments Ok {A} a.
Arguments Throw {A} e.

(** A computation reads and writes the database and may throw; what it
    wrote before throwing stays written. *)
Definition M (A : Type) : Type := DB -> Result A * DB.

Definition ret {A} (a : A) : M A := fun db => (Ok a, db).
Definition throw {A} (e : Error) : M A := fun db => (Throw e, db).
Definition bind {A B} (m : M A) (k : A -> M B) : M B :=
  fun db =>
    match m db with
    | (Ok a, db') => k a db'
    | (Throw e, db') => (Throw e, db')
    end.
Definition lift {A} (r : Result A) : M A := fun db => (r, db).
Definition gets {A} (f : DB -> A) : M A := fun db => (Ok (f db), db).
Definition modify (f : DB -> DB) : M unit := fun db => (Ok tt, f db).

Declare Scope m_scope.
Delimit Scope m_scope with M.
Notation "x <- m ;; k" := (bind m (fun x => k))
  (at level 61, m at next level, right associativity) : m_scope.
Notation "m ;;; k" := (bind m (fun _ => k))
  (at level 61, right associativity) : m_scope.
Local Open Scope m_scope.

(** What a handler sends. *)
Record Response : Type := mkResponse {
  status : nat;
  body : json
}.

(** [res.json(j)] answers with status 200. *)
Definition res_json (j : json) : Response := mkResponse 200 j.

(** [try { body } catch (error) { handler }]. *)
Definition try_catch (m : M Response) (h : Error -> Response)
  : DB -> Response * DB :=
  fun db =>
    match m db with
    | (Ok r, db') => (r, db')
    | (Throw e, db') => (h e, db')
    end.

(* ================================================================= *)
(** ** External primitives and configuration *)

(** The payload of a token: admin tokens carry [adminId], user tokens
    [userId]; [role] is absent from the tokens of the admin login. *)
Record Claims : Type := mkClaims {
  adminId : option string;
  userId : option string;
  c_email : string;
  c_role : option string
}.

Inductive JwtResult : Type :=
| JwtOk (c : Claims)
| JwtExpired
| JwtMalformed.

(** [bcrypt], [jsonwebtoken] and the e-mail check of [zod].
    [bcrypt_hash pw rounds salt]: the salt is the randomness of one call.
    [jwt_sign payload secret expiresIn now] and [jwt_verify token secret now],
    with times in seconds. *)
Class Primitives : Type := {
  bcrypt_hash : string -> nat -> string -> string;
  bcrypt_compare : string -> string -> bool;
  jwt_sign : Claims -> string -> N -> N -> string;
  jwt_verify : string -> string -> N -> JwtResult;
  zod_email : string -> bool
}.

(** A password compares equal to any hash made from it. *)
Definition bcrypt_sound (P : Primitives) : Prop :=
  forall pw rounds salt, bcrypt_compare pw (bcrypt_hash pw rounds salt) = true.

(** The e-mail check refuses the empty text. *)
Definition zod_email_nonempty (P : Primitives) : Prop :=
  zod_email "" = false.

(** [process.env], and the one option of the User schema that the routes
    depend on. *)
Record Config : Type := mkConfig {
  JWT_SECRET : string;
  SALT_ROUNDS : nat;
  (** Modelled from the spec: [models/user] is not among the sources; the
      spec's data model gives the User e-mail as unique.  Whether the
      schema declares the index is left as this option. *)
  user_email_unique : bool
}.

(** What the environment decides for one request: the clock and the
    randomness of the salt. *)
Record Env : Type := mkEnv {
  now : N;
  salt : string
}.

Definition hour : N := 3600.

(** [jwt.sign(payload, process.env.JWT_SECRET, { expiresIn })]: it throws
    when the secret is empty or unset. *)
Definition sign {P : Primitives} (cfg : Config) (payload : Claims)
    (expiresIn : N) (env : Env) : M string :=
  lift (if JWT_SECRET cfg =? "" then
          Throw (mkError "Error" "secretOrPrivateKey must have a value"
                         None None)
        else Ok (jwt_sign payload (JWT_SECRET cfg) expiresIn (now env))).

(* ================================================================= *)
(** ** Requests *)

Definition Obj : Type := list (string * string).

Definition prop (k : string) (o : Obj) : option string :=
  match find (fun kv => fst kv =? k) o with
  | Some kv => Some (snd kv)
  | None => None
  end.

(** A validated field: present, by the schema that was just checked. *)
Definition field (k : string) (o : Obj) : string :=
  match prop k o with
  | Some s => s
  | None => ""
  end.

(** What arrives over HTTP. *)
Record HttpRequest : Type := mkHttp {
  h_authorization : option string;
  h_query : Obj;
  h_body : Obj;
  h_studentIds : option (list string)
}.

(** What a handler sees: the HTTP request, the path parameter and
    [req.user], which only a middleware can set. *)
Record Req : Type := mkReq {
  r_http : HttpRequest;
  r_batchId : string;
  r_user : option Claims
}.

Definition r_body (req : Req) : Obj := h_body (r_http req).
Definition r_query (req : Req) : Obj := h_query (r_http req).
Definition r_authorization (req : Req) : option string :=
  h_authorization (r_http req).
Definition r_studentIds (req : Req) : option (list string) :=
  h_studentIds (r_http req).

Definition json_of_obj (o : Obj) : json :=
  JObj (map (fun kv => (fst kv, JStr (snd kv))) o).

(* ================================================================= *)
(** ** The model layer *)

Definition fresh_oid : M string :=
  fun db => (Ok (oid (next_oid db)),
             mkDB (users db) (admins db) (batches db) (N.succ (next_oid db))).

Definition duplicate_key : Error :=
  mkError "MongoServerError" "E11000 duplicate key error" None None.

Definition cast_error (value : string) : Error :=
  mkError "CastError"
          ("Cast to ObjectId failed for value " ++ value)%string None None.

(** A text where the schema has an ObjectId: cast, or a CastError. *)
Definition castObjectId (value : string) : M string :=
  lift match cast_id value with
       | Some _id => Ok _id
       | None => Throw (cast_error value)
       end.

(** The texts of an array where the schema has ObjectIds, cast in turn:
    the first that is no ObjectId throws. *)
Fixpoint cast_ids (values : list string) : Result (list string) :=
  match values with
  | [] => Ok []
  | v :: rest =>
      match cast_id v with
      | None => Throw (cast_error v)
      | Some _id =>
          match cast_ids rest with
          | Ok _ids => Ok (_id :: _ids)
          | Throw e => Throw e
          end
      end
  end.

Definition castObjectIds (values : list string) : M (list string) :=
  lift (cast_ids values).

Module AdminUserModel.

Definition findOne (p : AdminUser -> bool) : M (option AdminUser) :=
  gets (fun db => find p (admins db)).

(** [findById(id)]: the text is cast, and a text that is no ObjectId
    throws; [findById(undefined)] finds nothing. *)
Definition findById (id : option string) : M (option AdminUser) :=
  match id with
  | Some i =>
      _id <- castObjectId i ;;
      findOne (fun a => a_id a =? _id)
  | None => ret None
  end.

(** The route checks the e-mail before it creates, so a unique index on
    it, if there is one, never fires here. *)
Definition create (name email password role : string) (active : bool)
  : M AdminUser :=
  id <- fresh_oid ;;
  let a := mkAdminUser id name email password role active in
  modify (fun db =>
    mkDB (users db) (admins db ++ [a]) (batches db) (next_oid db)) ;;;
  ret a.

End AdminUserModel.

Module UserModel.

Definition find (p : User -> bool) : M (list User) :=
  gets (fun db => filter p (users db)).

(** [find({ _id: { $in: ids }, ... })]: each text of [ids] is cast, and a
    text that is no ObjectId throws. *)
Definition find_in (ids : list string) (p : User -> bool) : M (list User) :=
  _ids <- castObjectIds ids ;;
  find (fun u => existsb (String.eqb (u_id u)) _ids && p u).

Definition findOne (p : User -> bool) : M (option User) :=
  gets (fun db => List.find p (users db)).

(** [findById(id)]: the text is cast, and a text that is no ObjectId
    throws; [findById(undefined)] finds nothing. *)
Definition findById (id : option string) : M (option User) :=
  match id with
  | Some i =>
      _id <- castObjectId i ;;
      findOne (fun u => u_id u =? _id)
  | None => ret None
  end.

Definition create (cfg : Config) (name email : string)
    (parentEmail : option string) (password role : string) : M User :=
  dup <- gets (fun db => existsb (fun u => u_email u =? email) (users db)) ;;
  if user_email_unique cfg && dup then throw duplicate_key
  else
    id <- fresh_oid ;;
    let u := mkUser id name email parentEmail password role in
    modify (fun db =>
      mkDB (users db ++ [u]) (admins db) (batches db) (next_oid db)) ;;;
    ret u.

(** [user.save()]: the stored document with this identifier is replaced. *)
Definition save (cfg : Config) (u : User) : M unit :=
  dup <- gets (fun db =>
    existsb (fun v => (u_email v =? u_email u) && negb (u_id v =? u_id u))
            (users db)) ;;
  if user_email_unique cfg && dup then throw duplicate_key
  else
    modify (fun db =>
      mkDB (map (fun v => if u_id v =? u_id u then u else v) (users db))
           (admins db) (batches db) (next_oid db)).

End UserModel.

Module BatchModel.

Definition find (p : Batch -> bool) : M (list Batch) :=
  gets (fun db => filter p (batches db)).

(** [find({ students: id })] on a request text: the text is cast, and a
    text that is no ObjectId throws. *)
Definition find_by_student (id : string) : M (list Batch) :=
  _id <- castObjectId id ;;
  find (fun b => existsb (String.eqb _id) (b_students b)).

Definition findOne (p : Batch -> bool) : M (option Batch) :=
  gets (fun db => List.find p (batches db)).

(** [findById(doc._id)], on the ObjectId of a document. *)
Definition findByObjectId (_id : string) : M (option Batch) :=
  findOne (fun b => b_id b =? _id).

(** [findById(id)] on a request text: the text is cast, and a text that
    is no ObjectId throws. *)
Definition findById (id : string) : M (option Batch) :=
  _id <- castObjectId id ;;
  findByObjectId _id.

(** [required: true] on a String path refuses [undefined] and the empty
    text. *)
Definition required (v : option string) : bool := Js.truthy v.

Definition validation_error (path : string) : Error :=
  mkError "ValidationError"
          ("Batch validation failed: " ++ path)%string
          (Some (JObj [(path, JStr "Path is required.")])) None.

(** The validators of one announcement: [title] and [content] are
    required. *)
Definition validate_announcement (a : Announcement) : Result unit :=
  if negb (required (an_title a)) then
    Throw (validation_error "announcements.0.title")
  else if negb (required (an_content a)) then
    Throw (validation_error "announcements.0.content")
  else Ok tt.

(** [Batch.create]: [batch_code] goes through the schema's [uppercase]
    setter and is under a unique index; the timestamps are set. *)
Definition create (env : Env) (batch_code name class teacher_id : string)
    (students : list string) : M Batch :=
  let code := Js.toUpperCase batch_code in
  dup <- gets (fun db =>
    existsb (fun b => b_batch_code b =? code) (batches db)) ;;
  if dup then throw duplicate_key
  else
    id <- fresh_oid ;;
    let b := mkBatch id name code class teacher_id students []
                     (now env) (now env) in
    modify (fun db =>
      mkDB (users db) (admins db) (batches db ++ [b]) (next_oid db)) ;;;
    ret b.

Fixpoint validate_all (l : list Announcement) : Result unit :=
  match l with
  | [] => Ok tt
  | a :: r =>
      match validate_announcement a with
      | Ok _ => validate_all r
      | Throw e => Throw e
      end
  end.

(** [batch.save()]: the paths modified since the document was loaded are
    validated ([added] are the announcements put in; what was stored
    passed validation when it was written), then the stored document
    with this identifier is replaced and [updatedAt] is set. *)
Definition save (env : Env) (added : list Announcement) (b : Batch)
  : M unit :=
  lift (validate_all added) ;;;
  let b' := mkBatch (b_id b) (b_name b) (b_batch_code b) (b_class b)
                    (b_teacher_id b) (b_students b) (b_announcements b)
                    (b_createdAt b) (now env) in
  modify (fun db =>
    mkDB (users db) (admins db)
         (map (fun x => if b_id x =? b_id b then b' else x) (batches db))
         (next_oid db)).

End BatchModel.

(* ================================================================= *)
(** ** Schemas of [zod] *)

Inductive zcheck : Type :=
| ZMin (n : nat) (msg : string)
| ZEmail (msg : string).

Record zfield : Type := mkZ {
  z_key : string;
  z_optional : bool;
  z_checks : list zcheck
}.

Definition issue (path msg : string) : json :=
  JObj [("path", JArr [JStr path]); ("message", JStr msg)].

Section Zod.
Context {P : Primitives}.

Definition zod_check (path : string) (s : string) (c : zcheck) : list json :=
  match c with
  | ZMin n msg => if (n <=? String.length s)%nat then [] else [issue path msg]
  | ZEmail msg => if zod_email s then [] else [issue path msg]
  end.

Definition zod_field (o : Obj) (f : zfield) : list json :=
  match prop (z_key f) o with
  | None => if z_optional f then [] else [issue (z_key f) "Required"]
  | Some s => flat_map (zod_check (z_key f) s) (z_checks f)
  end.

(** [schema.parse(o)]: the object when no check fails (handlers read only
    the schema's keys from it), a ZodError carrying the issues otherwise. *)
Definition zod_parse (schema : list zfield) (o : Obj) : Result Obj :=
  match flat_map (zod_field o) schema with
  | [] => Ok o
  | issues =>
      Throw (mkError "ZodError" "Validation failed" (Some (JArr issues)) None)
  end.

End Zod.

(* ================================================================= *)
(** ** Shaping documents for responses *)

Definition name_email (id name email : string) : json :=
  JObj [("_id", JStr id); ("name", JStr name); ("email", JStr email)].

(** [.populate('teacher_id', 'name email')]: the admin, or [null]. *)
Definition populate_teacher (db : DB) (id : string) : json :=
  match find (fun a => a_id a =? id) (admins db) with
  | Some a => name_email (a_id a) (a_name a) (a_email a)
  | None => JNull
  end.

(** [.populate('students', 'name email')]: the users found, in the order of
    the references; a reference that resolves to nothing is dropped. *)
Definition populate_students (db : DB) (ids : list string) : list User :=
  flat_map (fun id =>
    match find (fun u => u_id u =? id) (users db) with
    | Some u => [u]
    | None => []
    end) ids.

Definition json_of_student (u : User) : json :=
  name_email (u_id u) (u_name u) (u_email u).

Definition json_of_announcement (teacher : json) (a : Announcement) : json :=
  JObj (jopt "title" (jstr_opt (an_title a))
        ++ jopt "content" (jstr_opt (an_content a))
        ++ [("teacher_id", teacher); ("createdAt", JNum (an_createdAt a))]).

Definition raw_announcements (b : Batch) : json :=
  JArr (map (fun a => json_of_announcement (JStr (an_teacher_id a)) a)
            (b_announcements b)).

Definition populated_announcements (db : DB) (b : Batch) : list json :=
  map (fun a => json_of_announcement (populate_teacher db (an_teacher_id a)) a)
      (b_announcements b).

Definition json_of_batch (teacher students announcements : json) (b : Batch)
  : json :=
  JObj [("_id", JStr (b_id b)); ("name", JStr (b_name b));
        ("batch_code", JStr (b_batch_code b)); ("class", JStr (b_class b));
        ("teacher_id", teacher); ("students", students);
        ("announcements", announcements);
        ("createdAt", JNum (b_createdAt b));
        ("updatedAt", JNum (b_updatedAt b))].

(** The batch with [teacher_id] and [students] populated. *)
Definition populated_batch (db : DB) (b : Batch) : json :=
  json_of_batch (populate_teacher db (b_teacher_id b))
                (JArr (map json_of_student (populate_students db (b_students b))))
                (raw_announcements b) b.

(** [.sort({ createdAt: -1 })]. *)
Fixpoint insert_desc (b : Batch) (l : list Batch) : list Batch :=
  match l with
  | [] => [b]
  | x :: r =>
      if (b_createdAt x <? b_createdAt b)%N then b :: l
      else x :: insert_desc b r
  end.

Definition sort_desc (l : list Batch) : list Batch :=
  fold_right insert_desc [] l.

Definition fail (message : string) : json :=
  JObj [("success", JBool false); ("message", JStr message)].

Definition fail_with (message : string) (e : Error) : json :=
  JObj [("success", JBool false); ("message", JStr message);
        ("error", JStr (e_message e))].

Definition with_students (b : Batch) (l : list string) : Batch :=
  mkBatch (b_id b) (b_name b) (b_batch_code b) (b_class b) (b_teacher_id b)
          l (b_announcements b) (b_createdAt b) (b_updatedAt b).

Definition with_announcements (b : Batch) (l : list Announcement) : Batch :=
  mkBatch (b_id b) (b_name b) (b_batch_code b) (b_class b) (b_teacher_id b)
          (b_students b) l (b_createdAt b) (b_updatedAt b).

(** [arr.includes(x)] on an array of ObjectIds: [x] is not cast, it is
    compared with the text of each element. *)
Definition includes (l : list string) (x : string) : bool :=
  existsb (String.eqb x) l.

(** [header.split(' ')[1]]. *)
Definition second_segment (h : string) : option string :=
  nth_error (Js.split " " h) 1.

(* ================================================================= *)
(** ** The admin router *)

Module Admin.
Section Routes.
Context {P : Primitives}.
Variable cfg : Config.

Definition registerSchema : list zfield :=
  [ mkZ "name" false [ZMin 1 "Name is required"];
    mkZ "email" false [ZEmail "Invalid email format"];
    mkZ "password" false
        [ZMin 6 "Password must be at least 6 characters long"] ].

Definition batchSchema : list zfield :=
  [ mkZ "batch_code" false [ZMin 1 "Batch code is required"];
    mkZ "name" false [ZMin 1 "Batch name is required"];
    mkZ "class" false [ZMin 1 "Class is required"];
    mkZ "teacher_id" false [ZMin 1 "Teacher ID is required"] ].

(** POST /register.  The body is the object of [express.json()], so the
    handler's guard against a body that is no object never fires. *)
Definition post_register (req : Req) (env : Env) : DB -> Response * DB :=
  try_catch
    (validatedData <- lift (zod_parse registerSchema (r_body req)) ;;
     existingAdmin <- AdminUserModel.findOne
       (fun a => a_email a =? field "email" validatedData) ;;
     match existingAdmin with
     | Some _ => ret (mkResponse 409 (fail "Admin email already exists"))
     | None =>
         let hashedPassword :=
           bcrypt_hash (field "password" validatedData) 10 (salt env) in
         admin <- AdminUserModel.create (field "name" validatedData)
                    (field "email" validatedData) hashedPassword "admin" true ;;
         token <- sign cfg (mkClaims (Some (a_id admin)) None
                                     (a_email admin) (Some "admin"))
                       hour env ;;
         ret (mkResponse 201
           (JObj [("success", JBool true);
                  ("message", JStr "Admin registration successful");
                  ("token", JStr token);
                  ("admin", JObj [("id", JStr (a_id admin));
                                  ("name", JStr (a_name admin));
                                  ("email", JStr (a_email admin));
                                  ("role", JStr "admin")])]))
     end)
    (fun error =>
       match e_errors error with
       | Some errors =>
           mkResponse 400
             (JObj [("success", JBool false);
                    ("message", JStr "Validation error");
                    ("errors", errors);
                    ("receivedData", json_of_obj (r_body req))])
       | None =>
           mkResponse 500
             (fail_with "Server error during registration" error)
       end).

Definition validateLogin (data : Obj) : bool * json :=
  let email_bad :=
    negb (Js.truthy (prop "email" data))
    || negb (Js.email_regex (field "email" data)) in
  let password_bad := negb (Js.truthy (prop "password" data)) in
  let errors :=
    (if email_bad then [("email", JStr "Invalid email format")] else [])
    ++ (if password_bad then [("password", JStr "Password is required")]
        else []) in
  ((List.length errors =? 0)%nat, JObj errors).

(** POST /login *)
Definition post_login (req : Req) (env : Env) : DB -> Response * DB :=
  try_catch
    (let validation := validateLogin (r_body req) in
     if negb (fst validation) then
       ret (mkResponse 400 (JObj [("message", JStr "Invalid input");
                                  ("details", snd validation)]))
     else
       let email := field "email" (r_body req) in
       let password := field "password" (r_body req) in
       admin <- AdminUserModel.findOne (fun a => a_email a =? email) ;;
       match admin with
       | None =>
           ret (mkResponse 404 (JObj [("message", JStr "Admin not found")]))
       | Some admin =>
           if negb (bcrypt_compare password (a_password admin)) then
             ret (mkResponse 401
                    (JObj [("message", JStr "Invalid password")]))
           else
             token <- sign cfg (mkClaims (Some (a_id admin)) None
                                         (a_email admin) None)
                           hour env ;;
             ret (res_json
               (JObj [("message", JStr "Admin login successful");
                      ("token", JStr token);
                      ("admin", JObj [("name", JStr (a_name admin));
                                      ("email", JStr (a_email admin))])]))
       end)
    (fun error =>
       mkResponse 500 (JObj [("message", JStr "Server error during login");
                             ("details", JStr (e_message error))])).

(** POST /batches *)
Definition post_batches (req : Req) (env : Env) : DB -> Response * DB :=
  try_catch
    (validatedData <- lift (zod_parse batchSchema (r_body req)) ;;
     admin <- AdminUserModel.findById
                (Some (field "teacher_id" validatedData)) ;;
     match admin with
     | None => ret (mkResponse 404 (fail "Teacher not found"))
     | Some admin =>
         existingBatch <- BatchModel.findOne
           (fun b => b_batch_code b
                     =? Js.toUpperCase (field "batch_code" validatedData)) ;;
         match existingBatch with
         | Some _ => ret (mkResponse 409 (fail "Batch code already exists"))
         | None =>
             batch <- BatchModel.create env
                        (Js.toUpperCase (field "batch_code" validatedData))
                        (field "name" validatedData)
                        (field "class" validatedData)
                        (a_id admin) [] ;;
             populatedBatch <- BatchModel.findByObjectId (b_id batch) ;;
             db <- gets (fun db => db) ;;
             ret (mkResponse 201
               (JObj [("success", JBool true);
                      ("message", JStr "Batch created successfully");
                      ("batch",
                       match populatedBatch with
                       | Some b => populated_batch db b
                       | None => JNull
                       end)]))
         end
     end)
    (fun error => mkResponse 500 (fail_with "Error creating batch" error)).

(** POST /batches/:batchId/students *)
Definition post_batches_students (req : Req) (env : Env)
  : DB -> Response * DB :=
  try_catch
    (match r_studentIds req with
     | None | Some [] => ret (mkResponse 400 (fail "Invalid student IDs"))
     | Some studentIds =>
         batch <- BatchModel.findById (r_batchId req) ;;
         match batch with
         | None => ret (mkResponse 404 (fail "Batch not found"))
         | Some batch =>
             students <- UserModel.find_in studentIds
               (fun u => u_role u =? "student") ;;
             if negb (List.length students =? List.length studentIds)%nat then
               ret (mkResponse 400 (fail "One or more invalid student IDs"))
             else
               let newStudentIds :=
                 filter (fun id => negb (includes (b_students batch) id))
                        studentIds in
               pushed <- castObjectIds newStudentIds ;;
               let batch :=
                 with_students batch (b_students batch ++ pushed) in
               BatchModel.save env [] batch ;;;
               updatedBatch <- BatchModel.findByObjectId (b_id batch) ;;
               db <- gets (fun db => db) ;;
               ret (res_json
                 (JObj [("success", JBool true);
                        ("message", JStr "Students added successfully");
                        ("batch",
                         match updatedBatch with
                         | Some b => populated_batch db b
                         | None => JNull
                         end)]))
         end
     end)
    (fun error => mkResponse 500 (fail_with "Error adding students" error)).

(** GET /batches *)
Definition get_batches (req : Req) (env : Env) : DB -> Response * DB :=
  try_catch
    (batches <- BatchModel.find (fun _ => true) ;;
     db <- gets (fun db => db) ;;
     ret (res_json
       (JObj [("success", JBool true);
              ("batches",
               JArr (map (populated_batch db) (sort_desc batches)))])))
    (fun error => mkResponse 500 (fail_with "Error fetching batches" error)).

(** GET /batches/:batchId *)
Definition get_batch (req : Req) (env : Env) : DB -> Response * DB :=
  try_catch
    (batch <- BatchModel.findById (r_batchId req) ;;
     db <- gets (fun db => db) ;;
     match batch with
     | None => ret (mkResponse 404 (fail "Batch not found"))
     | Some batch =>
         ret (res_json
           (JObj [("success", JBool true);
                  ("batch",
                   JObj [("_id", JStr (b_id batch));
                         ("name", JStr (b_name batch));
                         ("batch_code", JStr (b_batch_code batch));
                         ("class", JStr (b_class batch));
                         ("teacher_id",
                          populate_teacher db (b_teacher_id batch));
                         ("students",
                          JArr (map json_of_student
                                 (populate_students db (b_students batch))));
                         ("createdAt", JNum (b_createdAt batch));
                         ("status", JStr "active")])]))
     end)
    (fun error =>
       mkResponse 500 (fail_with "Error fetching batch details" error)).

(** GET /teachers *)
Definition get_teachers (req : Req) (env : Env) : DB -> Response * DB :=
  try_catch
    (teachers <- UserModel.find (fun u => u_role u =? "teacher") ;;
     ret (res_json
       (JObj [("success", JBool true);
              ("teachers", JArr (map json_of_student teachers));
              ("count", JNum (N.of_nat (List.length teachers)))])))
    (fun error => mkResponse 500 (fail_with "Error fetching teachers" error)).

(** POST /batches/:batchId/announcements *)
Definition post_announcements (req : Req) (env : Env)
  : DB -> Response * DB :=
  try_catch
    (let title := prop "title" (r_body req) in
     let content := prop "content" (r_body req) in
     let batchId := r_batchId req in
     match r_authorization req with
     | None => ret (mkResponse 401 (fail "Invalid authorization header"))
     | Some authHeader =>
         if negb (Js.startsWith "Bearer " authHeader) then
           ret (mkResponse 401 (fail "Invalid authorization header"))
         else
           let tokenTeacherId := second_segment authHeader in
           teacher <- AdminUserModel.findById tokenTeacherId ;;
           match teacher, tokenTeacherId with
           | Some _, Some tokenTeacherId =>
               batch <- BatchModel.findById batchId ;;
               match batch with
               | None => ret (mkResponse 404 (fail "Batch not found"))
               | Some batch =>
                   if negb (b_teacher_id batch =? tokenTeacherId) then
                     ret (mkResponse 403 (fail
                       "Unauthorized to create announcement for this batch"))
                   else
                     (* the sub-schema casts [teacher_id]; [findById] has
                        cast the same text above *)
                     teacher_id <- castObjectId tokenTeacherId ;;
                     let announcement :=
                       mkAnnouncement title content teacher_id (now env) in
                     let batch :=
                       with_announcements batch
                         (announcement :: b_announcements batch) in
                     BatchModel.save env [announcement] batch ;;;
                     populatedBatch <- BatchModel.findById batchId ;;
                     db <- gets (fun db => db) ;;
                     match populatedBatch with
                     | None =>
                         throw (mkError "TypeError"
                           "Cannot read properties of null" None None)
                     | Some pb =>
                         ret (mkResponse 201
                           (JObj ([("success", JBool true);
                                   ("message",
                                    JStr "Announcement created successfully")]
                                  ++ jopt "announcement"
                                       (hd_error
                                          (populated_announcements db pb)))))
                     end
               end
           | _, _ =>
               ret (mkResponse 401 (fail "Invalid teacher credentials"))
           end
     end)
    (fun error =>
       mkResponse 500 (fail_with "Error creating announcement" error)).

(** GET /batches/:batchId/announcements *)
Definition get_announcements (req : Req) (env : Env)
  : DB -> Response * DB :=
  try_catch
    (batch <- BatchModel.findById (r_batchId req) ;;
     db <- gets (fun db => db) ;;
     match batch with
     | None => ret (mkResponse 404 (fail "Batch not found"))
     | Some batch =>
         ret (res_json
           (JObj [("success", JBool true);
                  ("announcements",
                   JArr (populated_announcements db batch))]))
     end)
    (fun error =>
       mkResponse 500 (fail_with "Error fetching announcements" error)).

End Routes.
End Admin.

(* ================================================================= *)
(** ** The user router *)

Definition opt_eqb (a b : option string) : bool :=
  match a, b with
  | Some x, Some y => x =? y
  | None, None => true
  | _, _ => false
  end.

(** The text of a property known to be a string. *)
Definition str (v : option string) : string :=
  match v with
  | Some s => s
  | None => ""
  end.

(** A function that cannot throw, as a computation. *)
Definition total (f : DB -> Response * DB) : M Response :=
  fun db => let (r, db') := f db in (Ok r, db').

Definition json_of_user (u : User) : json :=
  JObj ([("_id", JStr (u_id u)); ("name", JStr (u_name u));
         ("email", JStr (u_email u))]
        ++ jopt "parentEmail" (jstr_opt (u_parentEmail u))
        ++ [("password", JStr (u_password u)); ("role", JStr (u_role u))]).

Module UserRoutes.
Section Routes.
Context {P : Primitives}.
Variable cfg : Config.

Definition registerSchema : list zfield :=
  [ mkZ "name" false [ZMin 1 "Name is required"];
    mkZ "email" false [ZEmail "Invalid email format"];
    mkZ "parentEmail" false [ZEmail "Invalid parent email format"];
    mkZ "password" false
        [ZMin 6 "Password must be at least 6 characters long"] ].

Definition loginSchema : list zfield :=
  [ mkZ "email" false [ZEmail "Invalid email format"];
    mkZ "password" false [ZMin 1 "Password is required"] ].

Definition profileSchema : list zfield :=
  [ mkZ "name" true [];
    mkZ "email" true [ZEmail "Invalid email format"];
    mkZ "currentPassword" true [];
    mkZ "newPassword" true
        [ZMin 6 "New password must be at least 6 characters long"] ].

Definition joinBatchSchema : list zfield :=
  [ mkZ "batch_code" false [ZMin 1 "Batch code is required"] ].

(** [{ message: error.errors || "Invalid input" }] *)
Definition invalid_input (error : Error) : Response :=
  mkResponse 400
    (JObj [("message",
            match e_errors error with
            | Some errors => errors
            | None => JStr "Invalid input"
            end)]).

(** [jwt.verify(token, process.env.JWT_SECRET)] *)
Definition verify (token : option string) (env : Env) : M Claims :=
  match token with
  | None =>
      throw (mkError "JsonWebTokenError" "jwt must be provided" None None)
  | Some t =>
      match jwt_verify t (JWT_SECRET cfg) (now env) with
      | JwtOk c => ret c
      | JwtExpired =>
          throw (mkError "TokenExpiredError" "jwt expired" None None)
      | JwtMalformed =>
          throw (mkError "JsonWebTokenError" "jwt malformed" None None)
      end
  end.

Definition user_claims (u : User) (role : string) : Claims :=
  mkClaims None (Some (u_id u)) (u_email u) (Some role).

(** POST /register *)
Definition post_register (req : Req) (env : Env) : DB -> Response * DB :=
  try_catch
    (parsedData <- lift (zod_parse registerSchema (r_body req)) ;;
     let name := field "name" parsedData in
     let email := field "email" parsedData in
     let parentEmail := field "parentEmail" parsedData in
     let password := field "password" parsedData in
     existingUser <- UserModel.findOne
       (fun u => (u_email u =? email) || (u_email u =? parentEmail)) ;;
     match existingUser with
     | Some _ =>
         ret (mkResponse 409
                (JObj [("message", JStr "Email already exists")]))
     | None =>
         let hashedPassword :=
           bcrypt_hash password (SALT_ROUNDS cfg) (salt env) in
         user <- UserModel.create cfg name email (Some parentEmail)
                   hashedPassword "student" ;;
         UserModel.create cfg ("Parent of " ++ name)%string parentEmail
                          None hashedPassword "parent" ;;;
         token <- sign cfg (user_claims user (u_role user)) hour env ;;
         ret (mkResponse 201
           (JObj [("message", JStr "Registration successful");
                  ("token", JStr token);
                  ("user",
                   JObj ([("name", JStr (u_name user));
                          ("email", JStr (u_email user))]
                         ++ jopt "parentEmail"
                              (jstr_opt (u_parentEmail user))
                         ++ [("role", JStr (u_role user))]))]))
     end)
    invalid_input.

(** POST /login (kept for backward compatibility) *)
Definition post_login (req : Req) (env : Env) : DB -> Response * DB :=
  try_catch
    (parsedData <- lift (zod_parse loginSchema (r_body req)) ;;
     let email := field "email" parsedData in
     let password := field "password" parsedData in
     user <- UserModel.findOne
       (fun u => (u_email u =? email)
                 || opt_eqb (u_parentEmail u) (Some email)) ;;
     match user with
     | None =>
         ret (mkResponse 404 (JObj [("message", JStr "User not found")]))
     | Some user =>
         if negb (bcrypt_compare password (u_password user)) then
           ret (mkResponse 401 (JObj [("message", JStr "Invalid password")]))
         else
           token <- sign cfg (user_claims user (u_role user)) hour env ;;
           ret (res_json
             (JObj [("message", JStr "Login successful");
                    ("token", JStr token);
                    ("user",
                     JObj ([("name", JStr (u_name user));
                            ("email", JStr (u_email user))]
                           ++ jopt "parentEmail"
                                (jstr_opt (u_parentEmail user))
                           ++ [("role", JStr (u_role user))]))]))
     end)
    invalid_input.

(** POST /login/student *)
Definition post_login_student (req : Req) (env : Env)
  : DB -> Response * DB :=
  try_catch
    (let email := prop "email" (r_body req) in
     let password := prop "password" (r_body req) in
     if negb (Js.truthy email) || negb (Js.truthy password) then
       ret (mkResponse 400 (fail "Email and password are required"))
     else
       let email := field "email" (r_body req) in
       let password := field "password" (r_body req) in
       student <- UserModel.findOne
         (fun u => (u_email u =? email) && (u_role u =? "student")) ;;
       match student with
       | None => ret (mkResponse 404 (fail "Student not found"))
       | Some student =>
           if negb (bcrypt_compare password (u_password student)) then
             ret (mkResponse 401 (fail "Invalid password"))
           else
             token <- sign cfg (user_claims student "student")
                           (24 * hour) env ;;
             ret (res_json
               (JObj [("success", JBool true);
                      ("message", JStr "Login successful");
                      ("token", JStr token);
                      ("user", JObj [("id", JStr (u_id student));
                                     ("name", JStr (u_name student));
                                     ("email", JStr (u_email student));
                                     ("role", JStr "student")])]))
       end)
    (fun error => mkResponse 500 (fail_with "Login failed" error)).

(** POST /login/parent *)
Definition post_login_parent (req : Req) (env : Env)
  : DB -> Response * DB :=
  try_catch
    (let email := prop "email" (r_body req) in
     let password := prop "password" (r_body req) in
     if negb (Js.truthy email) || negb (Js.truthy password) then
       ret (mkResponse 400 (fail "Email and password are required"))
     else
       let email := field "email" (r_body req) in
       let password := field "password" (r_body req) in
       parent <- UserModel.findOne
         (fun u => (u_email u =? email) && (u_role u =? "parent")) ;;
       match parent with
       | None =>
           ret (mkResponse 404
                  (fail "Parent account not found with this email"))
       | Some parent =>
           if negb (bcrypt_compare password (u_password parent)) then
             ret (mkResponse 401 (fail "Invalid password"))
           else
             linkedStudents <- UserModel.find
               (fun u => opt_eqb (u_parentEmail u) (Some email)
                         && (u_role u =? "student")) ;;
             token <- sign cfg (user_claims parent "parent")
                           (24 * hour) env ;;
             ret (res_json
               (JObj [("success", JBool true);
                      ("message", JStr "Login successful");
                      ("token", JStr token);
                      ("user", JObj [("id", JStr (u_id parent));
                                     ("name", JStr (u_name parent));
                                     ("email", JStr (u_email parent));
                                     ("role", JStr "parent")]);
                      ("linkedStudents",
                       JArr (map json_of_student linkedStudents))]))
       end)
    (fun error =>
       mkResponse 500 (fail_with "Login failed. Please try again." error)).

Definition with_password (u : User) (h : string) : User :=
  mkUser (u_id u) (u_name u) (u_email u) (u_parentEmail u) h (u_role u).
Definition with_name (u : User) (n : string) : User :=
  mkUser (u_id u) n (u_email u) (u_parentEmail u) (u_password u) (u_role u).
Definition with_email (u : User) (e : string) : User :=
  mkUser (u_id u) (u_name u) e (u_parentEmail u) (u_password u) (u_role u).

(** The tail of PUT /profile, once the password has been dealt with. *)
Definition profile_rest (user : User) (name email : option string)
  : M Response :=
  let user := if Js.truthy name then with_name user (str name) else user in
  if Js.truthy email then
    let email := str email in
    existingUser <- UserModel.findOne
      (fun u => (u_email u =? email) && negb (u_id u =? u_id user)) ;;
    match existingUser with
    | Some _ =>
        ret (mkResponse 409 (JObj [("message", JStr "Email already exists")]))
    | None =>
        UserModel.save cfg (with_email user email) ;;;
        ret (res_json (JObj [("message",
                              JStr "Profile updated successfully")]))
    end
  else
    UserModel.save cfg user ;;;
    ret (res_json (JObj [("message", JStr "Profile updated successfully")])).

(** PUT /profile *)
Definition put_profile (req : Req) (env : Env) : DB -> Response * DB :=
  try_catch
    (parsedData <- lift (zod_parse profileSchema (r_body req)) ;;
     let name := prop "name" parsedData in
     let email := prop "email" parsedData in
     let currentPassword := prop "currentPassword" parsedData in
     let newPassword := prop "newPassword" parsedData in
     match r_user req with
     | None =>
         throw (mkError "TypeError"
           "Cannot read properties of undefined (reading 'userId')"
           None None)
     | Some req_user =>
         user <- UserModel.findById (userId req_user) ;;
         match user with
         | None =>
             ret (mkResponse 404 (JObj [("message", JStr "User not found")]))
         | Some user =>
             if Js.truthy currentPassword && Js.truthy newPassword then
               if negb (bcrypt_compare (field "currentPassword" parsedData)
                                       (u_password user)) then
                 ret (mkResponse 401
                   (JObj [("message",
                           JStr "Current password is incorrect")]))
               else
                 profile_rest
                   (with_password user
                      (bcrypt_hash (field "newPassword" parsedData)
                                   (SALT_ROUNDS cfg) (salt env)))
                   name email
             else profile_rest user name email
         end
     end)
    invalid_input.

(** POST /join-batch *)
Definition post_join_batch (req : Req) (env : Env) : DB -> Response * DB :=
  try_catch
    (let batch_code := prop "batch_code" (r_body req) in
     let authHeader := r_authorization req in
     if negb (Js.truthy batch_code) || negb (Js.truthy authHeader) then
       ret (mkResponse 400
              (fail "Batch code and authorization header are required"))
     else
       let token := second_segment (str authHeader) in
       decoded <- verify token env ;;
       student <- UserModel.findById (userId decoded) ;;
       match student with
       | None => ret (mkResponse 403 (fail "Only students can join batches"))
       | Some student =>
           if negb (u_role student =? "student") then
             ret (mkResponse 403 (fail "Only students can join batches"))
           else
             batch <- BatchModel.findOne
               (fun b => b_batch_code b =? Js.toUpperCase (str batch_code)) ;;
             match batch with
             | None =>
                 ret (mkResponse 404
                   (fail "Batch not found. Please check the batch code"))
             | Some batch =>
                 if includes (b_students batch) (u_id student) then
                   ret (mkResponse 409
                     (fail "You are already enrolled in this batch"))
                 else
                   let batch :=
                     with_students batch
                       (b_students batch ++ [u_id student]) in
                   BatchModel.save env [] batch ;;;
                   ret (res_json
                     (JObj [("success", JBool true);
                            ("message", JStr "Successfully joined batch");
                            ("batch",
                             JObj [("code", JStr (b_batch_code batch));
                                   ("name", JStr (b_name batch));
                                   ("class", JStr (b_class batch))])]))
             end
       end)
    (fun error =>
       if (e_name error =? "JsonWebTokenError")
          || (e_name error =? "TokenExpiredError") then
         mkResponse 401 (fail "Invalid or expired token")
       else mkResponse 500 (fail_with "Error joining batch" error)).

(** [{ name: t?.name || 'Not Assigned', email: t?.email }] *)
Definition teacher_summary (db : DB) (id : string) : json :=
  match find (fun a => a_id a =? id) (admins db) with
  | Some a =>
      JObj [("name", JStr (if a_name a =? "" then "Not Assigned"
                           else a_name a));
            ("email", JStr (a_email a))]
  | None => JObj [("name", JStr "Not Assigned")]
  end.

(** GET /my-batches *)
Definition get_my_batches (req : Req) (env : Env) : DB -> Response * DB :=
  try_catch
    (let student_id := prop "student_id" (r_query req) in
     if negb (Js.truthy student_id) then
       ret (mkResponse 400 (fail "Student ID is required"))
     else
       batches <- BatchModel.find_by_student (str student_id) ;;
       db <- gets (fun db => db) ;;
       ret (res_json
         (JObj [("success", JBool true);
                ("batches",
                 JArr (map (fun batch =>
                   JObj [("_id", JStr (b_id batch));
                         ("name", JStr (b_name batch));
                         ("batch_code", JStr (b_batch_code batch));
                         ("class", JStr (b_class batch));
                         ("teacher",
                          teacher_summary db (b_teacher_id batch));
                         ("studentsCount",
                          JNum (N.of_nat (List.length (b_students batch))));
                         ("createdAt", JNum (b_createdAt batch))])
                   (sort_desc batches)))])))
    (fun error => mkResponse 500 (fail "Error fetching batches")).

(** The batches of one student, as GET /parent/student-batches lists
    them. *)
Definition student_batches (db : DB) (student : User) : json :=
  let batches :=
    sort_desc (filter (fun b => includes (b_students b) (u_id student))
                      (batches db)) in
  JObj [("student", JObj [("id", JStr (u_id student));
                          ("name", JStr (u_name student));
                          ("email", JStr (u_email student))]);
        ("batches",
         JArr (map (fun batch =>
           JObj [("_id", JStr (b_id batch));
                 ("name", JStr (b_name batch));
                 ("batch_code", JStr (b_batch_code batch));
                 ("class", JStr (b_class batch));
                 ("teacher_id", populate_teacher db (b_teacher_id batch));
                 ("studentsCount",
                  JNum (N.of_nat (List.length
                          (populate_students db (b_students batch)))));
                 ("announcements",
                  JNum (N.of_nat (List.length (b_announcements batch))));
                 ("createdAt", JNum (b_createdAt batch))])
           batches))].

(** GET /parent/student-batches *)
Definition get_parent_student_batches (req : Req) (env : Env)
  : DB -> Response * DB :=
  try_catch
    (match r_authorization req with
     | None => ret (mkResponse 401 (fail "Authentication required"))
     | Some authHeader =>
         if negb (Js.startsWith "Bearer " authHeader) then
           ret (mkResponse 401 (fail "Authentication required"))
         else
           let token := second_segment authHeader in
           decoded <- verify token env ;;
           parent <- UserModel.findById (userId decoded) ;;
           match parent with
           | None => ret (mkResponse 403 (fail "Parent access required"))
           | Some parent =>
               if negb (u_role parent =? "parent") then
                 ret (mkResponse 403 (fail "Parent access required"))
               else
                 students <- UserModel.find
                   (fun u => opt_eqb (u_parentEmail u)
                                     (Some (u_email parent))) ;;
                 db <- gets (fun db => db) ;;
                 ret (res_json
                   (JObj [("success", JBool true);
                          ("data",
                           JArr (map (student_batches db) students))]))
           end
     end)
    (fun error =>
       mkResponse (match e_status error with
                   | Some 0 | None => 500
                   | Some s => s
                   end)
         (fail (if e_message error =? ""
                then "Failed to fetch student batches"
                else e_message error))).

(** The batch as the two detail routes format it: the parent route adds
    the student ([extra]) and leaves out the list of students. *)
Definition formatted_batch (db : DB) (batch : Batch)
    (extra : list (string * json)) (with_students_list : bool) : json :=
  let students := populate_students db (b_students batch) in
  JObj ([("_id", JStr (b_id batch));
         ("name", JStr (b_name batch));
         ("batch_code", JStr (b_batch_code batch));
         ("class", JStr (b_class batch));
         ("teacher", populate_teacher db (b_teacher_id batch))]
        ++ extra
        ++ [("studentsCount", JNum (N.of_nat (List.length students)))]
        ++ (if with_students_list
            then [("students", JArr (map json_of_student students))]
            else [])
        ++ [("announcements", raw_announcements batch);
            ("createdAt", JNum (b_createdAt batch))]).

(** GET /student/batches/:batchId *)
Definition get_student_batch (req : Req) (env : Env)
  : DB -> Response * DB :=
  try_catch
    (let batchId := r_batchId req in
     let userId_q := prop "userId" (r_query req) in
     match r_authorization req with
     | None => ret (mkResponse 401 (fail "Authentication required"))
     | Some authHeader =>
         if negb (Js.startsWith "Bearer " authHeader) then
           ret (mkResponse 401 (fail "Authentication required"))
         else
           let token := second_segment authHeader in
           total (try_catch
             (decoded <- verify token env ;;
              if negb (opt_eqb (userId decoded) userId_q) then
                ret (mkResponse 403 (fail "User ID mismatch"))
              else
                batch <- BatchModel.findById batchId ;;
                db <- gets (fun db => db) ;;
                match batch with
                | None => ret (mkResponse 404 (fail "Batch not found"))
                | Some batch =>
                    let isEnrolled :=
                      existsb (fun student =>
                                 opt_eqb (Some (u_id student)) userId_q)
                              (populate_students db (b_students batch)) in
                    if negb isEnrolled then
                      ret (mkResponse 403
                             (fail "You are not enrolled in this batch"))
                    else
                      ret (res_json
                        (JObj [("success", JBool true);
                               ("batch",
                                formatted_batch db batch [] true)]))
                end)
             (fun tokenError =>
                mkResponse 401
                  (fail_with "Invalid or expired token" tokenError)))
     end)
    (fun error =>
       mkResponse 500 (fail_with "Error fetching batch details" error)).

(** GET /parent/batches/:batchId *)
Definition get_parent_batch (req : Req) (env : Env)
  : DB -> Response * DB :=
  try_catch
    (let batchId := r_batchId req in
     let parentId := prop "parentId" (r_query req) in
     let studentId := prop "studentId" (r_query req) in
     match r_authorization req with
     | None => ret (mkResponse 401 (fail "Authentication required"))
     | Some authHeader =>
         if negb (Js.startsWith "Bearer " authHeader) then
           ret (mkResponse 401 (fail "Authentication required"))
         else
           parent <- UserModel.findById parentId ;;
           student <- UserModel.findById studentId ;;
           match parent with
           | None => ret (mkResponse 403 (fail "Parent access required"))
           | Some parent =>
               if negb (u_role parent =? "parent") then
                 ret (mkResponse 403 (fail "Parent access required"))
               else
                 match student with
                 | None =>
                     ret (mkResponse 403 (fail "Invalid student access"))
                 | Some student =>
                     if negb (opt_eqb (u_parentEmail student)
                                      (Some (u_email parent))) then
                       ret (mkResponse 403 (fail "Invalid student access"))
                     else
                       batch <- BatchModel.findById batchId ;;
                       db <- gets (fun db => db) ;;
                       match batch with
                       | None =>
                           ret (mkResponse 404 (fail "Batch not found"))
                       | Some batch =>
                           if negb (existsb
                                      (fun s => opt_eqb (Some (u_id s))
                                                        studentId)
                                      (populate_students db
                                         (b_students batch))) then
                             ret (mkResponse 403
                               (fail "Student not enrolled in this batch"))
                           else
                             ret (res_json
                               (JObj [("success", JBool true);
                                      ("batch",
                                       formatted_batch db batch
                                         [("student", json_of_user student)]
                                         false)]))
                       end
                 end
           end
     end)
    (fun error =>
       mkResponse 500 (fail_with "Error fetching batch details" error)).

End Routes.
End UserRoutes.

(* ================================================================= *)
(** ** The application *)

(** The routes that the two routers declare, with their path parameter. *)
Inductive Endpoint : Type :=
| AdminRegister
| AdminLogin
| AdminCreateBatch
| AdminAddStudents (batchId : string)
| AdminListBatches
| AdminGetBatch (batchId : string)
| AdminTeachers
| AdminPostAnnouncement (batchId : string)
| AdminGetAnnouncements (batchId : string)
| UserRegister
| UserLogin
| UserLoginStudent
| UserLoginParent
| UserProfile
| UserJoinBatch
| UserMyBatches
| UserParentStudentBatches
| UserStudentBatch (batchId : string)
| UserParentBatch (batchId : string).

Section App.
Context {P : Primitives}.
Variable cfg : Config.

(** The application mounts [express.json()], [cors()] and the two
    routers, and nothing else: no middleware sets [req.user], so a
    handler is entered with it undefined. *)
Definition incoming (http : HttpRequest) (batchId : string) : Req :=
  mkReq http batchId None.

Definition app (ep : Endpoint) (http : HttpRequest) (env : Env)
  : DB -> Response * DB :=
  match ep with
  | AdminRegister => Admin.post_register cfg (incoming http "") env
  | AdminLogin => Admin.post_login cfg (incoming http "") env
  | AdminCreateBatch => Admin.post_batches (incoming http "") env
  | AdminAddStudents id => Admin.post_batches_students (incoming http id) env
  | AdminListBatches => Admin.get_batches (incoming http "") env
  | AdminGetBatch id => Admin.get_batch (incoming http id) env
  | AdminTeachers => Admin.get_teachers (incoming http "") env
  | AdminPostAnnouncement id =>
      Admin.post_announcements (incoming http id) env
  | AdminGetAnnouncements id =>
      Admin.get_announcements (incoming http id) env
  | UserRegister => UserRoutes.post_register cfg (incoming http "") env
  | UserLogin => UserRoutes.post_login cfg (incoming http "") env
  | UserLoginStudent =>
      UserRoutes.post_login_student cfg (incoming http "") env
  | UserLoginParent =>
      UserRoutes.post_login_parent cfg (incoming http "") env
  | UserProfile => UserRoutes.put_profile cfg (incoming http "") env
  | UserJoinBatch => UserRoutes.post_join_batch cfg (incoming http "") env
  | UserMyBatches => UserRoutes.get_my_batches (incoming http "") env
  | UserParentStudentBatches =>
      UserRoutes.get_parent_student_batches cfg (incoming http "") env
  | UserStudentBatch id =>
      UserRoutes.get_student_batch cfg (incoming http id) env
  | UserParentBatch id => UserRoutes.get_parent_batch (incoming http id) env
  end.

(** The states the application can be in: it starts on an empty
    database and moves by answering requests. *)
Inductive reachable : DB -> Prop :=
| reach_init : reachable empty_db
| reach_step : forall db ep http env,
    reachable db -> reachable (snd (app ep http env db)).

(** [later db db']: the application gets from [db] to [db'] by answering
    requests. *)
Inductive later : DB -> DB -> Prop :=
| later_now : forall db, later db db
| later_step : forall db db' ep http env,
    later db db' -> later db (snd (app ep http env db')).

End App.

(* ================================================================= *)
(** ** Notions used in the statements *)

(** The bearer segment of an [Authorization] header: what the routes take
    after checking the ["Bearer "] prefix. *)
Definition bearer_segment (h : string) : option string :=
  if Js.startsWith "Bearer " h then second_segment h else None.

(** The identifier resolves to a User with role student. *)
Definition resolves_to_student (db : DB) (id : string) : bool :=
  existsb (fun u => (u_id u =? id) && (u_role u =? "student")) (users db).

(** The e-mail is the e-mail of some User. *)
Definition email_exists (db : DB) (email : string) : bool :=
  existsb (fun u => u_email u =? email) (users db).

(** The store keeps identifiers unique within a collection. *)
Definition unique_ids (db : DB) : Prop :=
  NoDup (map u_id (users db)).

(** The users with role student whose identifier is among [_ids]. *)
Definition matched_students (db : DB) (_ids : list string) : list User :=
  filter (fun u => includes _ids (u_id u) && (u_role u =? "student"))
         (users db).

(** The batch as join-batch saves it. *)
Definition joined (env : Env) (b : Batch) (sid : string) : Batch :=
  mkBatch (b_id b) (b_name b) (b_batch_code b) (b_class b) (b_teacher_id b)
          (b_students b ++ [sid]) (b_announcements b) (b_createdAt b)
          (now env).

(** Every user is a student or a parent. *)
Definition roles_ok (db : DB) : Prop :=
  forall u, In u (users db) -> u_role u = "student" \/ u_role u = "parent".

(** User identifiers came out of the generator. *)
Definition ids_generated (db : DB) : Prop :=
  forall u, In u (users db) ->
            exists n, (n < next_oid db)%N /\ u_id u = oid n.

(** What holds of the database in every state of the application. *)
Record store_ok (db : DB) : Prop := mkStoreOk {
  ok_roles : roles_ok db;
  ok_generated : ids_generated db;
  ok_unique : unique_ids db
}.

(** What answering one request can do to the database. *)
Inductive effect (db db' : DB) : Prop :=
| eff_none :
    db' = db -> effect db db'
| eff_admin (a : AdminUser) :
    db' = mkDB (users db) (admins db ++ [a]) (batches db)
               (N.succ (next_oid db)) ->
    effect db db'
| eff_batch (b : Batch) :
    b_students b = [] ->
    db' = mkDB (users db) (admins db) (batches db ++ [b])
               (N.succ (next_oid db)) ->
    effect db db'
| eff_update (b b' : Batch) :
    In b (batches db) ->
    db' = mkDB (users db) (admins db)
               (map (fun x => if b_id x =? b_id b then b' else x)
                    (batches db))
               (next_oid db) ->
    effect db db'
| eff_student (s : User) :
    u_id s = oid (next_oid db) -> u_role s = "student" ->
    db' = mkDB (users db ++ [s]) (admins db) (batches db)
               (N.succ (next_oid db)) ->
    effect db db'
| eff_pair (s p : User) :
    u_id s = oid (next_oid db) -> u_role s = "student" ->
    u_id p = oid (N.succ (next_oid db)) -> u_role p = "parent" ->
    db' = mkDB (users db ++ [s; p]) (admins db) (batches db)
               (N.succ (N.succ (next_oid db))) ->
    effect db db'.

(** A stored batch against what it was before: its identity, code, owner
    and creation time are the same; students were added at the end and
    announcements at the front, none taken away. *)
Definition batch_extends (b b' : Batch) : Prop :=
  b_id b' = b_id b
  /\ b_name b' = b_name b
  /\ b_batch_code b' = b_batch_code b
  /\ b_class b' = b_class b
  /\ b_teacher_id b' = b_teacher_id b
  /\ b_createdAt b' = b_createdAt b
  /\ (exists more, b_students b' = b_students b ++ more)
  /\ (exists more, b_announcements b' = more ++ b_announcements b).

(** A database against an earlier one: users, admins and batches were
    added at the end, none removed, and each earlier batch was extended. *)
Definition grows (db db' : DB) : Prop :=
  (exists more, users db' = users db ++ more)
  /\ (exists more, admins db' = admins db ++ more)
  /\ (exists bs more,
        batches db' = bs ++ more /\ Forall2 batch_extends (batches db) bs).

(** An announcement as the schema and the owner check let it in. *)
Definition announcement_ok (b : Batch) (a : Announcement) : Prop :=
  an_teacher_id a = b_teacher_id b
  /\ Js.truthy (an_title a) = true
  /\ Js.truthy (an_content a) = true.

Section Writes.
Context {P : Primitives}.
Variable cfg : Config.

(** The text is a hash, at the given cost, of a password of six
    characters or more. *)
Definition hashed (rounds : nat) (h : string) : Prop :=
  exists pw salt,
    (6 <= String.length pw)%nat /\ h = bcrypt_hash pw rounds salt.

(** The writes that answering one request can make, each with what the
    handler checked before making it. *)
Inductive change (db db' : DB) : Prop :=
| ch_none :
    db' = db -> change db db'
| ch_admin (a : AdminUser) :
    a_id a = oid (next_oid db) ->
    a_role a = "admin" -> a_active a = true ->
    existsb (fun x => a_email x =? a_email a) (admins db) = false ->
    hashed 10 (a_password a) ->
    db' = mkDB (users db) (admins db ++ [a]) (batches db)
               (N.succ (next_oid db)) ->
    change db db'
| ch_batch (b : Batch) :
    b_id b = oid (next_oid db) ->
    b_students b = [] -> b_announcements b = [] ->
    Js.toUpperCase (b_batch_code b) = b_batch_code b ->
    existsb (fun x => b_batch_code x =? b_batch_code b) (batches db)
    = false ->
    (exists a, In a (admins db) /\ a_id a = b_teacher_id b) ->
    db' = mkDB (users db) (admins db) (batches db ++ [b])
               (N.succ (next_oid db)) ->
    change db db'
| ch_update (b b' : Batch) :
    In b (batches db) ->
    batch_extends b b' ->
    (unique_ids db ->
     forall i, In i (b_students b') ->
               In i (b_students b) \/ resolves_to_student db i = true) ->
    (forall a, In a (b_announcements b') ->
               In a (b_announcements b)
               \/ (cast_id (b_teacher_id b) = Some (b_teacher_id b) ->
                   announcement_ok b a)) ->
    db' = mkDB (users db) (admins db)
               (map (fun x => if b_id x =? b_id b then b' else x)
                    (batches db))
               (next_oid db) ->
    change db db'
| ch_student (s : User) :
    u_id s = oid (next_oid db) -> u_role s = "student" ->
    hashed (SALT_ROUNDS cfg) (u_password s) ->
    db' = mkDB (users db ++ [s]) (admins db) (batches db)
               (N.succ (next_oid db)) ->
    change db db'
| ch_pair (s p : User) :
    u_id s = oid (next_oid db) -> u_role s = "student" ->
    u_id p = oid (N.succ (next_oid db)) -> u_role p = "parent" ->
    hashed (SALT_ROUNDS cfg) (u_password s) ->
    u_password p = u_password s ->
    u_parentEmail s = Some (u_email p) ->
    db' = mkDB (users db ++ [s; p]) (admins db) (batches db)
               (N.succ (N.succ (next_oid db))) ->
    change db db'.

(** What holds of admins and batches in every state of the application. *)
Record integrity (db : DB) : Prop := mkIntegrity {
  int_admin_ids :
    forall a, In a (admins db) ->
              exists n, (n < next_oid db)%N /\ a_id a = oid n;
  int_admin_unique : NoDup (map a_id (admins db));
  int_admin_emails : NoDup (map a_email (admins db));
  int_admin_role :
    forall a, In a (admins db) -> a_role a = "admin" /\ a_active a = true;
  int_admin_hashed :
    forall a, In a (admins db) -> hashed 10 (a_password a);
  int_user_hashed :
    forall u, In u (users db) -> hashed (SALT_ROUNDS cfg) (u_password u);
  int_batch_ids :
    forall b, In b (batches db) ->
              exists n, (n < next_oid db)%N /\ b_id b = oid n;
  int_batch_unique : NoDup (map b_id (batches db));
  int_codes_upper :
    forall b, In b (batches db) ->
              Js.toUpperCase (b_batch_code b) = b_batch_code b;
  int_codes_unique : NoDup (map b_batch_code (batches db));
  int_teacher :
    forall b, In b (batches db) ->
              exists a, In a (admins db) /\ a_id a = b_teacher_id b;
  int_enrolled :
    forall b i, In b (batches db) -> In i (b_students b) ->
                resolves_to_student db i = true;
  int_announcements :
    forall b a, In b (batches db) -> In a (b_announcements b) ->
                announcement_ok b a
}.

End Writes.

(** The routes that only read. *)
Definition read_only (ep : Endpoint) : bool :=
  match ep with
  | AdminLogin | AdminListBatches | AdminGetBatch _ | AdminTeachers
  | AdminGetAnnouncements _
  | UserLogin | UserLoginStudent | UserLoginParent
  | UserMyBatches | UserParentStudentBatches
  | UserStudentBatch _ | UserParentBatch _ => true
  | _ => false
  end.

(** The batches come newest first. *)
Fixpoint descending (l : list Batch) : Prop :=
  match l with
  | [] => True
  | b :: r =>
      (forall x, In x r -> (b_createdAt x <= b_createdAt b)%N)
      /\ descending r
  end.

(** No white space in the text. *)
Definition spaceless (s : string) : Prop :=
  forall c, In c (list_ascii_of_string s) -> Js.is_space c = false.

(** The four login operations. *)
Inductive LoginRoute : Type :=
| LoginAdmin
| LoginLegacy
| LoginStudent
| LoginParent.

Inductive Account : Type :=
| AdminAccount (a : AdminUser)
| UserAccount (u : User).

Definition account_id (acc : Account) : string :=
  match acc with
  | AdminAccount a => a_id a
  | UserAccount u => u_id u
  end.

Definition account_role (acc : Account) : string :=
  match acc with
  | AdminAccount a => a_role a
  | UserAccount u => u_role u
  end.

Definition account_password (acc : Account) : string :=
  match acc with
  | AdminAccount a => a_password a
  | UserAccount u => u_password u
  end.

Definition account_email (acc : Account) : string :=
  match acc with
  | AdminAccount a => a_email a
  | UserAccount u => u_email u
  end.

(** The payload a login token is to carry for an account: the identifier
    ([adminId] for an admin, [userId] for a user), the e-mail and, for a
    user, the role. *)
Definition login_payload (acc : Account) : Claims :=
  match acc with
  | AdminAccount a => mkClaims (Some (a_id a)) None (a_email a) None
  | UserAccount u =>
      mkClaims None (Some (u_id u)) (u_email u) (Some (u_role u))
  end.

(** The subject of a token: [adminId] in admin tokens, [userId] in user
    tokens. *)
Definition subject (c : Claims) : option string :=
  match adminId c with
  | Some i => Some i
  | None => userId c
  end.

Section Login.
Context {P : Primitives}.
Variable cfg : Config.

Definition login (r : LoginRoute) : Req -> Env -> DB -> Response * DB :=
  match r with
  | LoginAdmin => Admin.post_login cfg
  | LoginLegacy => UserRoutes.post_login cfg
  | LoginStudent => UserRoutes.post_login_student cfg
  | LoginParent => UserRoutes.post_login_parent cfg
  end.

(** The input check that each login route makes first. *)
Definition login_input_ok (r : LoginRoute) (o : Obj) : bool :=
  match r with
  | LoginAdmin => fst (Admin.validateLogin o)
  | LoginLegacy =>
      match zod_parse UserRoutes.loginSchema o with
      | Ok _ => true
      | Throw _ => false
      end
  | LoginStudent | LoginParent =>
      Js.truthy (prop "email" o) && Js.truthy (prop "password" o)
  end.

(** The account that each login route looks up for an e-mail. *)
Definition login_lookup (r : LoginRoute) (email : string) (db : DB)
  : option Account :=
  match r with
  | LoginAdmin =>
      option_map AdminAccount
        (find (fun a => a_email a =? email) (admins db))
  | LoginLegacy =>
      option_map UserAccount
        (find (fun u => (u_email u =? email)
                        || opt_eqb (u_parentEmail u) (Some email))
              (users db))
  | LoginStudent =>
      option_map UserAccount
        (find (fun u => (u_email u =? email) && (u_role u =? "student"))
              (users db))
  | LoginParent =>
      option_map UserAccount
        (find (fun u => (u_email u =? email) && (u_role u =? "parent"))
              (users db))
  end.

(** The time a login token lives. *)
Definition login_ttl (r : LoginRoute) : N :=
  match r with
  | LoginAdmin | LoginLegacy => hour
  | LoginStudent | LoginParent => 24 * hour
  end.

End Login.

(* ================================================================= *)
(** ** Data for the examples *)

Module Example.

(** Primitives to compute with: the hash is the plain text, a token
    spells out its subject, an e-mail is what the login expression
    accepts. *)
Definition plain : Primitives := {|
  bcrypt_hash := fun pw _ _ => pw;
  bcrypt_compare := fun pw h => pw =? h;
  jwt_sign := fun c _ _ _ =>
    match userId c with
    | Some i => ("user:" ++ i)%string
    | None => "admin"
    end;
  jwt_verify := fun tok _ _ =>
    if String.prefix "user:" tok
    then JwtOk (mkClaims None
                  (Some (substring 5 (String.length tok - 5) tok)) "" None)
    else JwtMalformed;
  zod_email := Js.email_regex
|}.

Definition cfg : Config := mkConfig "secret" 10 true.
Definition env : Env := mkEnv 100 "salt".

Definition admin0 : AdminUser :=
  mkAdminUser "0x0" "A" "a@x.com" "secret1" "admin" true.
Definition student2 : User :=
  mkUser "0x2" "S" "s@x.com" (Some "p@x.com") "secret1" "student".
Definition parent3 : User :=
  mkUser "0x3" "Parent of S" "p@x.com" None "secret1" "parent".
Definition batch1 (students : list string) : Batch :=
  mkBatch "0x1" "CS" "CS101" "10" "0x0" students [] 100 100.

(** One admin, nothing else. *)
Definition db_admin : DB := mkDB [] [admin0] [] 1.
(** The admin, its batch CS101, a student and the student's parent. *)
Definition db_school : DB :=
  mkDB [student2; parent3] [admin0] [batch1 []] 4.
(** The same, with the student enrolled. *)
Definition db_enrolled : DB :=
  mkDB [student2; parent3] [admin0] [batch1 ["0x2"]] 4.

Definition post (o : Obj) : HttpRequest := mkHttp None [] o None.

Definition batch_body : Obj :=
  [("batch_code", "cs101"); ("name", "CS"); ("class", "10");
   ("teacher_id", "0x0")].

Definition register_body : Obj :=
  [("name", "S"); ("email", "s@x.com"); ("parentEmail", "p@x.com");
   ("password", "secret1")].

Definition announcement_body : Obj :=
  [("title", "Exam"); ("content", "On Monday")].

(** The states of a short session: an admin registers, creates batch
    CS101, a student registers (and with it the parent), the student
    joins the batch, the admin posts an announcement. *)
Definition db1 : DB :=
  snd (app (P := plain) cfg AdminRegister
         (post [("name", "A"); ("email", "a@x.com");
                ("password", "secret1")]) env empty_db).
Definition db2 : DB :=
  snd (app (P := plain) cfg AdminCreateBatch (post batch_body) env db1).
Definition db3 : DB :=
  snd (app (P := plain) cfg UserRegister (post register_body) env db2).
Definition join_request : HttpRequest :=
  mkHttp (Some "Bearer user:0x2") [] [("batch_code", "cs101")] None.
Definition db4 : DB :=
  snd (app (P := plain) cfg UserJoinBatch join_request env db3).
Definition announce_request : HttpRequest :=
  mkHttp (Some "Bearer 0x0") [] announcement_body None.

(** A class of five: after the admin and batch CS101, five students
    register; the fifth is given the identifier ["0xa"] and the admin
    adds that student to the batch. *)
Definition student_body (k : string) : Obj :=
  [("name", k); ("email", (k ++ "@x.com")%string);
   ("parentEmail", ("p" ++ k ++ "@x.com")%string); ("password", "secret1")].
Definition db_class : DB :=
  fold_left (fun db k =>
               snd (app (P := plain) cfg UserRegister (post (student_body k))
                        env db))
            ["s1"; "s2"; "s3"; "s4"; "s5"] db2.
Definition add_request (ids : list string) : HttpRequest :=
  mkHttp None [] [] (Some ids).
Definition db_class_enrolled : DB :=
  snd (app (P := plain) cfg (AdminAddStudents "0x1") (add_request ["0xa"])
           env db_class).
Definition db5 : DB :=
  snd (app (P := plain) cfg (AdminPostAnnouncement "0x1") announce_request
         env db4).

End Example.

(* ================================================================= *)
(** ** Proof support *)

Ltac run :=
  unfold
    AdminUserModel.create, AdminUserModel.findById, AdminUserModel.findOne,
    UserModel.create, UserModel.save, UserModel.findById, UserModel.findOne,
    UserModel.find_in, UserModel.find,
    BatchModel.create, BatchModel.save, BatchModel.findById,
    BatchModel.findByObjectId, BatchModel.findOne,
    BatchModel.find_by_student, BatchModel.find,
    UserRoutes.verify, fresh_oid, sign, castObjectId, castObjectIds in *;
  unfold try_catch, bind, ret, throw, lift, gets, modify, total, res_json in *.

(** Succeeds on a term that contains no case analysis. *)
Ltac flat t :=
  lazymatch t with
  | context [match _ with _ => _ end] => fail
  | _ => idtac
  end.

(** Case analysis on an innermost scrutinee of the goal. *)
Ltac split_match :=
  match goal with
  | |- context [match ?x with _ => _ end] => flat x; destruct x eqn:?
  end.

Ltac cases := repeat (split_match; simpl; try reflexivity).

Lemma upper_char_idem (c : ascii) :
  Js.upper_char (Js.upper_char c) = Js.upper_char c.
Proof.
  destruct c as [[|] [|] [|] [|] [|] [|] [|] [|]]; reflexivity.
Qed.

Lemma toUpperCase_idem (s : string) :
  Js.toUpperCase (Js.toUpperCase s) = Js.toUpperCase s.
Proof.
  induction s as [|c r IH]; simpl; [reflexivity|].
  now rewrite upper_char_idem, IH.
Qed.

Lemma find_none_existsb {A} (p : A -> bool) (l : list A) :
  find p l = None -> existsb p l = false.
Proof.
  induction l as [|x l IH]; simpl; [reflexivity|].
  destruct (p x); [discriminate|]. exact IH.
Qed.

(** Replacing the documents that carry an identifier by one that carries
    the same identifier: a look-up by that identifier sees the new one. *)
Lemma find_replaced (i : string) (b b' : Batch) (l : list Batch) :
  b_id b = i -> b_id b' = i ->
  find (fun x => b_id x =? i) l = Some b ->
  find (fun x => b_id x =? i)
       (map (fun x => if b_id x =? b_id b then b' else x) l) = Some b'.
Proof.
  intros Hb Hb'. rewrite Hb.
  induction l as [|x l IH]; simpl; [discriminate|].
  destruct (b_id x =? i) eqn:E.
  - intros _. now rewrite <- Hb', String.eqb_refl.
  - rewrite E. exact IH.
Qed.

(* ================================================================= *)
(** ** The cast of a text to an ObjectId *)

(** The text the driver writes for an identifier casts to that
    identifier. *)
Lemma cast_id_oid (n : N) : cast_id (oid n) = Some (oid n).
Proof.
  unfold cast_id, oid_of_text, oid.
  rewrite HexString.to_N_of_N, String.eqb_refl.
  destruct n as [|p]; [reflexivity|].
  unfold HexString.of_N, HexString.of_pos. simpl.
  now destruct (HexString.Raw.of_pos p "").
Qed.

Lemma cast_id_some {s _id : string} :
  cast_id s = Some _id -> _id = oid_of_text s.
Proof.
  unfold cast_id. destruct (_ && _); [now intros [= <-] | discriminate].
Qed.

(** What a text casts to is the text of a generated identifier, and casts
    to itself. *)
Lemma cast_id_generated {s _id : string} :
  cast_id s = Some _id -> exists n, _id = oid n.
Proof.
  intros H. apply cast_id_some in H. now exists (HexString.to_N s).
Qed.

Lemma cast_id_fixed {s _id : string} :
  cast_id s = Some _id -> cast_id _id = Some _id.
Proof.
  intros H. destruct (cast_id_generated H) as [n ->]. apply cast_id_oid.
Qed.

(** Another spelling of an identifier is not the identifier's text. *)
Lemma cast_id_empty : cast_id "" = None.
Proof. reflexivity. Qed.

Lemma cast_ids_ok {ids l : list string} :
  cast_ids ids = Ok l ->
  l = map oid_of_text ids
  /\ forall s, In s ids -> cast_id s = Some (oid_of_text s).
Proof.
  revert l. induction ids as [|i ids IH]; simpl; intros l H.
  - injection H as <-. split; [reflexivity | intros s []].
  - destruct (cast_id i) as [c|] eqn:Hc; [|discriminate].
    destruct (cast_ids ids) as [m|]; [|discriminate].
    injection H as <-. destruct (IH m eq_refl) as [-> Hall].
    pose proof (cast_id_some Hc) as ->.
    split; [reflexivity|]. intros s [<-|Hs]; auto.
Qed.

Lemma cast_ids_all (ids : list string) :
  (forall s, In s ids -> cast_id s = Some (oid_of_text s)) ->
  cast_ids ids = Ok (map oid_of_text ids).
Proof.
  induction ids as [|i ids IH]; simpl; intros H; [reflexivity|].
  rewrite (H i (or_introl eq_refl)), IH; [reflexivity|].
  intros s Hs. apply H. now right.
Qed.

(** A part of a list that casts casts as well. *)
Lemma cast_ids_filter (keep : string -> bool) {ids l : list string} :
  cast_ids ids = Ok l ->
  cast_ids (filter keep ids) = Ok (map oid_of_text (filter keep ids)).
Proof.
  intros H. apply cast_ids_all. intros s Hs. apply filter_In in Hs.
  exact (proj2 (cast_ids_ok H) s (proj1 Hs)).
Qed.

(* ================================================================= *)
(** ** PUT /user/profile *)

(** C9.  Whatever the request, the profile update answers 400 and leaves
    the database as it was: the application enters the handler with
    [req.user] undefined, so either the schema refuses the body or reading
    [req.user.userId] throws, and both end in the catch branch. *)
Theorem profile_update_always_400 (P : Primitives) (cfg : Config)
    (http : HttpRequest) (env : Env) (db : DB) :
  status (fst (app cfg UserProfile http env db)) = 400
  /\ snd (app cfg UserProfile http env db) = db.
Proof.
  unfold app, UserRoutes.put_profile, incoming. run. cbn [r_user].
  destruct (zod_parse _ _); simpl; auto.
Qed.

(** The handler itself would go on once a middleware had set [req.user]:
    the 400 comes from the wiring, not from the handler. *)
Lemma profile_update_with_user_set :
  let req := mkReq (Example.post [("name", "T")]) ""
               (Some (UserRoutes.user_claims Example.student2 "student")) in
  let out := UserRoutes.put_profile (P := Example.plain) Example.cfg req
               Example.env Example.db_school in
  status (fst out) = 200
  /\ map u_name (users (snd out)) = ["T"; "Parent of S"].
Proof. split; reflexivity. Qed.

(* ================================================================= *)
(** ** POST /admin/batches *)

(** A body that the batch schema refuses ends in the catch branch, which
    answers 500 whatever the error. *)
Lemma create_batch_refused_body (P : Primitives) (req : Req) (env : Env)
    (db : DB) (e : Error) :
  zod_parse Admin.batchSchema (r_body req) = Throw e ->
  status (fst (Admin.post_batches req env db)) = 500
  /\ snd (Admin.post_batches req env db) = db.
Proof.
  intros H. unfold Admin.post_batches. run. rewrite H. simpl. auto.
Qed.

(** C8.  A body with every field missing, sent to POST /admin/batches, is
    answered with 500, while the same body sent to POST /admin/register
    is answered with 400. *)
Theorem create_batch_missing_fields_500 :
  status (fst (app (P := Example.plain) Example.cfg AdminCreateBatch
                   (Example.post []) Example.env Example.db_admin)) = 500
  /\ status (fst (app (P := Example.plain) Example.cfg AdminRegister
                      (Example.post []) Example.env Example.db_admin)) = 400.
Proof. split; reflexivity. Qed.




(* ================================================================= *)
(** ** POST /admin/batches/:batchId/announcements *)

(** C1 as it stands fails when the body lacks a title: the
    bearer segment ["0x0"] is no signed token and is the identifier of the
    admin who owns batch ["0x1"], yet the answer is 500 and nothing is
    stored, because [title] is a required path of the schema. *)
Lemma raw_admin_id_without_title_500 :
  let req := mkReq (mkHttp (Some "Bearer 0x0") [] [] None) "0x1" None in
  let out := Admin.post_announcements req Example.env Example.db_school in
  bearer_segment "Bearer 0x0" = Some "0x0"
  /\ jwt_verify (Primitives := Example.plain) "0x0"
       (JWT_SECRET Example.cfg) (now Example.env) = JwtMalformed
  /\ find (fun a => a_id a =? "0x0") (admins Example.db_school)
     = Some Example.admin0
  /\ option_map b_teacher_id
       (find (fun b => b_id b =? "0x1") (batches Example.db_school))
     = Some "0x0"
  /\ status (fst out) = 500
  /\ snd out = Example.db_school.
Proof. repeat split; reflexivity. Qed.

(** C1 (amended).  A bearer segment that is no signed token but casts
    to the identifier of an existing admin is accepted: when the segment
    is the text of the batch's [teacher_id] and the body carries a
    non-empty title and content, the answer is 201 and the announcement
    is put at the front of the batch's announcements.  The handler never
    calls the token primitives: it does not even depend on them. *)
Theorem raw_admin_id_posts_announcement (P : Primitives) (cfg : Config)
    (req : Req) (env : Env) (db : DB) (h aid _id batch_id t c : string)
    (a : AdminUser) (b : Batch) :
  r_authorization req = Some h ->
  bearer_segment h = Some aid ->
  jwt_verify aid (JWT_SECRET cfg) (now env) = JwtMalformed ->
  cast_id aid = Some _id ->
  find (fun x => a_id x =? _id) (admins db) = Some a ->
  cast_id (r_batchId req) = Some batch_id ->
  find (fun x => b_id x =? batch_id) (batches db) = Some b ->
  b_teacher_id b = aid ->
  prop "title" (r_body req) = Some t -> t <> "" ->
  prop "content" (r_body req) = Some c -> c <> "" ->
  let out := Admin.post_announcements req env db in
  let posted := mkAnnouncement (Some t) (Some c) _id (now env) in
  status (fst out) = 201
  /\ jget "announcement" (body (fst out))
     = Some (json_of_announcement
               (name_email (a_id a) (a_name a) (a_email a)) posted)
  /\ find (fun x => b_id x =? batch_id) (batches (snd out))
     = Some (mkBatch (b_id b) (b_name b) (b_batch_code b) (b_class b)
                     (b_teacher_id b) (b_students b)
                     (posted :: b_announcements b)
                     (b_createdAt b) (now env))
  /\ users (snd out) = users db
  /\ admins (snd out) = admins db.
Proof.
  intros Hh Hseg _ Hcast Ha Hbid Hb Hown Ht Htne Hc Hcne. cbv zeta.
  subst aid. unfold bearer_segment in Hseg.
  destruct (Js.startsWith "Bearer " h) eqn:Hpre; [|discriminate].
  assert (Hid : b_id b = batch_id).
  { apply find_some in Hb. now apply String.eqb_eq. }
  unfold Admin.post_announcements. run.
  rewrite Hh, Hpre, Hseg. simpl. rewrite Hcast. simpl.
  rewrite Ha, Hbid. simpl. rewrite Hb. simpl.
  rewrite String.eqb_refl, Ht, Hc. simpl.
  unfold BatchModel.validate_announcement, BatchModel.required. simpl.
  apply String.eqb_neq in Htne, Hcne. rewrite Htne, Hcne. simpl.
  match goal with
  | |- context [map (fun x => if b_id x =? b_id b then ?nb else x) _] =>
      rewrite (@find_replaced batch_id b nb (batches db) Hid Hid Hb)
  end.
  simpl.
  unfold populate_teacher. simpl. rewrite Ha.
  repeat split; try reflexivity.
  now apply find_replaced.
Qed.

Lemma raw_admin_id_posts_announcement_witness :
  let req := mkReq (mkHttp (Some "Bearer 0x0") [] Example.announcement_body
                           None) "0x1" None in
  status (fst (Admin.post_announcements req Example.env Example.db_school))
  = 201
  /\ map b_announcements
       (batches (snd (Admin.post_announcements req Example.env
                        Example.db_school)))
     = [[mkAnnouncement (Some "Exam") (Some "On Monday") "0x0" 100]].
Proof.
  pose proof (raw_admin_id_posts_announcement Example.plain Example.cfg
    (mkReq (mkHttp (Some "Bearer 0x0") [] Example.announcement_body None)
           "0x1" None)
    Example.env Example.db_school (h := "Bearer 0x0") (aid := "0x0")
    (_id := "0x0") (batch_id := "0x1") (t := "Exam") (c := "On Monday")
    (a := Example.admin0) (b := Example.batch1 [])
    eq_refl eq_refl eq_refl eq_refl eq_refl eq_refl eq_refl eq_refl
    eq_refl ltac:(discriminate) eq_refl ltac:(discriminate)) as H.
  cbv zeta. split; [exact (proj1 H) | reflexivity].
Defined.

(* ================================================================= *)
(** ** The login routes *)

Lemma zod_parse_ok (P : Primitives) (schema : list zfield) (o v : Obj) :
  zod_parse schema o = Ok v -> v = o.
Proof.
  unfold zod_parse. destruct (flat_map _ _); [|discriminate].
  now intros [= <-].
Qed.

(** C2 as it stands fails on a request that the route's input
    check refuses: the e-mail exists nowhere, and the answer is 400, not
    404. *)
Lemma login_unknown_email_no_password_400 :
  let req := incoming (Example.post [("email", "ghost@x.com")]) "" in
  email_exists Example.db_school "ghost@x.com" = false
  /\ status (fst (login (P := Example.plain) Example.cfg LoginStudent req
                    Example.env Example.db_school)) = 400.
Proof. split; reflexivity. Qed.

(** C2 (amended).  With a signing secret configured, on a request that
    passes the route's input check, each login route answers by the
    account its look-up finds for the e-mail: none, 404; one whose
    password does not compare, 401; one whose password compares, 200 with
    a token signed over the payload that carries the account's
    identifier and e-mail and, on the three user routes, its role.  No
    login writes to the database. *)
Theorem login_outcomes (P : Primitives) (cfg : Config) (r : LoginRoute)
    (req : Req) (env : Env) (db : DB) :
  JWT_SECRET cfg <> "" ->
  login_input_ok r (r_body req) = true ->
  let email := field "email" (r_body req) in
  let password := field "password" (r_body req) in
  let out := login cfg r req env db in
  snd out = db
  /\ match login_lookup r email db with
     | None => status (fst out) = 404
     | Some acc =>
         if bcrypt_compare password (account_password acc) then
           status (fst out) = 200
           /\ jget "token" (body (fst out))
              = Some (JStr (jwt_sign (login_payload acc) (JWT_SECRET cfg)
                                     (login_ttl r) (now env)))
           /\ subject (login_payload acc) = Some (account_id acc)
           /\ c_email (login_payload acc) = account_email acc
           /\ c_role (login_payload acc)
              = match r with
                | LoginAdmin => None
                | _ => Some (account_role acc)
                end
         else status (fst out) = 401
     end.
Proof.
  intros Hsec Hok. cbv zeta. apply String.eqb_neq in Hsec.
  destruct r; unfold login, login_lookup, login_input_ok in *.
  - unfold Admin.post_login. run. rewrite Hok, Hsec. simpl.
    destruct (find _ (admins db)) as [a|]; simpl; [|auto].
    destruct (bcrypt_compare _ _); simpl; auto 6.
  - unfold UserRoutes.post_login. run. rewrite Hsec.
    destruct (zod_parse _ _) as [v|] eqn:Hv; [|discriminate].
    apply zod_parse_ok in Hv. subst v. simpl.
    destruct (find _ (users db)) as [u|]; simpl; [|auto].
    destruct (bcrypt_compare _ _); simpl; auto 6.
  - unfold UserRoutes.post_login_student. run. rewrite Hsec.
    apply andb_true_iff in Hok. destruct Hok as [He Hp].
    rewrite He, Hp. simpl.
    destruct (find _ (users db)) as [u|] eqn:Hu; simpl; [|auto].
    apply find_some in Hu. destruct Hu as [_ Hu].
    apply andb_true_iff in Hu. destruct Hu as [_ Hu].
    apply String.eqb_eq in Hu.
    destruct (bcrypt_compare _ _); simpl; [|auto].
    unfold UserRoutes.user_claims. rewrite Hu. auto 6.
  - unfold UserRoutes.post_login_parent. run. rewrite Hsec.
    apply andb_true_iff in Hok. destruct Hok as [He Hp].
    rewrite He, Hp. simpl.
    destruct (find _ (users db)) as [u|] eqn:Hu; simpl; [|auto].
    apply find_some in Hu. destruct Hu as [_ Hu].
    apply andb_true_iff in Hu. destruct Hu as [_ Hu].
    apply String.eqb_eq in Hu.
    destruct (bcrypt_compare _ _); simpl; [|auto].
    unfold UserRoutes.user_claims. rewrite Hu. auto 6.
Qed.

Lemma login_outcomes_witness :
  let req := incoming (Example.post [("email", "p@x.com");
                                     ("password", "secret1")]) "" in
  login_input_ok (P := Example.plain) LoginParent (r_body req) = true
  /\ status (fst (login (P := Example.plain) Example.cfg LoginParent req
                    Example.env Example.db_school)) = 200.
Proof.
  cbv zeta. split; [reflexivity|].
  refine (proj1 (proj2 (login_outcomes Example.plain Example.cfg LoginParent
    (incoming (Example.post [("email", "p@x.com"); ("password", "secret1")])
              "")
    Example.env Example.db_school _ eq_refl))).
  discriminate.
Defined.

(** Without a signing secret no login succeeds: with the password that
    compares, the admin login answers 500 and the legacy login 400. *)
Lemma login_without_secret :
  let cfg := mkConfig "" 10 true in
  status (fst (login (P := Example.plain) cfg LoginAdmin
                 (incoming (Example.post [("email", "a@x.com");
                                          ("password", "secret1")]) "")
                 Example.env Example.db_school)) = 500
  /\ status (fst (login (P := Example.plain) cfg LoginLegacy
                    (incoming (Example.post [("email", "s@x.com");
                                             ("password", "secret1")]) "")
                    Example.env Example.db_school)) = 400.
Proof. split; reflexivity. Qed.

(** The token of the admin login carries no role, while the token that
    the admin registration signs for the same account carries one. *)
Lemma admin_login_token_without_role (P : Primitives) (cfg : Config)
    (req : Req) (env : Env) (db : DB) (a : AdminUser) :
  JWT_SECRET cfg <> "" ->
  fst (Admin.validateLogin (r_body req)) = true ->
  find (fun x => a_email x =? field "email" (r_body req)) (admins db)
  = Some a ->
  bcrypt_compare (field "password" (r_body req)) (a_password a) = true ->
  jget "token" (body (fst (Admin.post_login cfg req env db)))
  = Some (JStr (jwt_sign (mkClaims (Some (a_id a)) None (a_email a) None)
                         (JWT_SECRET cfg) hour (now env))).
Proof.
  intros Hsec Hok Ha Hpw. apply String.eqb_neq in Hsec.
  unfold Admin.post_login. run.
  rewrite Hok, Hsec. simpl. rewrite Ha. simpl. rewrite Hpw. reflexivity.
Qed.

(** The legacy login also matches [parentEmail]: with the parent's e-mail
    and the shared password it signs in the student, who was stored
    first. *)
Lemma legacy_login_with_parent_email :
  let req := incoming (Example.post [("email", "p@x.com");
                                     ("password", "secret1")]) "" in
  login_lookup LoginLegacy "p@x.com" Example.db_school
  = Some (UserAccount Example.student2)
  /\ jget "token"
       (body (fst (login (P := Example.plain) Example.cfg LoginLegacy req
                     Example.env Example.db_school)))
     = Some (JStr (jwt_sign (Primitives := Example.plain)
                     (UserRoutes.user_claims Example.student2 "student")
                     (JWT_SECRET Example.cfg) hour (now Example.env))).
Proof. split; reflexivity. Qed.

(* ================================================================= *)
(** ** Lists and look-ups *)

Lemma find_app {A} (p : A -> bool) (l1 l2 : list A) :
  find p (l1 ++ l2)
  = match find p l1 with
    | Some x => Some x
    | None => find p l2
    end.
Proof.
  induction l1 as [|x l1 IH]; simpl; [reflexivity|].
  destruct (p x); [reflexivity | exact IH].
Qed.

Lemma existsb_false_weaken {A} (p q : A -> bool) (l : list A) :
  (forall x, q x = true -> p x = true) ->
  existsb p l = false -> existsb q l = false.
Proof.
  intros Hpq. induction l as [|x l IH]; simpl; [reflexivity|].
  intros H. apply orb_false_iff in H. destruct H as [Hx Hl].
  rewrite (IH Hl), orb_false_r.
  destruct (q x) eqn:E; [|reflexivity].
  now rewrite (Hpq x E) in Hx.
Qed.

Lemma existsb_find_none {A} (p : A -> bool) (l : list A) :
  existsb p l = false -> find p l = None.
Proof.
  induction l as [|x l IH]; simpl; [reflexivity|].
  destruct (p x); [discriminate | exact IH].
Qed.

(** What a body that passes the registration schema is made of. *)
Lemma register_parsed (P : Primitives) (o v : Obj) :
  zod_parse UserRoutes.registerSchema o = Ok v ->
  zod_email (field "parentEmail" o) = true
  /\ prop "parentEmail" o = Some (field "parentEmail" o)
  /\ prop "password" o = Some (field "password" o)
  /\ (6 <= String.length (field "password" o))%nat.
Proof.
  unfold zod_parse. intros H.
  destruct (flat_map _ _) eqn:Hissues; [clear H | discriminate].
  simpl in Hissues. rewrite app_nil_r in Hissues.
  apply app_eq_nil in Hissues. destruct Hissues as [_ Hissues].
  apply app_eq_nil in Hissues. destruct Hissues as [_ Hissues].
  apply app_eq_nil in Hissues. destruct Hissues as [Hpe Hpw].
  unfold zod_field, field in *. cbn -[Nat.leb] in Hpe, Hpw.
  destruct (prop "parentEmail" o) as [p|]; [|discriminate].
  destruct (prop "password" o) as [w|]; [|discriminate].
  rewrite app_nil_r in Hpe, Hpw.
  destruct (zod_email p); [|discriminate].
  destruct (6 <=? String.length w)%nat eqn:E; [|discriminate].
  apply Nat.leb_le in E. auto.
Qed.

(* ================================================================= *)
(** ** POST /admin/batches/:batchId/students *)

Lemma includes_In (l : list string) (x : string) :
  includes l x = true <-> In x l.
Proof.
  unfold includes. rewrite existsb_exists. split.
  - intros (y & Hy & E). apply String.eqb_eq in E. now subst.
  - intros H. exists x. split; [exact H | apply String.eqb_refl].
Qed.

Lemma includes_not_In (l : list string) (x : string) :
  includes l x = false <-> ~ In x l.
Proof.
  rewrite <- includes_In. destruct (includes l x); intuition congruence.
Qed.

(** Filtering a collection keeps its identifiers distinct. *)
Lemma filter_keeps_ids_distinct (keep : User -> bool) (us : list User) :
  NoDup (map u_id us) -> NoDup (map u_id (filter keep us)).
Proof.
  induction us as [|u us IH]; simpl; intros Hnd; [exact Hnd|].
  inversion Hnd as [|i m Hfresh Hrest]; subst.
  destruct (keep u); simpl; [|now apply IH].
  constructor; [|now apply IH].
  intros Hin. apply Hfresh.
  apply in_map_iff in Hin. destruct Hin as (v & Hv & Hin).
  apply filter_In in Hin. apply in_map_iff. exists v. tauto.
Qed.

Section Count.
Variable db : DB.
Variable ids : list string.
Hypothesis Huniq : unique_ids db.

Local Notation "'matched'" := (matched_students db ids).

Lemma matched_nodup : NoDup (map u_id matched).
Proof. apply filter_keeps_ids_distinct. exact Huniq. Qed.

Lemma matched_sound (i : string) :
  In i (map u_id matched) -> In i ids /\ resolves_to_student db i = true.
Proof.
  intros H. apply in_map_iff in H. destruct H as (u & <- & Hu).
  apply filter_In in Hu. destruct Hu as [Hin Hp].
  apply andb_true_iff in Hp. destruct Hp as [Hinc Hrole].
  split; [now apply includes_In|].
  unfold resolves_to_student. apply existsb_exists. exists u.
  split; [exact Hin|]. now rewrite String.eqb_refl.
Qed.

Lemma matched_complete (i : string) :
  In i ids -> resolves_to_student db i = true -> In i (map u_id matched).
Proof.
  intros Hi Hr. unfold resolves_to_student in Hr.
  apply existsb_exists in Hr. destruct Hr as (u & Hu & Hp).
  apply andb_true_iff in Hp. destruct Hp as [Hid Hrole].
  apply String.eqb_eq in Hid. subst i.
  apply in_map. apply filter_In. split; [exact Hu|].
  rewrite Hrole, andb_true_r. now apply includes_In.
Qed.

(** One identifier that resolves to no student makes the counts differ. *)
Lemma count_short (i : string) :
  In i ids -> resolves_to_student db i = false ->
  List.length matched <> List.length ids.
Proof.
  intros Hi Hr.
  assert (Hle : (List.length (map u_id matched)
                 <= List.length (remove string_dec i ids))%nat).
  { apply NoDup_incl_length; [exact matched_nodup|].
    intros j Hj. destruct (matched_sound _ Hj) as [Hin Hres].
    apply in_in_remove; [|exact Hin]. intros ->. congruence. }
  pose proof (remove_length_lt string_dec ids i Hi).
  rewrite length_map in Hle. lia.
Qed.

(** Distinct identifiers that all resolve make the counts agree. *)
Lemma count_exact :
  NoDup ids -> (forall i, In i ids -> resolves_to_student db i = true) ->
  List.length matched = List.length ids.
Proof.
  intros Hnd Hall.
  assert (H1 : (List.length (map u_id matched) <= List.length ids)%nat).
  { apply NoDup_incl_length; [exact matched_nodup|].
    intros j Hj. now apply matched_sound. }
  assert (H2 : (List.length ids <= List.length (map u_id matched))%nat).
  { apply NoDup_incl_length; [exact Hnd|].
    intros j Hj. apply matched_complete; auto. }
  rewrite length_map in H1, H2. lia.
Qed.

(** Counts that agree mean the identifiers were distinct. *)
Lemma count_nodup :
  List.length matched = List.length ids -> NoDup ids.
Proof.
  intros Hlen.
  apply NoDup_incl_NoDup with (l := map u_id matched).
  - exact matched_nodup.
  - rewrite length_map. lia.
  - intros j Hj. now apply matched_sound.
Qed.

End Count.

(** What the route does once the batch is found: the cast of the
    identifiers, then the count check. *)
Lemma add_students_run (req : Req) (env : Env) (db : DB)
    (ids : list string) (batch_id : string) (b : Batch) :
  r_studentIds req = Some ids -> ids <> [] ->
  cast_id (r_batchId req) = Some batch_id ->
  find (fun x => b_id x =? batch_id) (batches db) = Some b ->
  let out := Admin.post_batches_students req env db in
  let pushed :=
    map oid_of_text
        (filter (fun id => negb (includes (b_students b) id)) ids) in
  let b' :=
    mkBatch (b_id b) (b_name b) (b_batch_code b) (b_class b) (b_teacher_id b)
            (b_students b ++ pushed)
            (b_announcements b) (b_createdAt b) (now env) in
  match cast_ids ids with
  | Throw _ => status (fst out) = 500 /\ snd out = db
  | Ok _ids =>
      if (List.length (matched_students db _ids) =? List.length ids)%nat
      then
        status (fst out) = 200
        /\ snd out = mkDB (users db) (admins db)
                          (map (fun x => if b_id x =? b_id b then b' else x)
                               (batches db))
                          (next_oid db)
      else status (fst out) = 400 /\ snd out = db
  end.
Proof.
  intros Hids Hne Hcast Hb. cbv zeta.
  unfold Admin.post_batches_students. run. rewrite Hids, Hcast.
  destruct ids as [|i ids]; [congruence|]. cbv beta iota.
  set (l := i :: ids) in *. rewrite Hb. cbn [fst snd].
  destruct (cast_ids l) as [_ids|e] eqn:Hc; cbn [fst snd]; [|auto].
  unfold matched_students, includes.
  destruct (_ =? _)%nat; cbn [negb fst snd]; [|auto].
  rewrite (cast_ids_filter _ Hc). cbn [fst snd]. auto.
Qed.

(** What the answer 200 of the route did: every identifier of the list
    casts, and what was appended are the identifiers of the entries whose
    text was not in the list of the batch. *)
Lemma add_students_accepted (req : Req) (env : Env) (db : DB) :
  status (fst (Admin.post_batches_students req env db)) = 200 ->
  exists (ids _ids : list string) (batch_id : string) (b : Batch),
    r_studentIds req = Some ids
    /\ cast_ids ids = Ok _ids
    /\ List.length (matched_students db _ids) = List.length ids
    /\ cast_id (r_batchId req) = Some batch_id
    /\ find (fun x => b_id x =? batch_id) (batches db) = Some b
    /\ snd (Admin.post_batches_students req env db)
       = mkDB (users db) (admins db)
              (map (fun x =>
                      if b_id x =? b_id b
                      then mkBatch (b_id b) (b_name b) (b_batch_code b)
                             (b_class b) (b_teacher_id b)
                             (b_students b
                              ++ map oid_of_text
                                   (filter (fun id =>
                                              negb (includes (b_students b)
                                                             id)) ids))
                             (b_announcements b) (b_createdAt b) (now env)
                      else x)
                   (batches db))
              (next_oid db).
Proof.
  intros H200.
  destruct (r_studentIds req) as [ids|] eqn:Hids.
  2:{ revert H200. unfold Admin.post_batches_students. run. rewrite Hids.
      discriminate. }
  destruct ids as [|i ids].
  { revert H200. unfold Admin.post_batches_students. run. rewrite Hids.
    discriminate. }
  destruct (cast_id (r_batchId req)) as [batch_id|] eqn:Hcast.
  2:{ revert H200. unfold Admin.post_batches_students. run.
      rewrite Hids, Hcast. discriminate. }
  destruct (find (fun x => b_id x =? batch_id) (batches db)) as [b|] eqn:Hb.
  2:{ revert H200. unfold Admin.post_batches_students. run.
      rewrite Hids, Hcast. cbv beta iota. rewrite Hb. discriminate. }
  pose proof (@add_students_run req env db (i :: ids) batch_id b Hids
                ltac:(discriminate) Hcast Hb) as Hrun.
  cbv zeta in Hrun.
  destruct (cast_ids (i :: ids)) as [_ids|e] eqn:Hc.
  2:{ rewrite (proj1 Hrun) in H200. discriminate. }
  destruct (_ =? _)%nat eqn:E in Hrun.
  2:{ rewrite (proj1 Hrun) in H200. discriminate. }
  apply Nat.eqb_eq in E.
  exists (i :: ids), _ids, batch_id, b. repeat split; try assumption.
  exact (proj2 Hrun).
Qed.

(** Any other answer of the route comes without a write. *)
Lemma add_students_refused (req : Req) (env : Env) (db : DB) :
  status (fst (Admin.post_batches_students req env db)) <> 200 ->
  snd (Admin.post_batches_students req env db) = db.
Proof.
  intros Hne.
  destruct (r_studentIds req) as [ids|] eqn:Hids.
  2:{ unfold Admin.post_batches_students. run. now rewrite Hids. }
  destruct ids as [|i ids].
  { unfold Admin.post_batches_students. run. now rewrite Hids. }
  destruct (cast_id (r_batchId req)) as [batch_id|] eqn:Hcast.
  2:{ unfold Admin.post_batches_students. run. now rewrite Hids, Hcast. }
  destruct (find (fun x => b_id x =? batch_id) (batches db)) as [b|] eqn:Hb.
  2:{ unfold Admin.post_batches_students. run. rewrite Hids, Hcast.
      cbv beta iota. now rewrite Hb. }
  pose proof (@add_students_run req env db (i :: ids) batch_id b Hids
                ltac:(discriminate) Hcast Hb) as Hrun.
  cbv zeta in Hrun.
  destruct (cast_ids (i :: ids)); [|exact (proj2 Hrun)].
  destruct (_ =? _)%nat in Hrun; [|exact (proj2 Hrun)].
  now destruct (Hne (proj1 Hrun)).
Qed.

(** C4.  In a state the application reaches, student ["0xa"] is in the
    list of batch ["0x1"].  Adding [["0xA"]], the same identifier with
    its digit in upper case, is answered 200 and puts the student into
    the list a second time: the query casts the text and finds the
    student, while the test for students already present compares the
    text as it was sent.  And adding [["nobody"]], which is no
    identifier, is answered 500, not 400. *)
Theorem add_students_enrols_twice :
  let db := Example.db_class_enrolled in
  let add ids :=
    app (P := Example.plain) Example.cfg (AdminAddStudents "0x1")
        (Example.add_request ids) Example.env db in
  reachable (P := Example.plain) Example.cfg db
  /\ map b_students (batches db) = [["0xa"]]
  /\ cast_id "0xA" = Some "0xa"
  /\ status (fst (add ["0xA"])) = 200
  /\ map b_students (batches (snd (add ["0xA"]))) = [["0xa"; "0xa"]]
  /\ cast_id "nobody" = None
  /\ status (fst (add ["nobody"])) = 500
  /\ snd (add ["nobody"]) = db.
Proof.
  cbv zeta. split; [|repeat split; reflexivity].
  unfold Example.db_class_enrolled, Example.db_class. cbn [fold_left].
  unfold Example.db2, Example.db1.
  repeat apply reach_step. apply reach_init.
Qed.

(** With every identifier sent as the driver writes it, the route does
    what C4 says: an identifier that resolves to no student gives 400
    and no write, and a list of students already enrolled appends
    nothing. *)
Lemma add_students_as_written (req : Req) (env : Env) (db : DB)
    (ns : list N) (batch_id : string) (b : Batch) :
  unique_ids db ->
  r_studentIds req = Some (map oid ns) -> ns <> [] ->
  cast_id (r_batchId req) = Some batch_id ->
  find (fun x => b_id x =? batch_id) (batches db) = Some b ->
  let out := Admin.post_batches_students req env db in
  ((exists n, In n ns /\ resolves_to_student db (oid n) = false) ->
   status (fst out) = 400 /\ snd out = db)
  /\ ((forall n, In n ns -> In (oid n) (b_students b)) ->
      option_map b_students
        (find (fun x => b_id x =? batch_id) (batches (snd out)))
      = Some (b_students b)).
Proof.
  intros Huniq Hids Hne Hcast Hb. cbv zeta.
  assert (Hne' : map oid ns <> []) by (destruct ns; [congruence|discriminate]).
  pose proof (@add_students_run req env db (map oid ns) batch_id b Hids Hne'
                Hcast Hb) as Hrun.
  cbv zeta in Hrun.
  assert (Hc : cast_ids (map oid ns) = Ok (map oid ns)).
  { rewrite cast_ids_all.
    - f_equal. rewrite map_map. apply map_ext. intros n.
      exact (eq_sym (cast_id_some (cast_id_oid n))).
    - intros s Hs. apply in_map_iff in Hs. destruct Hs as (n & <- & _).
      rewrite cast_id_oid. f_equal. exact (cast_id_some (cast_id_oid n)). }
  rewrite Hc in Hrun.
  assert (Hid : b_id b = batch_id).
  { apply find_some in Hb. now apply String.eqb_eq. }
  split.
  - intros (n & Hn & Hr).
    destruct (_ =? _)%nat eqn:E in Hrun; [|exact Hrun].
    apply Nat.eqb_eq in E.
    now apply (@count_short db (map oid ns) Huniq (oid n) (in_map oid _ _ Hn)
                 Hr) in E.
  - intros Hin.
    assert (Hnone : filter (fun id => negb (includes (b_students b) id))
                      (map oid ns) = []).
    { destruct (filter _ _) as [|x l] eqn:Hf; [reflexivity|].
      assert (Hx : In x (filter
                 (fun id => negb (includes (b_students b) id)) (map oid ns)))
        by (rewrite Hf; now left).
      apply filter_In in Hx. destruct Hx as [Hx Hn].
      apply negb_true_iff, includes_not_In in Hn.
      apply in_map_iff in Hx. destruct Hx as (n & <- & Hx).
      now destruct (Hn (Hin n Hx)). }
    rewrite Hnone in Hrun. simpl in Hrun. rewrite app_nil_r in Hrun.
    destruct (_ =? _)%nat in Hrun; destruct Hrun as [_ ->];
      [|now rewrite Hb].
    cbn [batches].
    match goal with
    | |- context [map (fun x => if b_id x =? b_id b then ?nb else x) _] =>
        rewrite (@find_replaced batch_id b nb (batches db) Hid Hid Hb)
    end.
    reflexivity.
Qed.

(* ================================================================= *)
(** ** POST /user/join-batch *)

Lemma find_replaced_by_code (k : string) (b b' : Batch) (l : list Batch) :
  b_batch_code b' = k ->
  find (fun x => b_batch_code x =? k) l = Some b ->
  find (fun x => b_batch_code x =? k)
       (map (fun x => if b_id x =? b_id b then b' else x) l) = Some b'.
Proof.
  intros Hk. induction l as [|x l IH]; simpl; [discriminate|].
  destruct (b_id x =? b_id b) eqn:Eid.
  - intros _. now rewrite Hk, String.eqb_refl.
  - destruct (b_batch_code x =? k) eqn:Ek; [|exact IH].
    intros [= ->]. now rewrite String.eqb_refl in Eid.
Qed.

Lemma includes_last (l : list string) (x : string) :
  includes (l ++ [x]) x = true.
Proof. apply includes_In, in_or_app. right. now left. Qed.

Lemma NoDup_snoc (l : list string) (x : string) :
  NoDup l -> ~ In x l -> NoDup (l ++ [x]).
Proof.
  intros Hl Hx. apply NoDup_app.
  - exact Hl.
  - repeat constructor. intros [].
  - intros y Hy [<-|[]]. exact (Hx Hy).
Qed.

(** Join-batch either leaves the database alone or answers 200 and puts
    one student, not yet enrolled, at the end of one stored batch. *)
Lemma join_batch_effect (P : Primitives) (cfg : Config) (req : Req)
    (env : Env) (db : DB) :
  let out := UserRoutes.post_join_batch cfg req env db in
  (status (fst out) <> 200 /\ snd out = db)
  \/ exists (b : Batch) (sid : string),
       In b (batches db)
       /\ includes (b_students b) sid = false
       /\ snd out = mkDB (users db) (admins db)
                         (map (fun x => if b_id x =? b_id b
                                        then joined env b sid else x)
                              (batches db))
                         (next_oid db).
Proof.
  cbv zeta. unfold UserRoutes.post_join_batch. run.
  destruct (negb _ || negb _); simpl; [left; split; [discriminate|auto]|].
  destruct (second_segment _) as [tok|]; simpl;
    [|left; split; [discriminate|auto]].
  destruct (jwt_verify _ _ _) as [c| |]; simpl;
    try (left; split; [discriminate|reflexivity]).
  destruct (userId c) as [uid|]; simpl;
    [|left; split; [discriminate|reflexivity]].
  destruct (cast_id uid) as [_id|]; simpl;
    [|left; split; [discriminate|reflexivity]].
  destruct (find _ (users db)) as [student|]; simpl;
    [|left; split; [discriminate|reflexivity]].
  destruct (u_role student =? "student"); simpl;
    [|left; split; [discriminate|reflexivity]].
  destruct (find _ (batches db)) as [b|] eqn:Hb; simpl;
    [|left; split; [discriminate|reflexivity]].
  destruct (includes _ _) eqn:Hinc; simpl;
    [left; split; [discriminate|reflexivity]|].
  right. exists b, (u_id student). apply find_some in Hb.
  repeat split; tauto.
Qed.

(* ================================================================= *)
(** ** What a request can do to the database, and what always holds *)

Lemma admin_register_effect (P : Primitives) cfg req env db :
  effect db (snd (Admin.post_register cfg req env db)).
Proof.
  unfold Admin.post_register. run.
  destruct (zod_parse _ _); simpl; [|destruct (e_errors e); now apply eff_none].
  destruct (find _ _); simpl; [now apply eff_none|].
  destruct (JWT_SECRET cfg =? ""); simpl; now eapply eff_admin.
Qed.

Lemma create_batch_effect (P : Primitives) req env db :
  effect db (snd (Admin.post_batches req env db)).
Proof.
  unfold Admin.post_batches. run.
  destruct (zod_parse _ _); simpl; [|now apply eff_none].
  destruct (cast_id _); simpl; [|now apply eff_none].
  destruct (find _ (admins db)); simpl; [|now apply eff_none].
  destruct (find _ (batches db)); simpl; [now apply eff_none|].
  destruct (existsb _ _); simpl; [now apply eff_none|].
  eapply eff_batch; [|reflexivity]. reflexivity.
Qed.

Lemma announcement_effect req env db :
  effect db (snd (Admin.post_announcements req env db)).
Proof.
  unfold Admin.post_announcements. run.
  destruct (r_authorization req) as [h|]; simpl; [|now apply eff_none].
  destruct (negb _); simpl; [now apply eff_none|].
  destruct (second_segment h) as [t|]; simpl; [|now apply eff_none].
  destruct (cast_id t) as [_id|]; simpl; [|now apply eff_none].
  destruct (find _ (admins db)); simpl; [|now apply eff_none].
  destruct (cast_id (r_batchId req)) as [batch_id|]; simpl;
    [|now apply eff_none].
  destruct (find _ (batches db)) as [b|] eqn:Hb; simpl; [|now apply eff_none].
  destruct (negb _); simpl; [now apply eff_none|].
  destruct (BatchModel.validate_announcement _); simpl; [|now apply eff_none].
  apply find_some in Hb.
  match goal with
  | |- context [map (fun x => if b_id x =? b_id b then ?nb else x) _] =>
     apply (@eff_update db _ b nb); [tauto | ]
  end.
  destruct (find _ (map _ _)); reflexivity.
Qed.

Lemma add_students_effect req env db :
  effect db (snd (Admin.post_batches_students req env db)).
Proof.
  destruct (r_studentIds req) as [ids|] eqn:Hids.
  2:{ unfold Admin.post_batches_students. run. rewrite Hids. now apply eff_none. }
  destruct ids as [|i ids].
  { unfold Admin.post_batches_students. run. rewrite Hids. now apply eff_none. }
  destruct (cast_id (r_batchId req)) as [batch_id|] eqn:Hcast.
  2:{ unfold Admin.post_batches_students. run. rewrite Hids, Hcast.
      now apply eff_none. }
  destruct (find (fun x => b_id x =? batch_id) (batches db)) as [b|] eqn:Hb.
  2:{ unfold Admin.post_batches_students. run. rewrite Hids, Hcast.
      cbv beta iota. rewrite Hb. now apply eff_none. }
  pose proof (@add_students_run req env db (i :: ids) batch_id b Hids
                ltac:(discriminate) Hcast Hb) as Hrun.
  cbv zeta in Hrun.
  destruct (cast_ids (i :: ids)); [|now apply eff_none].
  destruct (_ =? _)%nat in Hrun; destruct Hrun as [_ Hdb];
    [|now apply eff_none].
  apply find_some in Hb.
  eapply eff_update; [exact (proj1 Hb) | exact Hdb].
Qed.

Lemma join_effect (P : Primitives) cfg req env db :
  effect db (snd (UserRoutes.post_join_batch cfg req env db)).
Proof.
  destruct (join_batch_effect P cfg req env db) as [[_ H]|(b & sid & Hb & Hinc & H)].
  - now apply eff_none.
  - eapply eff_update; [exact Hb | exact H].
Qed.

Lemma register_effect (P : Primitives) cfg req env db :
  effect db (snd (UserRoutes.post_register cfg req env db)).
Proof.
  unfold UserRoutes.post_register. run.
  destruct (zod_parse _ _); simpl; [|now apply eff_none].
  destruct (find _ (users db)); simpl; [now apply eff_none|].
  destruct (user_email_unique cfg && existsb _ (users db)); simpl;
    [now apply eff_none|].
  destruct (user_email_unique cfg && existsb _ (users db ++ _)); simpl.
  - eapply eff_student; [ | | reflexivity]; reflexivity.
  - destruct (JWT_SECRET cfg =? ""); simpl;
      (eapply eff_pair;
       [ | | | | simpl; rewrite <- app_assoc; reflexivity]; reflexivity).
Qed.

Lemma profile_reads (P : Primitives) cfg http env db :
  snd (UserRoutes.put_profile cfg (incoming http "") env db) = db.
Proof.
  unfold UserRoutes.put_profile, incoming. run. cbn [r_user].
  destruct (zod_parse _ _); reflexivity.
Qed.

Ltac reads :=
  apply eff_none;
  unfold Admin.post_login, Admin.get_batches, Admin.get_batch,
    Admin.get_teachers, Admin.get_announcements,
    UserRoutes.post_login, UserRoutes.post_login_student,
    UserRoutes.post_login_parent, UserRoutes.get_my_batches,
    UserRoutes.get_parent_student_batches, UserRoutes.get_student_batch,
    UserRoutes.get_parent_batch;
  run; simpl; try reflexivity; cases.

Lemma app_effect (P : Primitives) cfg ep http env db :
  effect db (snd (app cfg ep http env db)).
Proof.
  destruct ep; unfold app.
  - apply admin_register_effect.
  - reads.
  - apply create_batch_effect.
  - apply add_students_effect.
  - reads.
  - reads.
  - reads.
  - apply announcement_effect.
  - reads.
  - apply register_effect.
  - reads.
  - reads.
  - reads.
  - apply eff_none, profile_reads.
  - apply join_effect.
  - reads.
  - reads.
  - reads.
  - reads.
Qed.

Lemma oid_injective (m n : N) : oid m = oid n -> m = n.
Proof.
  unfold oid. intros H.
  rewrite <- (HexString.to_N_of_N m), <- (HexString.to_N_of_N n).
  now rewrite H.
Qed.

Lemma generated_grows (db : DB) (k : N) (u : User) :
  ids_generated db -> In u (users db) -> (next_oid db <= k)%N ->
  exists n, (n < k)%N /\ u_id u = oid n.
Proof.
  intros Hg Hin Hk. destruct (Hg u Hin) as (n & Hn & E).
  exists n. split; [lia | exact E].
Qed.

Lemma fresh_id_unused (db : DB) (k : N) :
  ids_generated db -> (next_oid db <= k)%N ->
  ~ In (oid k) (map u_id (users db)).
Proof.
  intros Hg Hk Hin. apply in_map_iff in Hin. destruct Hin as (u & E & Hin).
  destruct (Hg u Hin) as (n & Hn & E'). rewrite E' in E.
  apply oid_injective in E. lia.
Qed.

Lemma effect_keeps_store_ok (db db' : DB) :
  effect db db' -> store_ok db -> store_ok db'.
Proof.
  intros Heff [Hr Hg Hu].
  destruct Heff as [->|a ->|b Hb ->|b b' Hb ->|s Hid Hrole ->
                   |s p Hids Hrs Hidp Hrp ->].
  - now constructor.
  - constructor; try assumption.
    intros u Hin. eapply generated_grows; [exact Hg | exact Hin | simpl; lia].
  - constructor; try assumption.
    intros u Hin. eapply generated_grows; [exact Hg | exact Hin | simpl; lia].
  - now constructor.
  - constructor; try assumption.
    + intros u Hin. simpl in Hin. apply in_app_or in Hin.
      destruct Hin as [Hin|[<-|[]]]; auto.
    + intros u Hin. simpl in *. apply in_app_or in Hin.
      destruct Hin as [Hin|[<-|[]]].
      * eapply generated_grows; [exact Hg | exact Hin | simpl; lia].
      * exists (next_oid db). split; [lia | exact Hid].
    + unfold unique_ids in *. simpl. rewrite map_app. simpl.
      apply NoDup_snoc; [exact Hu|]. rewrite Hid.
      apply fresh_id_unused; [exact Hg | lia].
  - constructor; try assumption.
    + intros u Hin. simpl in Hin. apply in_app_or in Hin.
      destruct Hin as [Hin|[<-|[<-|[]]]]; auto.
    + intros u Hin. simpl in *. apply in_app_or in Hin.
      destruct Hin as [Hin|[<-|[<-|[]]]].
      * eapply generated_grows; [exact Hg | exact Hin | simpl; lia].
      * exists (next_oid db). split; [lia | exact Hids].
      * exists (N.succ (next_oid db)). split; [lia | exact Hidp].
    + unfold unique_ids in *. simpl. rewrite map_app. simpl.
      change [u_id s; u_id p] with ([u_id s] ++ [u_id p]).
      rewrite app_assoc. apply NoDup_snoc.
      * apply NoDup_snoc; [exact Hu|]. rewrite Hids.
        apply fresh_id_unused; [exact Hg | lia].
      * rewrite Hidp. intros Hin. apply in_app_or in Hin.
        destruct Hin as [Hin|[E|[]]].
        -- revert Hin. apply fresh_id_unused; [exact Hg | lia].
        -- rewrite Hids in E. apply oid_injective in E. lia.
Qed.

Lemma reachable_store_ok (P : Primitives) cfg db :
  reachable cfg db -> store_ok db.
Proof.
  induction 1 as [|db ep http env _ IH].
  - constructor; try (intros x []). constructor.
  - exact (@effect_keeps_store_ok _ _ (app_effect P cfg ep http env db) IH).
Qed.

Lemma reachable_unique_ids (P : Primitives) cfg db :
  reachable cfg db -> unique_ids db.
Proof. intros H. exact (ok_unique (reachable_store_ok H)). Qed.


(* ================================================================= *)
(** ** POST /user/register: the outcomes *)

(** Users are only ever added, at the end. *)
Lemma effect_appends_users (db db' : DB) :
  effect db db' -> exists more, users db' = users db ++ more.
Proof.
  intros [->|a ->|b _ ->|b b' _ ->|s _ _ ->|s p _ _ _ _ ->]; simpl;
    eauto using app_nil_r.
  all: exists []; now rewrite app_nil_r.
Qed.

Lemma later_users (P : Primitives) cfg db db' :
  later cfg db db' -> exists more, users db' = users db ++ more.
Proof.
  induction 1 as [db|db db' ep http env _ [l IH]].
  - exists []. now rewrite app_nil_r.
  - destruct (effect_appends_users (app_effect P cfg ep http env db'))
      as [l' Hl'].
    exists (l ++ l'). now rewrite Hl', IH, app_assoc.
Qed.

(** C7 as it stands fails on a body the schema refuses: the
    e-mail exists already, and the answer is 400, not 409. *)
Lemma register_existing_email_short_password_400 :
  let o := [("name", "S"); ("email", "s@x.com"); ("parentEmail", "q@x.com");
            ("password", "12345")] in
  email_exists Example.db_school (field "email" o) = true
  /\ status (fst (UserRoutes.post_register (P := Example.plain) Example.cfg
                    (incoming (Example.post o) "") Example.env
                    Example.db_school)) = 400.
Proof. split; reflexivity. Qed.

(** C7 (amended).  A registration that answers 201 found neither e-mail
    among the users and added exactly two of them in that request, the
    student with the e-mail and the parent with the parent e-mail, both
    under the one hash; from then on, whatever requests are answered in
    between, a parent login with the parent e-mail and the registered
    password answers 200 and lists the student among [linkedStudents].
    A body that passes the schema and names an e-mail or parent e-mail
    already in use is answered with 409 and nothing is written. *)
Theorem registration_outcomes (P : Primitives) (cfg : Config) (req : Req)
    (env : Env) (db : DB) :
  let o := r_body req in
  let email := field "email" o in
  let parentEmail := field "parentEmail" o in
  let out := UserRoutes.post_register cfg req env db in
  (status (fst out) = 201 ->
   email_exists db email = false
   /\ email_exists db parentEmail = false
   /\ exists student parent : User,
        snd out = mkDB (users db ++ [student; parent]) (admins db)
                       (batches db) (N.succ (N.succ (next_oid db)))
        /\ u_email student = email
        /\ u_role student = "student"
        /\ u_parentEmail student = Some parentEmail
        /\ u_email parent = parentEmail
        /\ u_role parent = "parent"
        /\ u_password student = u_password parent
        /\ (bcrypt_sound P -> zod_email_nonempty P ->
            forall (db2 : DB) (req2 : Req) (env2 : Env),
              later cfg (snd out) db2 ->
              prop "email" (r_body req2) = Some parentEmail ->
              prop "password" (r_body req2) = Some (field "password" o) ->
              let out2 := UserRoutes.post_login_parent cfg req2 env2 db2 in
              status (fst out2) = 200
              /\ exists linked : list User,
                   jget "linkedStudents" (body (fst out2))
                   = Some (JArr (map json_of_student linked))
                   /\ In student linked))
  /\ (zod_parse UserRoutes.registerSchema o = Ok o ->
      email_exists db email || email_exists db parentEmail = true ->
      status (fst out) = 409 /\ snd out = db).
Proof.
  cbv zeta. split.
  - unfold UserRoutes.post_register. run.
    destruct (zod_parse _ _) as [v|] eqn:Hv; simpl; [|discriminate].
    pose proof (register_parsed _ _ Hv) as (Hmail & Hpe & Hpw & Hlen).
    apply zod_parse_ok in Hv. subst v.
    set (E := field "email" (r_body req)) in *.
    set (Pm := field "parentEmail" (r_body req)) in *.
    set (pw := field "password" (r_body req)) in *.
    destruct (find _ (users db)) eqn:Hfind; simpl; [discriminate|].
    apply find_none_existsb in Hfind.
    assert (HE : email_exists db E = false).
    { revert Hfind. apply existsb_false_weaken.
      intros x Hx. now rewrite Hx. }
    assert (HP : email_exists db Pm = false).
    { revert Hfind. apply existsb_false_weaken.
      intros x Hx. rewrite Hx. apply orb_true_r. }
    unfold email_exists in HE, HP. rewrite HE, andb_false_r. simpl.
    rewrite existsb_app, HP. simpl. rewrite orb_false_r.
    destruct (user_email_unique cfg && (E =? Pm)) eqn:Hdup; simpl;
      [discriminate|].
    destruct (JWT_SECRET cfg =? "") eqn:Hsec; simpl; [discriminate|].
    intros _. repeat split; try assumption.
    eexists. eexists. split.
    { rewrite <- app_assoc. reflexivity. }
    simpl. do 6 (split; [reflexivity|]).
    intros Hcmp Hne db2 req2 env2 Hlater He2 Hp2.
    destruct (later_users Hlater) as [more Hmore]. simpl in Hmore.
    unfold UserRoutes.post_login_parent. run. rewrite Hsec. simpl.
    unfold field. rewrite He2, Hp2. simpl.
    assert (HPne : (Pm =? "") = false).
    { apply String.eqb_neq. intros ->. unfold zod_email_nonempty in Hne.
      congruence. }
    assert (Hpwne : (pw =? "") = false).
    { apply String.eqb_neq. intros Hz. rewrite Hz in Hlen. simpl in Hlen.
      lia. }
    rewrite HPne, Hpwne. simpl. rewrite Hmore.
    rewrite <- !app_assoc. simpl. rewrite find_app.
    rewrite (existsb_find_none _ _
               (existsb_false_weaken _
                  (fun u => (u_email u =? Pm) && (u_role u =? "parent")) _
                  (fun x Hx => proj1 (proj1 (andb_true_iff _ _) Hx)) HP)).
    simpl. rewrite andb_false_r, String.eqb_refl. simpl.
    rewrite Hcmp. simpl. split; [reflexivity|].
    eexists. split; [reflexivity|].
    apply filter_In. split.
    + rewrite Hmore, <- !app_assoc. apply in_or_app. right. left.
      reflexivity.
    + simpl. now rewrite String.eqb_refl.
  - intros Hv Hex. unfold UserRoutes.post_register. run. rewrite Hv. simpl.
    destruct (find _ (users db)) eqn:Hfind; simpl; [auto|].
    exfalso. apply find_none_existsb in Hfind.
    apply orb_true_iff in Hex. destruct Hex as [Hex|Hex];
      unfold email_exists in Hex.
    + erewrite existsb_false_weaken in Hex;
        [discriminate | | exact Hfind].
      intros x Hx. simpl in *. now rewrite Hx.
    + erewrite existsb_false_weaken in Hex;
        [discriminate | | exact Hfind].
      intros x Hx. simpl in *. rewrite Hx. apply orb_true_r.
Qed.

(** The primitives of the examples satisfy the two laws. *)
Lemma plain_is_sound :
  bcrypt_sound Example.plain /\ zod_email_nonempty Example.plain.
Proof.
  split; [intros pw rounds salt; apply String.eqb_refl | reflexivity].
Qed.

Lemma registration_outcomes_witness :
  let req := incoming (Example.post Example.register_body) "" in
  let login := incoming (Example.post [("email", "p@x.com");
                                       ("password", "secret1")]) "" in
  (status (fst (UserRoutes.post_register (P := Example.plain) Example.cfg req
                  Example.env Example.db_admin)) = 201
   /\ email_exists Example.db_admin "s@x.com" = false
   /\ status (fst (UserRoutes.post_login_parent (P := Example.plain)
                     Example.cfg login Example.env
                     (snd (UserRoutes.post_register (P := Example.plain)
                             Example.cfg req Example.env
                             Example.db_admin)))) = 200)
  /\ (email_exists Example.db_school "s@x.com"
      || email_exists Example.db_school "p@x.com" = true
      /\ status (fst (UserRoutes.post_register (P := Example.plain)
                        Example.cfg req Example.env Example.db_school))
         = 409).
Proof.
  cbv zeta. split; (split; [reflexivity|]).
  - destruct (proj1 (registration_outcomes Example.plain Example.cfg
      (incoming (Example.post Example.register_body) "")
      Example.env Example.db_admin) eq_refl)
      as (Hfree & _ & s & p & _ & _ & _ & _ & _ & _ & _ & Hlogin).
    split; [exact Hfree|].
    exact (proj1 (Hlogin (proj1 plain_is_sound) (proj2 plain_is_sound) _
      (incoming (Example.post [("email", "p@x.com");
                               ("password", "secret1")]) "")
      Example.env (later_now Example.cfg _) eq_refl eq_refl)).
  - exact (proj1 (proj2 (registration_outcomes Example.plain Example.cfg
      (incoming (Example.post Example.register_body) "")
      Example.env Example.db_school) eq_refl eq_refl)).
Defined.

(* ================================================================= *)
(** ** GET /admin/teachers *)

Lemma no_teacher_found (l : list User) :
  (forall u, In u l -> u_role u = "student" \/ u_role u = "parent") ->
  filter (fun u => u_role u =? "teacher") l = [].
Proof.
  induction l as [|u l IH]; simpl; intros H; [reflexivity|].
  destruct (H u (or_introl eq_refl)) as [E|E]; rewrite E; simpl;
    apply IH; intros v Hv; apply H; now right.
Qed.

(** C10.  In every state the application reaches from the empty database
    no user has the role teacher, and the teachers route answers with an
    empty list and count 0. *)
Theorem teachers_always_empty (P : Primitives) (cfg : Config) (db : DB)
    (http : HttpRequest) (env : Env) :
  reachable cfg db ->
  (forall u, In u (users db) -> u_role u <> "teacher")
  /\ app cfg AdminTeachers http env db
     = (mkResponse 200 (JObj [("success", JBool true);
                              ("teachers", JArr []);
                              ("count", JNum 0)]),
        db).
Proof.
  intros Hreach. pose proof (ok_roles (reachable_store_ok Hreach)) as Hroles.
  split.
  - intros u Hu E. destruct (Hroles u Hu) as [R|R]; rewrite R in E;
      discriminate.
  - unfold app, Admin.get_teachers. run.
    now rewrite (no_teacher_found _ Hroles).
Qed.

Lemma teachers_always_empty_witness :
  let db := snd (app (P := Example.plain) Example.cfg UserRegister
                     (Example.post Example.register_body) Example.env
                     empty_db) in
  map u_role (users db) = ["student"; "parent"]
  /\ status (fst (app (P := Example.plain) Example.cfg AdminTeachers
                      (Example.post []) Example.env db)) = 200.
Proof.
  cbv zeta. split; [reflexivity|].
  pose proof (proj2 (@teachers_always_empty Example.plain Example.cfg _
    (Example.post []) Example.env
    (reach_step UserRegister (Example.post Example.register_body)
       Example.env (reach_init Example.cfg)))) as H.
  now rewrite H.
Defined.

(* ================================================================= *)
(** ** The batch queries of the user router *)

(** The parent detail route looks at the [Authorization] header only to
    see that it starts with ["Bearer "]: what follows makes no
    difference. *)
Lemma parent_batch_ignores_token (http : HttpRequest) (h1 h2 : string)
    (batchId : string) (env : Env) (db : DB) :
  Js.startsWith "Bearer " h1 = true ->
  Js.startsWith "Bearer " h2 = true ->
  UserRoutes.get_parent_batch
    (incoming (mkHttp (Some h1) (h_query http) (h_body http)
                      (h_studentIds http)) batchId) env db
  = UserRoutes.get_parent_batch
      (incoming (mkHttp (Some h2) (h_query http) (h_body http)
                        (h_studentIds http)) batchId) env db.
Proof.
  intros H1 H2. unfold UserRoutes.get_parent_batch. run.
  unfold r_authorization, r_query, incoming. simpl. now rewrite H1, H2.
Qed.

(** The my-batches route never reads the [Authorization] header. *)
Lemma my_batches_ignores_authorization (http : HttpRequest)
    (a1 a2 : option string) (env : Env) (db : DB) :
  UserRoutes.get_my_batches
    (incoming (mkHttp a1 (h_query http) (h_body http) (h_studentIds http))
              "") env db
  = UserRoutes.get_my_batches
      (incoming (mkHttp a2 (h_query http) (h_body http) (h_studentIds http))
                "") env db.
Proof. reflexivity. Qed.

(** C3.  On the database where student ["0x2"] of parent ["0x3"] is
    enrolled in batch ["0x1"]: my-batches answers 200 with the student's
    batches to a request without any [Authorization] header; the parent
    detail route answers 200, with the student's record, to a bearer value
    that is no token; and the parent listing route answers a bearer value
    that is no token with 500. *)
Theorem batch_queries_without_valid_token :
  let no_token := "Bearer garbage" in
  jwt_verify (Primitives := Example.plain) "garbage"
    (JWT_SECRET Example.cfg) (now Example.env) = JwtMalformed
  /\ (let out := app (P := Example.plain) Example.cfg UserMyBatches
                   (mkHttp None [("student_id", "0x2")] [] None)
                   Example.env Example.db_enrolled in
      status (fst out) = 200
      /\ jget "batches" (body (fst out))
         = Some (JArr [JObj [("_id", JStr "0x1"); ("name", JStr "CS");
                             ("batch_code", JStr "CS101");
                             ("class", JStr "10");
                             ("teacher", JObj [("name", JStr "A");
                                               ("email", JStr "a@x.com")]);
                             ("studentsCount", JNum 1);
                             ("createdAt", JNum 100)]]))
  /\ (let out := app (P := Example.plain) Example.cfg (UserParentBatch "0x1")
                   (mkHttp (Some no_token)
                           [("parentId", "0x3"); ("studentId", "0x2")] []
                           None)
                   Example.env Example.db_enrolled in
      status (fst out) = 200
      /\ jpath ["batch"; "batch_code"] (body (fst out)) = Some (JStr "CS101")
      /\ jpath ["batch"; "student"; "email"] (body (fst out))
         = Some (JStr "s@x.com")
      /\ jpath ["batch"; "student"; "password"] (body (fst out))
         = Some (JStr "secret1"))
  /\ status (fst (app (P := Example.plain) Example.cfg
                      UserParentStudentBatches
                      (mkHttp (Some no_token) [] [] None)
                      Example.env Example.db_enrolled)) = 500.
Proof. cbv zeta. repeat split; reflexivity. Qed.

(** The student detail route does what the claim asks: a token that does
    not verify is answered with 401, and a token whose subject is not the
    [userId] of the query with 403. *)
Lemma student_batch_checks_token (P : Primitives) (cfg : Config)
    (req : Req) (env : Env) (db : DB) (h tok : string) :
  r_authorization req = Some h ->
  bearer_segment h = Some tok ->
  match jwt_verify tok (JWT_SECRET cfg) (now env) with
  | JwtOk c =>
      opt_eqb (userId c) (prop "userId" (r_query req)) = false ->
      status (fst (UserRoutes.get_student_batch cfg req env db)) = 403
  | _ => status (fst (UserRoutes.get_student_batch cfg req env db)) = 401
  end.
Proof.
  intros Hh Hseg. unfold bearer_segment in Hseg.
  destruct (Js.startsWith "Bearer " h) eqn:Hpre; [|discriminate].
  unfold UserRoutes.get_student_batch. run.
  rewrite Hh, Hpre, Hseg. simpl.
  destruct (jwt_verify _ _ _); simpl; try reflexivity.
  intros E. rewrite E. reflexivity.
Qed.

(* ================================================================= *)
(** ** The writes of each route *)

Lemma batch_extends_refl (b : Batch) : batch_extends b b.
Proof.
  repeat split; try reflexivity; exists []; [now rewrite app_nil_r|reflexivity].
Qed.

(** What a body that passes the admin registration schema is made of. *)
Lemma admin_register_parsed (P : Primitives) (o v : Obj) :
  zod_parse Admin.registerSchema o = Ok v ->
  (1 <= String.length (field "name" o))%nat
  /\ zod_email (field "email" o) = true
  /\ (6 <= String.length (field "password" o))%nat.
Proof.
  unfold zod_parse. intros H.
  destruct (flat_map _ _) eqn:Hissues; [clear H | discriminate].
  simpl in Hissues. rewrite app_nil_r in Hissues.
  apply app_eq_nil in Hissues. destruct Hissues as [Hn Hissues].
  apply app_eq_nil in Hissues. destruct Hissues as [He Hpw].
  unfold zod_field, field in *. cbn -[Nat.leb] in Hn, He, Hpw.
  destruct (prop "name" o) as [n|]; [|discriminate].
  destruct (prop "email" o) as [e|]; [|discriminate].
  destruct (prop "password" o) as [w|]; [|discriminate].
  rewrite app_nil_r in Hn, He, Hpw.
  destruct (1 <=? String.length n)%nat eqn:En; [|discriminate].
  destruct (zod_email e); [|discriminate].
  destruct (6 <=? String.length w)%nat eqn:E; [|discriminate].
  apply Nat.leb_le in E, En. auto.
Qed.

Lemma admin_register_change (P : Primitives) cfg req env db :
  change cfg db (snd (Admin.post_register cfg req env db)).
Proof.
  unfold Admin.post_register. run.
  destruct (zod_parse _ _) as [v|e] eqn:Hv; simpl;
    [|destruct (e_errors e); now apply ch_none].
  pose proof (@admin_register_parsed P _ _ Hv) as (_ & _ & Hlen).
  apply zod_parse_ok in Hv. subst v.
  destruct (find _ _) eqn:Hfind; simpl; [now apply ch_none|].
  destruct (JWT_SECRET cfg =? ""); simpl;
    (eapply ch_admin; [ | | | | | reflexivity]; try reflexivity;
     [simpl; now apply find_none_existsb
     |simpl; eexists _, _; split; [exact Hlen | reflexivity]]).
Qed.

Lemma create_batch_change (P : Primitives) cfg req env db :
  change cfg db (snd (Admin.post_batches req env db)).
Proof.
  unfold Admin.post_batches. run.
  destruct (zod_parse _ _); simpl; [|now apply ch_none].
  destruct (cast_id _); simpl; [|now apply ch_none].
  destruct (find _ (admins db)) as [adm|] eqn:Ha; simpl; [|now apply ch_none].
  destruct (find _ (batches db)); simpl; [now apply ch_none|].
  destruct (existsb _ _) eqn:Hdup; simpl; [now apply ch_none|].
  eapply ch_batch; [ | | | | | | reflexivity]; try reflexivity.
  - simpl. apply toUpperCase_idem.
  - simpl. exact Hdup.
  - simpl. exists adm. apply find_some in Ha. tauto.
Qed.

(** Counts that agree mean that every identifier resolved. *)
Lemma count_all_resolve (db : DB) (ids : list string) :
  unique_ids db ->
  List.length (matched_students db ids) = List.length ids ->
  forall i, In i ids -> resolves_to_student db i = true.
Proof.
  intros Hu Hlen i Hi.
  destruct (resolves_to_student db i) eqn:E; [reflexivity|].
  now destruct (@count_short db ids Hu i Hi E).
Qed.

Lemma add_students_change (P : Primitives) cfg req env db :
  change cfg db (snd (Admin.post_batches_students req env db)).
Proof.
  destruct (status (fst (Admin.post_batches_students req env db)) =? 200)%nat
    eqn:E200.
  - apply Nat.eqb_eq in E200.
    destruct (add_students_accepted req env db E200)
      as (ids & _ids & batch_id & b & Hids & Hc & Hlen & Hcast & Hb & Hdb).
    destruct (cast_ids_ok Hc) as [-> _]. apply find_some in Hb.
    eapply ch_update; [exact (proj1 Hb) | | | | exact Hdb].
    + repeat split; try reflexivity; [eexists; reflexivity | now exists []].
    + cbn [b_students]. intros Huniq j Hj. apply in_app_or in Hj.
      destruct Hj as [Hj|Hj]; [now left|]. right.
      apply in_map_iff in Hj. destruct Hj as (t & <- & Hj).
      apply filter_In in Hj. destruct Hj as [Hj _].
      apply (@count_all_resolve db (map oid_of_text ids) Huniq).
      * now rewrite length_map.
      * now apply in_map.
    + cbn [b_announcements]. intros a Ha. now left.
  - apply ch_none. apply Nat.eqb_neq in E200.
    now apply add_students_refused.
Qed.

Lemma announcement_change (P : Primitives) cfg req env db :
  change cfg db (snd (Admin.post_announcements req env db)).
Proof.
  unfold Admin.post_announcements. run.
  destruct (r_authorization req) as [h|]; simpl; [|now apply ch_none].
  destruct (negb _); simpl; [now apply ch_none|].
  destruct (second_segment h) as [t|]; simpl; [|now apply ch_none].
  destruct (cast_id t) as [_id|] eqn:Ht_id; simpl; [|now apply ch_none].
  destruct (find _ (admins db)); simpl; [|now apply ch_none].
  destruct (cast_id (r_batchId req)) as [batch_id|]; simpl;
    [|now apply ch_none].
  destruct (find _ (batches db)) as [b|] eqn:Hb; simpl;
    [|now apply ch_none].
  destruct (b_teacher_id b =? t) eqn:Hown; simpl; [|now apply ch_none].
  unfold BatchModel.validate_announcement, BatchModel.required. simpl.
  destruct (Js.truthy (prop "title" (r_body req))) eqn:Ht; simpl;
    [|now apply ch_none].
  destruct (Js.truthy (prop "content" (r_body req))) eqn:Hc; simpl;
    [|now apply ch_none].
  apply find_some in Hb. apply String.eqb_eq in Hown.
  match goal with
  | |- context [map (fun x => if b_id x =? b_id b then ?nb else x) _] =>
      apply (@ch_update P cfg db _ b nb)
  end.
  - tauto.
  - repeat split; try reflexivity;
      [exists []; now rewrite app_nil_r | eexists [_]; reflexivity].
  - intros _ i Hi. now left.
  - intros an [<-|Han]; [right | now left]. intros Hwritten.
    repeat split; auto. simpl. congruence.
  - destruct (find _ (map _ _)); reflexivity.
Qed.

Lemma join_change (P : Primitives) cfg req env db :
  change cfg db (snd (UserRoutes.post_join_batch cfg req env db)).
Proof.
  unfold UserRoutes.post_join_batch. run.
  destruct (negb _ || negb _); simpl; [now apply ch_none|].
  destruct (second_segment _) as [tok|]; simpl; [|now apply ch_none].
  destruct (jwt_verify _ _ _) as [c| |]; simpl; try now apply ch_none.
  destruct (userId c) as [uid|]; simpl; [|now apply ch_none].
  destruct (cast_id uid) as [_id|]; simpl; [|now apply ch_none].
  destruct (find _ (users db)) as [student|] eqn:Hu; simpl;
    [|now apply ch_none].
  destruct (u_role student =? "student") eqn:Hrole; simpl;
    [|now apply ch_none].
  destruct (find _ (batches db)) as [b|] eqn:Hb; simpl; [|now apply ch_none].
  destruct (includes _ _) eqn:Hinc; simpl; [now apply ch_none|].
  apply find_some in Hb, Hu.
  eapply ch_update; [exact (proj1 Hb) | | | | reflexivity].
  - repeat split; try reflexivity; [eexists; reflexivity | now exists []].
  - cbn [b_students]. intros _ i Hi. apply in_app_or in Hi.
    destruct Hi as [Hi|[<-|[]]]; [now left | right].
    unfold resolves_to_student. apply existsb_exists. exists student.
    split; [tauto|]. now rewrite String.eqb_refl.
  - intros a Ha. now left.
Qed.

Lemma register_change (P : Primitives) cfg req env db :
  change cfg db (snd (UserRoutes.post_register cfg req env db)).
Proof.
  unfold UserRoutes.post_register. run.
  destruct (zod_parse _ _) as [v|] eqn:Hv; simpl; [|now apply ch_none].
  pose proof (@register_parsed P _ _ Hv) as (_ & _ & _ & Hlen).
  apply zod_parse_ok in Hv. subst v.
  destruct (find _ (users db)); simpl; [now apply ch_none|].
  destruct (user_email_unique cfg && existsb _ (users db)); simpl;
    [now apply ch_none|].
  destruct (user_email_unique cfg && existsb _ (users db ++ _)); simpl.
  - eapply ch_student; [ | | | reflexivity]; try reflexivity.
    simpl. eexists _, _. split; [exact Hlen | reflexivity].
  - destruct (JWT_SECRET cfg =? ""); simpl;
      (eapply ch_pair;
       [ | | | | | | | simpl; rewrite <- app_assoc; reflexivity];
       try reflexivity;
       simpl; eexists _, _; split; [exact Hlen | reflexivity]).
Qed.

Lemma app_change (P : Primitives) cfg ep http env db :
  change cfg db (snd (app cfg ep http env db)).
Proof.
  assert (Hread : forall out : Response * DB,
             snd out = db -> change cfg db (snd out))
    by (intros out H; now apply ch_none).
  destruct ep; unfold app.
  - apply admin_register_change.
  - apply Hread. unfold Admin.post_login. run. cases.
  - apply create_batch_change.
  - apply add_students_change.
  - apply Hread. reflexivity.
  - apply Hread. unfold Admin.get_batch. run. cases.
  - apply Hread. reflexivity.
  - apply announcement_change.
  - apply Hread. unfold Admin.get_announcements. run. cases.
  - apply register_change.
  - apply Hread. unfold UserRoutes.post_login. run. cases.
  - apply Hread. unfold UserRoutes.post_login_student. run. cases.
  - apply Hread. unfold UserRoutes.post_login_parent. run. cases.
  - apply Hread, profile_reads.
  - apply join_change.
  - apply Hread. unfold UserRoutes.get_my_batches. run. cases.
  - apply Hread. unfold UserRoutes.get_parent_student_batches. run. cases.
  - apply Hread. unfold UserRoutes.get_student_batch. run. cases.
  - apply Hread. unfold UserRoutes.get_parent_batch. run. cases.
Qed.

(* ================================================================= *)
(** ** What always holds of admins and batches *)

Lemma change_effect (P : Primitives) cfg db db' :
  change cfg db db' -> effect db db'.
Proof.
  intros [H|a _ _ _ _ _ H|b _ Hs _ _ _ _ H|b b' Hb _ _ _ H
         |s Hid Hr _ H|s p Hs Hrs Hp Hrp _ _ _ H].
  - now apply eff_none.
  - now apply eff_admin with a.
  - now apply eff_batch with b.
  - now apply eff_update with b b'.
  - now apply eff_student with s.
  - now apply eff_pair with s p.
Qed.

Lemma bound_grows (k k' : N) (id : string) :
  (exists n, (n < k)%N /\ id = oid n) -> (k <= k')%N ->
  exists n, (n < k')%N /\ id = oid n.
Proof. intros (n & Hn & E) Hk. exists n. split; [lia | exact E]. Qed.

Lemma fresh_oid_unused {A} (f : A -> string) (l : list A) (k : N) :
  (forall x, In x l -> exists n, (n < k)%N /\ f x = oid n) ->
  ~ In (oid k) (map f l).
Proof.
  intros Hg Hin. apply in_map_iff in Hin. destruct Hin as (x & E & Hin).
  destruct (Hg x Hin) as (n & Hn & E'). rewrite E' in E.
  apply oid_injective in E. lia.
Qed.

Lemma NoDup_map_snoc {A} (f : A -> string) (l : list A) (x : A) :
  NoDup (map f l) -> ~ In (f x) (map f l) -> NoDup (map f (l ++ [x])).
Proof. intros Hl Hx. rewrite map_app. now apply NoDup_snoc. Qed.

Lemma existsb_false_not_in {A} (f : A -> string) (l : list A) (k : string) :
  existsb (fun x => f x =? k) l = false -> ~ In k (map f l).
Proof.
  intros H Hin. apply in_map_iff in Hin. destruct Hin as (x & E & Hin).
  assert (Ht : existsb (fun x => f x =? k) l = true).
  { apply existsb_exists. exists x. split; [exact Hin|].
    now apply String.eqb_eq. }
  congruence.
Qed.

Section Replace.
Variables (b b' : Batch) (l : list Batch).
Hypothesis Hext : batch_extends b b'.

Local Notation "'replaced'" :=
  (map (fun y => if b_id y =? b_id b then b' else y) l).

Lemma replaced_in (x : Batch) :
  In x replaced -> x = b' \/ In x l.
Proof.
  intros H. apply in_map_iff in H. destruct H as (y & Hy & Hin).
  destruct (b_id y =? b_id b); subst x; auto.
Qed.

Lemma replaced_ids : map b_id replaced = map b_id l.
Proof.
  destruct Hext as (Hid & _). rewrite map_map. apply map_ext_in.
  intros y _. destruct (b_id y =? b_id b) eqn:E; [|reflexivity].
  apply String.eqb_eq in E. congruence.
Qed.

Lemma same_id_same_batch (x : Batch) :
  NoDup (map b_id l) -> In b l -> In x l -> b_id x = b_id b -> x = b.
Proof.
  clear Hext. induction l as [|y m IH]; simpl; [tauto|].
  intros Hnd Hb Hx E. inversion Hnd as [|? ? Hnin Hnd']; subst.
  destruct Hb as [->|Hb], Hx as [->|Hx]; auto.
  - exfalso. apply Hnin. rewrite <- E. now apply in_map.
  - exfalso. apply Hnin. rewrite E. now apply in_map.
Qed.

Lemma replaced_codes :
  NoDup (map b_id l) -> In b l ->
  map b_batch_code replaced = map b_batch_code l.
Proof.
  intros Hnd Hb. destruct Hext as (_ & _ & Hcode & _).
  rewrite map_map. apply map_ext_in.
  intros y Hy. destruct (b_id y =? b_id b) eqn:E; [|reflexivity].
  apply String.eqb_eq in E.
  now rewrite (same_id_same_batch y Hnd Hb Hy E).
Qed.

End Replace.

Lemma resolves_more (db db' : DB) (more : list User) (i : string) :
  users db' = users db ++ more ->
  resolves_to_student db i = true -> resolves_to_student db' i = true.
Proof.
  unfold resolves_to_student. intros ->. rewrite existsb_app.
  intros ->. reflexivity.
Qed.

Lemma change_keeps_integrity (P : Primitives) cfg db db' :
  change cfg db db' -> store_ok db -> integrity cfg db ->
  integrity cfg db'.
Proof.
  intros Hch Hok [Hai Hau Hae Har Hah Huh Hbi Hbu Hcu Hcq Ht He Han].
  pose proof (ok_unique Hok) as Huniq.
  destruct Hch as [->|a Hid Hrole Hact Hmail Hhash ->
                  |b Hid Hs Ha Hup Hdup Hteach ->
                  |b b' Hb Hext Hres Hann ->
                  |s Hid Hrole Hhash ->
                  |s p Hids Hrs Hidp Hrp Hhash Hpw Hlink ->].
  - now constructor.
  - constructor; simpl; try assumption.
    + intros x Hx. apply in_app_or in Hx. destruct Hx as [Hx|[<-|[]]].
      * apply bound_grows with (next_oid db); [auto | lia].
      * exists (next_oid db). split; [lia | exact Hid].
    + apply NoDup_map_snoc; [exact Hau|]. rewrite Hid.
      now apply fresh_oid_unused.
    + apply NoDup_map_snoc; [exact Hae|].
      now apply existsb_false_not_in.
    + intros x Hx. apply in_app_or in Hx.
      destruct Hx as [Hx|[<-|[]]]; auto.
    + intros x Hx. apply in_app_or in Hx.
      destruct Hx as [Hx|[<-|[]]]; auto.
    + intros x Hx. apply bound_grows with (next_oid db); [auto | lia].
    + intros x Hx. destruct (Ht x Hx) as (t & Hin & E). exists t.
      split; [apply in_or_app; now left | exact E].
  - constructor; simpl; try assumption.
    + intros x Hx. apply bound_grows with (next_oid db); [auto | lia].
    + intros x Hx. apply in_app_or in Hx. destruct Hx as [Hx|[<-|[]]].
      * apply bound_grows with (next_oid db); [auto | lia].
      * exists (next_oid db). split; [lia | exact Hid].
    + apply NoDup_map_snoc; [exact Hbu|]. rewrite Hid.
      now apply fresh_oid_unused.
    + intros x Hx. apply in_app_or in Hx.
      destruct Hx as [Hx|[<-|[]]]; auto.
    + apply NoDup_map_snoc; [exact Hcq|].
      now apply existsb_false_not_in.
    + intros x Hx. apply in_app_or in Hx.
      destruct Hx as [Hx|[<-|[]]]; auto.
    + intros x i Hx Hi. apply in_app_or in Hx.
      destruct Hx as [Hx|[<-|[]]]; [now apply (He x)|].
      rewrite Hs in Hi. destruct Hi.
    + intros x a Hx Hin. apply in_app_or in Hx.
      destruct Hx as [Hx|[<-|[]]]; [now apply Han|].
      rewrite Ha in Hin. destruct Hin.
  - pose proof Hext as (Eid & _ & Ecode & _ & Eteach & _).
    constructor; simpl; try assumption.
    + intros x Hx. apply replaced_in in Hx. destruct Hx as [->|Hx]; auto.
      rewrite Eid. auto.
    + now rewrite (replaced_ids _ Hext).
    + intros x Hx. apply replaced_in in Hx. destruct Hx as [->|Hx]; auto.
      rewrite Ecode. auto.
    + now rewrite (replaced_codes _ Hext Hbu Hb).
    + intros x Hx. apply replaced_in in Hx. destruct Hx as [->|Hx]; auto.
      rewrite Eteach. auto.
    + intros x i Hx Hi. apply replaced_in in Hx.
      destruct Hx as [->|Hx]; [|now apply (He x)].
      destruct (Hres Huniq i Hi) as [Hold|Hnew]; [now apply (He b) | exact Hnew].
    + intros x a Hx Hin. apply replaced_in in Hx.
      destruct Hx as [->|Hx]; [|now apply Han].
      unfold announcement_ok. rewrite Eteach.
      destruct (Hann a Hin) as [Hold|Hnew]; [now apply Han | apply Hnew].
      destruct (Ht b Hb) as (t & Hin_t & <-).
      destruct (Hai t Hin_t) as (n & _ & ->). apply cast_id_oid.
  - constructor; simpl; try assumption.
    + intros x Hx. apply bound_grows with (next_oid db); [auto | lia].
    + intros x Hx. apply in_app_or in Hx.
      destruct Hx as [Hx|[<-|[]]]; auto.
    + intros x Hx. apply bound_grows with (next_oid db); [auto | lia].
    + intros x i Hx Hi.
      eapply resolves_more; [reflexivity | now apply (He x)].
  - constructor; simpl; try assumption.
    + intros x Hx. apply bound_grows with (next_oid db); [auto | lia].
    + intros x Hx. apply in_app_or in Hx.
      destruct Hx as [Hx|[<-|[<-|[]]]]; auto. now rewrite Hpw.
    + intros x Hx. apply bound_grows with (next_oid db); [auto | lia].
    + intros x i Hx Hi.
      eapply resolves_more; [reflexivity | now apply (He x)].
Qed.

Lemma reachable_integrity (P : Primitives) cfg db :
  reachable cfg db -> integrity cfg db.
Proof.
  induction 1 as [|db ep http env Hr IH].
  - constructor; simpl; try constructor; intros; contradiction.
  - apply change_keeps_integrity with db;
      [apply app_change | exact (reachable_store_ok Hr) | exact IH].
Qed.

(* ================================================================= *)
(** ** Nothing is ever removed *)

Lemma batch_extends_trans (a b c : Batch) :
  batch_extends a b -> batch_extends b c -> batch_extends a c.
Proof.
  intros (H1 & H2 & H3 & H4 & H5 & H6 & [s1 Hs1] & [a1 Ha1])
         (K1 & K2 & K3 & K4 & K5 & K6 & [s2 Hs2] & [a2 Ha2]).
  repeat split; try congruence.
  - exists (s1 ++ s2). now rewrite Hs2, Hs1, app_assoc.
  - exists (a2 ++ a1). now rewrite Ha2, Ha1, app_assoc.
Qed.

Lemma Forall2_extends_refl (l : list Batch) : Forall2 batch_extends l l.
Proof. induction l; constructor; auto using batch_extends_refl. Qed.

Lemma Forall2_extends_trans (l m n : list Batch) :
  Forall2 batch_extends l m -> Forall2 batch_extends m n ->
  Forall2 batch_extends l n.
Proof.
  intros H. revert n. induction H as [|x y l m Hxy _ IH]; intros n Hn;
    inversion Hn; subst; constructor; eauto using batch_extends_trans.
Qed.

Lemma replaced_extends (b b' : Batch) (l m : list Batch) :
  batch_extends b b' -> NoDup (map b_id l) -> In b l -> incl m l ->
  Forall2 batch_extends m
    (map (fun y => if b_id y =? b_id b then b' else y) m).
Proof.
  intros Hext Hnd Hb. induction m as [|y m IH]; intros Hincl; simpl;
    constructor.
  - destruct (b_id y =? b_id b) eqn:E; [|apply batch_extends_refl].
    apply String.eqb_eq in E.
    rewrite (@same_id_same_batch b l y Hnd Hb (Hincl y (or_introl eq_refl)) E).
    exact Hext.
  - apply IH. intros z Hz. apply Hincl. now right.
Qed.

Lemma grows_refl (db : DB) : grows db db.
Proof.
  repeat split.
  - exists []. now rewrite app_nil_r.
  - exists []. now rewrite app_nil_r.
  - exists (batches db), []. rewrite app_nil_r.
    split; [reflexivity | apply Forall2_extends_refl].
Qed.

Lemma grows_trans (a b c : DB) : grows a b -> grows b c -> grows a c.
Proof.
  intros ([u1 Hu1] & [a1 Ha1] & (bs1 & m1 & Hb1 & F1))
         ([u2 Hu2] & [a2 Ha2] & (bs2 & m2 & Hb2 & F2)).
  repeat split.
  - exists (u1 ++ u2). now rewrite Hu2, Hu1, app_assoc.
  - exists (a1 ++ a2). now rewrite Ha2, Ha1, app_assoc.
  - rewrite Hb1 in F2. apply Forall2_app_inv_l in F2.
    destruct F2 as (n1 & n2 & G1 & G2 & ->).
    exists n1, (n2 ++ m2). split; [now rewrite Hb2, app_assoc|].
    now apply Forall2_extends_trans with bs1.
Qed.

Lemma change_grows (P : Primitives) cfg db db' :
  integrity cfg db -> change cfg db db' -> grows db db'.
Proof.
  intros Hint [->|a _ _ _ _ _ ->|b _ _ _ _ _ _ ->|b b' Hb Hext _ _ ->
              |s _ _ _ ->|s p _ _ _ _ _ _ _ ->];
    try apply grows_refl; repeat split; simpl;
    try (exists []; now rewrite app_nil_r);
    try (eexists; reflexivity);
    try (exists (batches db), []; rewrite app_nil_r;
         split; [reflexivity | apply Forall2_extends_refl]).
  - exists (batches db), [b]. split; [reflexivity | apply Forall2_extends_refl].
  - eexists _, []. rewrite app_nil_r. split; [reflexivity|].
    apply replaced_extends with (l := batches db);
      [exact Hext | exact (int_batch_unique Hint) | exact Hb
      | apply incl_refl].
Qed.

Lemma later_reachable (P : Primitives) cfg db db' :
  reachable cfg db -> later cfg db db' -> reachable cfg db'.
Proof.
  intros Hr Hl. induction Hl as [|db db' ep http env _ IH];
    [exact Hr | apply reach_step; exact (IH Hr)].
Qed.

(** X1. Nothing stored is ever removed or rewritten: from a state the
    application reaches to any later one, users, admins and batches are
    only added, and a batch only gains students (at the end) and
    announcements (at the front). *)
Theorem store_only_grows (P : Primitives) (cfg : Config) (db db' : DB) :
  reachable cfg db -> later cfg db db' -> grows db db'.
Proof.
  intros Hr Hl. induction Hl as [db|db db' ep http env Hl IH].
  - apply grows_refl.
  - apply grows_trans with db'; [exact (IH Hr)|].
    apply change_grows with P cfg;
      [exact (reachable_integrity (later_reachable Hr Hl))
      | apply app_change].
Qed.

Lemma session_reachable :
  reachable (P := Example.plain) Example.cfg Example.db4.
Proof.
  unfold Example.db4, Example.db3, Example.db2, Example.db1.
  repeat apply reach_step. apply reach_init.
Qed.

Lemma session_before_join :
  reachable (P := Example.plain) Example.cfg Example.db3.
Proof.
  unfold Example.db3, Example.db2, Example.db1.
  repeat apply reach_step. apply reach_init.
Qed.

Lemma session_announced :
  reachable (P := Example.plain) Example.cfg Example.db5.
Proof.
  unfold Example.db5, Example.db4, Example.db3, Example.db2, Example.db1.
  repeat apply reach_step. apply reach_init.
Qed.

Lemma session_after_admin :
  later (P := Example.plain) Example.cfg Example.db1 Example.db4.
Proof.
  unfold Example.db4, Example.db3, Example.db2.
  do 3 apply later_step. apply later_now.
Qed.

Lemma store_only_grows_witness : grows Example.db3 Example.db4.
Proof.
  apply (@store_only_grows Example.plain Example.cfg).
  - exact session_before_join.
  - unfold Example.db4. apply later_step, later_now.
Defined.

(* ================================================================= *)
(** ** References between the collections *)

Lemma find_by_id_some {A} (f : A -> string) (l : list A) (i : string) :
  (exists x, In x l /\ f x = i) ->
  exists y, find (fun x => f x =? i) l = Some y /\ f y = i.
Proof.
  intros (x & Hx & E).
  destruct (find (fun x => f x =? i) l) as [y|] eqn:Hf.
  - exists y. split; [reflexivity|]. apply find_some in Hf.
    now apply String.eqb_eq.
  - exfalso. apply (find_none _ _ Hf) in Hx. subst i.
    now rewrite String.eqb_refl in Hx.
Qed.

Lemma resolves_exists (db : DB) (i : string) :
  resolves_to_student db i = true ->
  exists u, In u (users db) /\ u_id u = i.
Proof.
  unfold resolves_to_student. intros H. apply existsb_exists in H.
  destruct H as (u & Hu & Hp). apply andb_true_iff in Hp.
  exists u. split; [exact Hu|]. now apply String.eqb_eq.
Qed.

Lemma populate_all (db : DB) (ids : list string) :
  (forall i, In i ids -> exists u, In u (users db) /\ u_id u = i) ->
  map u_id (populate_students db ids) = ids.
Proof.
  unfold populate_students. induction ids as [|i ids IH]; intros H;
    [reflexivity|].
  simpl. destruct (find_by_id_some u_id (users db) (H i (or_introl eq_refl)))
    as (y & -> & Hy).
  simpl. rewrite Hy. f_equal. apply IH. intros j Hj. apply H. now right.
Qed.

(** X2. In every state the application reaches, the [teacher_id] of a
    batch is the identifier of a stored admin, so populating it never
    gives [null]. *)
Theorem batch_teacher_exists (P : Primitives) (cfg : Config) (db : DB)
    (b : Batch) :
  reachable cfg db -> In b (batches db) ->
  (exists a, In a (admins db) /\ a_id a = b_teacher_id b)
  /\ populate_teacher db (b_teacher_id b) <> JNull.
Proof.
  intros Hr Hb.
  pose proof (int_teacher (reachable_integrity Hr) b Hb) as Ht.
  split; [exact Ht|]. unfold populate_teacher.
  destruct (find_by_id_some a_id (admins db) Ht) as (y & -> & _).
  discriminate.
Qed.

Lemma batch_teacher_exists_witness :
  populate_teacher Example.db4 "0x0" <> JNull.
Proof.
  refine (proj2 (@batch_teacher_exists Example.plain Example.cfg Example.db4
    (mkBatch "0x1" "CS" "CS101" "10" "0x0" ["0x2"] [] 100 100)
    session_reachable _)).
  left. reflexivity.
Defined.

(** X3. In every state the application reaches, every identifier in a
    batch's student list is the identifier of a stored user with role
    student, and populating the list gives one record per entry, in
    order. *)
Theorem enrolled_students_exist (P : Primitives) (cfg : Config) (db : DB)
    (b : Batch) :
  reachable cfg db -> In b (batches db) ->
  (forall i, In i (b_students b) -> resolves_to_student db i = true)
  /\ map u_id (populate_students db (b_students b)) = b_students b.
Proof.
  intros Hr Hb.
  assert (He : forall i, In i (b_students b) ->
                         resolves_to_student db i = true).
  { intros i Hi. exact (int_enrolled (reachable_integrity Hr) b i Hb Hi). }
  split; [exact He|].
  apply populate_all. intros i Hi. apply resolves_exists. auto.
Qed.

Lemma enrolled_students_exist_witness :
  map u_id (populate_students Example.db4 ["0x2"]) = ["0x2"].
Proof.
  refine (proj2 (@enrolled_students_exist Example.plain Example.cfg
    Example.db4 (mkBatch "0x1" "CS" "CS101" "10" "0x0" ["0x2"] [] 100 100)
    session_reachable _)).
  left. reflexivity.
Defined.

(** X4. In every state the application reaches, every stored announcement
    carries the [teacher_id] of its batch and a non-empty title and
    content. *)
Theorem stored_announcements_wellformed (P : Primitives) (cfg : Config)
    (db : DB) (b : Batch) (a : Announcement) :
  reachable cfg db -> In b (batches db) -> In a (b_announcements b) ->
  an_teacher_id a = b_teacher_id b
  /\ Js.truthy (an_title a) = true
  /\ Js.truthy (an_content a) = true.
Proof.
  intros Hr Hb Ha. exact (int_announcements (reachable_integrity Hr) b a Hb Ha).
Qed.

Lemma stored_announcements_wellformed_witness :
  announcement_ok
    (mkBatch "0x1" "CS" "CS101" "10" "0x0" ["0x2"]
       [mkAnnouncement (Some "Exam") (Some "On Monday") "0x0" 100] 100 100)
    (mkAnnouncement (Some "Exam") (Some "On Monday") "0x0" 100).
Proof.
  refine (@stored_announcements_wellformed Example.plain Example.cfg
            Example.db5 _ _ session_announced _ _).
  - left. reflexivity.
  - left. reflexivity.
Defined.

(** X5. In every state the application reaches, every stored batch code is
    in upper case and no two batches share a code. *)
Theorem batch_codes_upper_and_unique (P : Primitives) (cfg : Config)
    (db : DB) :
  reachable cfg db ->
  (forall b, In b (batches db) ->
             Js.toUpperCase (b_batch_code b) = b_batch_code b)
  /\ NoDup (map b_batch_code (batches db)).
Proof.
  intros Hr. pose proof (reachable_integrity Hr) as Hi.
  split; [exact (int_codes_upper Hi) | exact (int_codes_unique Hi)].
Qed.

Lemma batch_codes_upper_and_unique_witness :
  NoDup (map b_batch_code (batches Example.db4)).
Proof.
  exact (proj2 (@batch_codes_upper_and_unique Example.plain Example.cfg
                  Example.db4 session_reachable)).
Defined.

(** X6. In every state the application reaches, no two admins share an
    e-mail, and every admin has role admin and is active. *)
Theorem admin_accounts_wellformed (P : Primitives) (cfg : Config)
    (db : DB) :
  reachable cfg db ->
  NoDup (map a_email (admins db))
  /\ forall a, In a (admins db) -> a_role a = "admin" /\ a_active a = true.
Proof.
  intros Hr. pose proof (reachable_integrity Hr) as Hi.
  split; [exact (int_admin_emails Hi) | exact (int_admin_role Hi)].
Qed.

Lemma admin_accounts_wellformed_witness :
  NoDup (map a_email (admins Example.db4)).
Proof.
  exact (proj1 (@admin_accounts_wellformed Example.plain Example.cfg
                  Example.db4 session_reachable)).
Defined.

(** X7. In every state the application reaches, every stored password, of
    a user or of an admin, is a hash of a password of six characters or
    more: no route stores a password as it was sent. *)
Theorem stored_passwords_are_hashes (P : Primitives) (cfg : Config)
    (db : DB) :
  reachable cfg db ->
  (forall u, In u (users db) -> hashed (SALT_ROUNDS cfg) (u_password u))
  /\ (forall a, In a (admins db) -> hashed 10 (a_password a)).
Proof.
  intros Hr. pose proof (reachable_integrity Hr) as Hi.
  split; [exact (int_user_hashed Hi) | exact (int_admin_hashed Hi)].
Qed.

Lemma stored_passwords_are_hashes_witness :
  hashed (P := Example.plain) 10 "secret1".
Proof.
  refine (proj1 (@stored_passwords_are_hashes Example.plain Example.cfg
                   Example.db4 session_reachable) Example.student2 _).
  left. reflexivity.
Defined.


(* ================================================================= *)
(** ** Routes that only read *)

(** X8. The logins and the GET routes never write: whatever the request
    and whatever they answer, the database is as it was. *)
Theorem read_only_routes_never_write (P : Primitives) (cfg : Config)
    (ep : Endpoint) (http : HttpRequest) (env : Env) (db : DB) :
  read_only ep = true -> snd (app cfg ep http env db) = db.
Proof.
  intros Hro. destruct ep; try discriminate Hro; unfold app.
  - unfold Admin.post_login. run. cases.
  - reflexivity.
  - unfold Admin.get_batch. run. cases.
  - reflexivity.
  - unfold Admin.get_announcements. run. cases.
  - unfold UserRoutes.post_login. run. cases.
  - unfold UserRoutes.post_login_student. run. cases.
  - unfold UserRoutes.post_login_parent. run. cases.
  - unfold UserRoutes.get_my_batches. run. cases.
  - unfold UserRoutes.get_parent_student_batches. run. cases.
  - unfold UserRoutes.get_student_batch. run. cases.
  - unfold UserRoutes.get_parent_batch. run. cases.
Qed.

Lemma read_only_routes_never_write_witness :
  snd (app (P := Example.plain) Example.cfg (UserStudentBatch "0x1")
         (mkHttp (Some "Bearer user:0x2") [("userId", "0x2")] [] None)
         Example.env Example.db4) = Example.db4.
Proof.
  exact (@read_only_routes_never_write Example.plain Example.cfg
           (UserStudentBatch "0x1")
           (mkHttp (Some "Bearer user:0x2") [("userId", "0x2")] [] None)
           Example.env Example.db4 eq_refl).
Defined.

(* ================================================================= *)
(** ** POST /admin/register *)

(** X9. Admin registration: a body the schema refuses is answered 400
    and an e-mail already registered 409, both without writing.
    Otherwise one admin is added with role admin, active, under a fresh
    identifier and the hash of the password; then, with a signing secret
    configured, the answer is 201 and the token is signed for one hour
    over that identifier, the e-mail and role admin, and without a
    secret the answer is 500, the admin being stored all the same. *)
Theorem admin_registration_outcomes (P : Primitives) (cfg : Config)
    (req : Req) (env : Env) (db : DB) :
  let o := r_body req in
  let out := Admin.post_register cfg req env db in
  match zod_parse Admin.registerSchema o with
  | Throw _ => status (fst out) = 400 /\ snd out = db
  | Ok _ =>
      match find (fun a => a_email a =? field "email" o) (admins db) with
      | Some _ => status (fst out) = 409 /\ snd out = db
      | None =>
          let admin :=
            mkAdminUser (oid (next_oid db)) (field "name" o)
              (field "email" o)
              (bcrypt_hash (field "password" o) 10 (salt env))
              "admin" true in
          snd out = mkDB (users db) (admins db ++ [admin]) (batches db)
                         (N.succ (next_oid db))
          /\ if JWT_SECRET cfg =? "" then status (fst out) = 500
             else
               status (fst out) = 201
               /\ jget "token" (body (fst out))
                  = Some (JStr (jwt_sign
                                  (mkClaims (Some (a_id admin)) None
                                            (a_email admin) (Some "admin"))
                                  (JWT_SECRET cfg) hour (now env)))
      end
  end.
Proof.
  cbv zeta. unfold Admin.post_register. run.
  destruct (zod_parse _ _) as [v|e] eqn:Hv; simpl.
  - apply zod_parse_ok in Hv. subst v.
    destruct (find _ (admins db)); simpl; [auto|].
    destruct (JWT_SECRET cfg =? ""); simpl; auto.
  - unfold zod_parse in Hv. destruct (flat_map _ _); [discriminate|].
    injection Hv as <-. simpl. auto.
Qed.

Lemma effect_appends_admins (db db' : DB) :
  effect db db' -> exists more, admins db' = admins db ++ more.
Proof.
  intros [->|a ->|b _ ->|b b' _ ->|s _ _ ->|s p _ _ _ _ ->]; simpl;
    eauto.
  all: exists []; now rewrite app_nil_r.
Qed.

Lemma later_admins (P : Primitives) cfg db db' :
  later cfg db db' -> exists more, admins db' = admins db ++ more.
Proof.
  induction 1 as [db|db db' ep http env _ [l IH]].
  - exists []. now rewrite app_nil_r.
  - destruct (effect_appends_admins (app_effect P cfg ep http env db'))
      as [l' Hl'].
    exists (l ++ l'). now rewrite Hl', IH, app_assoc.
Qed.

(** What a registration answered with 201 did. *)
Lemma admin_registered (P : Primitives) cfg req env db :
  status (fst (Admin.post_register cfg req env db)) = 201 ->
  find (fun a => a_email a =? field "email" (r_body req)) (admins db) = None
  /\ (6 <= String.length (field "password" (r_body req)))%nat
  /\ admins (snd (Admin.post_register cfg req env db))
     = admins db
       ++ [mkAdminUser (oid (next_oid db)) (field "name" (r_body req))
             (field "email" (r_body req))
             (bcrypt_hash (field "password" (r_body req)) 10 (salt env))
             "admin" true]
  /\ (JWT_SECRET cfg =? "") = false.
Proof.
  unfold Admin.post_register. run.
  destruct (zod_parse _ _) as [v|e] eqn:Hv; simpl.
  - pose proof (@admin_register_parsed P _ _ Hv) as (_ & _ & Hlen).
    apply zod_parse_ok in Hv. subst v.
    destruct (find _ (admins db)); simpl; [discriminate|].
    destruct (JWT_SECRET cfg =? ""); simpl; [discriminate|]. auto.
  - destruct (e_errors e); simpl; discriminate.
Qed.

(** The admin that a registration added is the one a look-up by its
    e-mail finds, in every later state. *)
Lemma registered_admin_found (P : Primitives) cfg req env db db2 :
  status (fst (Admin.post_register cfg req env db)) = 201 ->
  later cfg (snd (Admin.post_register cfg req env db)) db2 ->
  find (fun a => a_email a =? field "email" (r_body req)) (admins db2)
  = Some (mkAdminUser (oid (next_oid db)) (field "name" (r_body req))
            (field "email" (r_body req))
            (bcrypt_hash (field "password" (r_body req)) 10 (salt env))
            "admin" true).
Proof.
  intros H201 Hl.
  destruct (@admin_registered P cfg req env db H201) as (Hnone & _ & Hadm & _).
  destruct (later_admins Hl) as [more Hmore].
  rewrite Hmore, Hadm, <- app_assoc, find_app, Hnone. simpl.
  now rewrite String.eqb_refl.
Qed.

(** X10. Once an admin registration has been answered 201, a registration
    with the same e-mail is answered 409 and writes nothing, in every
    later state. *)
Theorem admin_email_stays_taken (P : Primitives) (cfg : Config)
    (req req2 : Req) (env env2 : Env) (db db2 : DB) :
  status (fst (Admin.post_register cfg req env db)) = 201 ->
  later cfg (snd (Admin.post_register cfg req env db)) db2 ->
  zod_parse Admin.registerSchema (r_body req2) = Ok (r_body req2) ->
  field "email" (r_body req2) = field "email" (r_body req) ->
  status (fst (Admin.post_register cfg req2 env2 db2)) = 409
  /\ snd (Admin.post_register cfg req2 env2 db2) = db2.
Proof.
  intros H201 Hl Hv Hmail.
  pose proof (@registered_admin_found P cfg req env db db2 H201 Hl) as Hfound.
  unfold Admin.post_register. run. rewrite Hv. simpl.
  rewrite Hmail, Hfound. simpl. auto.
Qed.

Lemma admin_email_stays_taken_witness :
  let again :=
    Admin.post_register (P := Example.plain) Example.cfg
      (incoming (Example.post [("name", "B"); ("email", "a@x.com");
                               ("password", "another")]) "")
      Example.env Example.db4 in
  status (fst again) = 409 /\ snd again = Example.db4.
Proof.
  refine (@admin_email_stays_taken Example.plain Example.cfg
            (incoming (Example.post [("name", "A"); ("email", "a@x.com");
                                     ("password", "secret1")]) "")
            _ Example.env Example.env empty_db Example.db4 _ _ _ _).
  - reflexivity.
  - exact session_after_admin.
  - reflexivity.
  - reflexivity.
Defined.

(** X11. After an admin registration answered 201, in every later state, a
    login with the registered e-mail and password that passes the login
    check is answered 200 with a token for the registered admin. *)
Theorem admin_register_then_login (P : Primitives) (cfg : Config)
    (req req2 : Req) (env env2 : Env) (db db2 : DB) :
  bcrypt_sound P ->
  status (fst (Admin.post_register cfg req env db)) = 201 ->
  later cfg (snd (Admin.post_register cfg req env db)) db2 ->
  fst (Admin.validateLogin (r_body req2)) = true ->
  field "email" (r_body req2) = field "email" (r_body req) ->
  field "password" (r_body req2) = field "password" (r_body req) ->
  let out2 := Admin.post_login cfg req2 env2 db2 in
  status (fst out2) = 200
  /\ jget "token" (body (fst out2))
     = Some (JStr (jwt_sign
                     (mkClaims (Some (oid (next_oid db))) None
                               (field "email" (r_body req)) None)
                     (JWT_SECRET cfg) hour (now env2))).
Proof.
  intros Hsound H201 Hl Hok Hmail Hpw. cbv zeta.
  pose proof (@registered_admin_found P cfg req env db db2 H201 Hl) as Hfound.
  destruct (@admin_registered P cfg req env db H201) as (_ & _ & _ & Hsec).
  unfold Admin.post_login. run. rewrite Hok, Hsec. simpl.
  rewrite Hmail, Hfound. simpl. rewrite Hpw, Hsound. simpl. auto.
Qed.

Lemma admin_register_then_login_witness :
  status (fst (Admin.post_login (P := Example.plain) Example.cfg
                 (incoming (Example.post [("email", "a@x.com");
                                          ("password", "secret1")]) "")
                 Example.env Example.db4)) = 200.
Proof.
  refine (proj1 (@admin_register_then_login Example.plain Example.cfg
            (incoming (Example.post [("name", "A"); ("email", "a@x.com");
                                     ("password", "secret1")]) "")
            _ Example.env Example.env empty_db Example.db4
            (proj1 plain_is_sound) _ _ _ _ _)).
  - reflexivity.
  - exact session_after_admin.
  - reflexivity.
  - reflexivity.
  - reflexivity.
Defined.

(* ================================================================= *)
(** ** Who may post an announcement *)

(** X12. The announcement route writes only when it answers 201, and it
    answers 201 only when the bearer segment of the header casts to the
    identifier of a stored admin, the path parameter casts to the
    identifier of a stored batch, and the segment is the text of that
    batch's [teacher_id]. *)
Theorem announcement_only_by_owner (req : Req) (env : Env) (db : DB) :
  let out := Admin.post_announcements req env db in
  (status (fst out) <> 201 -> snd out = db)
  /\ (status (fst out) = 201 ->
      exists (h tok _id batch_id : string) (a : AdminUser) (b : Batch),
        r_authorization req = Some h
        /\ bearer_segment h = Some tok
        /\ cast_id tok = Some _id
        /\ find (fun x => a_id x =? _id) (admins db) = Some a
        /\ cast_id (r_batchId req) = Some batch_id
        /\ find (fun x => b_id x =? batch_id) (batches db) = Some b
        /\ b_teacher_id b = tok).
Proof.
  cbv zeta. unfold Admin.post_announcements, bearer_segment. run.
  destruct (r_authorization req) as [h|]; simpl;
    [|split; [reflexivity | discriminate]].
  destruct (Js.startsWith "Bearer " h) eqn:Hpre; simpl;
    [|split; [reflexivity | discriminate]].
  destruct (second_segment h) as [tok|] eqn:Hseg; simpl;
    [|split; [reflexivity | discriminate]].
  destruct (cast_id tok) as [_id|] eqn:Htok; simpl;
    [|split; [reflexivity | discriminate]].
  destruct (find _ (admins db)) as [a|] eqn:Ha; simpl;
    [|split; [reflexivity | discriminate]].
  destruct (cast_id (r_batchId req)) as [batch_id|] eqn:Hbid; simpl;
    [|split; [reflexivity | discriminate]].
  destruct (find _ (batches db)) as [b|] eqn:Hb; simpl;
    [|split; [reflexivity | discriminate]].
  destruct (b_teacher_id b =? tok) eqn:Hown; simpl;
    [|split; [reflexivity | discriminate]].
  apply String.eqb_eq in Hown.
  destruct (BatchModel.validate_announcement _); simpl;
    [|split; [reflexivity | discriminate]].
  assert (Hid : b_id b = batch_id).
  { apply find_some in Hb. now apply String.eqb_eq. }
  match goal with
  | |- context [map (fun x => if b_id x =? b_id b then ?nb else x) _] =>
      rewrite (@find_replaced batch_id b nb (batches db) Hid Hid Hb)
  end.
  simpl. split; [congruence|]. intros _.
  exists h, tok, _id, batch_id, a, b. rewrite Hpre.
  repeat split; try assumption; reflexivity.
Qed.

Lemma announcement_only_by_owner_witness :
  exists (h tok _id batch_id : string) (a : AdminUser) (b : Batch),
    Some "Bearer 0x0" = Some h
    /\ bearer_segment h = Some tok
    /\ cast_id tok = Some _id
    /\ find (fun x => a_id x =? _id) (admins Example.db4) = Some a
    /\ cast_id "0x1" = Some batch_id
    /\ find (fun x => b_id x =? batch_id) (batches Example.db4) = Some b
    /\ b_teacher_id b = tok.
Proof.
  refine (proj2 (@announcement_only_by_owner
                   (incoming Example.announce_request "0x1")
                   Example.env Example.db4) _).
  reflexivity.
Defined.

(** X13. Each refusal of the announcement route, in the order the
    handler checks: no header or no ["Bearer "] prefix, 401; a bearer
    segment that is the text of an identifier but of no admin, 401; a
    path parameter that is the text of an identifier but of no batch,
    404; an admin who is not the batch's teacher, 403. *)
Theorem announcement_refusals (req : Req) (env : Env) (db : DB) (n m : N) :
  let out := Admin.post_announcements req env db in
  match r_authorization req with
  | None => status (fst out) = 401
  | Some h =>
      match bearer_segment h with
      | None => status (fst out) = 401
      | Some tok =>
          tok = oid n ->
          match find (fun x => a_id x =? tok) (admins db) with
          | None => status (fst out) = 401
          | Some _ =>
              r_batchId req = oid m ->
              match
                find (fun x => b_id x =? r_batchId req) (batches db)
              with
              | None => status (fst out) = 404
              | Some b => b_teacher_id b <> tok -> status (fst out) = 403
              end
          end
      end
  end.
Proof.
  cbv zeta. unfold Admin.post_announcements, bearer_segment. run.
  destruct (r_authorization req) as [h|]; simpl; [|reflexivity].
  destruct (Js.startsWith "Bearer " h) eqn:Hpre; simpl; [|reflexivity].
  destruct (second_segment h) as [tok|]; simpl; [|reflexivity].
  intros ->. rewrite cast_id_oid. simpl.
  destruct (find _ (admins db)) as [a|]; simpl; [|reflexivity].
  intros Hbid. rewrite Hbid, cast_id_oid. simpl.
  destruct (find _ (batches db)) as [b|]; simpl; [|reflexivity].
  intros Hne. apply String.eqb_neq in Hne. now rewrite Hne.
Qed.

Lemma announcement_refusals_witness :
  status (fst (Admin.post_announcements
                 (incoming (mkHttp (Some "Bearer 0x9") []
                              Example.announcement_body None) "0x1")
                 Example.env
                 (mkDB [] [Example.admin0;
                           mkAdminUser "0x9" "B" "b@x.com" "secret2" "admin"
                                       true]
                       [Example.batch1 []] 10))) = 403.
Proof.
  refine (@announcement_refusals
            (incoming (mkHttp (Some "Bearer 0x9") []
                         Example.announcement_body None) "0x1")
            Example.env
            (mkDB [] [Example.admin0;
                      mkAdminUser "0x9" "B" "b@x.com" "secret2" "admin" true]
                  [Example.batch1 []] 10) 9 1 _ _ _).
  - reflexivity.
  - reflexivity.
  - discriminate.
Defined.

(** X14. After an announcement is posted (201), listing the announcements
    of that batch gives the posted announcement first, followed by what
    the listing gave before. *)
Theorem posted_announcement_is_listed_first (req req2 : Req)
    (env env2 : Env) (db : DB) :
  status (fst (Admin.post_announcements req env db)) = 201 ->
  r_batchId req2 = r_batchId req ->
  exists (first : json) (before : list json),
    jget "announcement" (body (fst (Admin.post_announcements req env db)))
    = Some first
    /\ jget "announcements"
         (body (fst (Admin.get_announcements req2 env2 db)))
       = Some (JArr before)
    /\ jget "announcements"
         (body (fst (Admin.get_announcements req2 env2
                       (snd (Admin.post_announcements req env db)))))
       = Some (JArr (first :: before)).
Proof.
  intros H201 Hid. revert H201.
  unfold Admin.post_announcements, Admin.get_announcements. run.
  rewrite Hid.
  destruct (r_authorization req) as [h|]; simpl; [|discriminate].
  destruct (negb _); simpl; [discriminate|].
  destruct (second_segment h) as [tok|]; simpl; [|discriminate].
  destruct (cast_id tok) as [_id|]; simpl; [|discriminate].
  destruct (find _ (admins db)) as [a|]; simpl; [|discriminate].
  destruct (cast_id (r_batchId req)) as [batch_id|]; simpl; [|discriminate].
  destruct (find _ (batches db)) as [b|] eqn:Hb; simpl; [|discriminate].
  destruct (negb _); simpl; [discriminate|].
  destruct (BatchModel.validate_announcement _); simpl; [|discriminate].
  assert (Hbid : b_id b = batch_id).
  { apply find_some in Hb. now apply String.eqb_eq. }
  match goal with
  | |- context [map (fun x => if b_id x =? b_id b then ?nb else x) _] =>
      rewrite (@find_replaced batch_id b nb (batches db) Hbid Hbid Hb)
  end.
  simpl. intros _. eexists _, _. split; [reflexivity|]. split; [reflexivity|].
  match goal with
  | |- context [map (fun x => if b_id x =? b_id b then ?nb else x) _] =>
      rewrite (@find_replaced batch_id b nb (batches db) Hbid Hbid Hb)
  end.
  reflexivity.
Qed.

Lemma posted_announcement_is_listed_first_witness :
  let posting :=
    Admin.post_announcements
      (incoming Example.announce_request "0x1") Example.env Example.db4 in
  let listing := Admin.get_announcements (incoming (Example.post []) "0x1")
                   Example.env in
  exists (first : json) (before : list json),
    jget "announcement" (body (fst posting)) = Some first
    /\ jget "announcements" (body (fst (listing Example.db4)))
       = Some (JArr before)
    /\ jget "announcements" (body (fst (listing (snd posting))))
       = Some (JArr (first :: before)).
Proof.
  refine (@posted_announcement_is_listed_first
            (incoming Example.announce_request "0x1")
            (incoming (Example.post []) "0x1")
            Example.env Example.env Example.db4 _ _).
  - reflexivity.
  - reflexivity.
Defined.

(* ================================================================= *)
(** ** Newest first *)

Lemma insert_desc_perm (b : Batch) (l : list Batch) :
  Permutation (insert_desc b l) (b :: l).
Proof.
  induction l as [|x l IH]; simpl; [reflexivity|].
  destruct (b_createdAt x <? b_createdAt b)%N; [reflexivity|].
  rewrite IH. apply perm_swap.
Qed.

Lemma sort_desc_perm (l : list Batch) : Permutation (sort_desc l) l.
Proof.
  unfold sort_desc. induction l as [|x l IH]; simpl; [reflexivity|].
  rewrite insert_desc_perm. now constructor.
Qed.

Lemma descending_tail (b x : Batch) (l : list Batch) :
  descending (x :: l) -> (b_createdAt x <= b_createdAt b)%N ->
  forall y, In y (x :: l) -> (b_createdAt y <= b_createdAt b)%N.
Proof.
  intros [Hx _] Hle y [Heq|Hy]; [subst y; exact Hle|].
  specialize (Hx y Hy). lia.
Qed.

Lemma insert_desc_descending (b : Batch) (l : list Batch) :
  descending l -> descending (insert_desc b l).
Proof.
  induction l as [|x l IH]; simpl; intros Hd;
    [split; [intros y [] | exact I]|].
  destruct (b_createdAt x <? b_createdAt b)%N eqn:E.
  - apply N.ltb_lt in E. simpl. split; [|exact Hd].
    apply descending_tail; [exact Hd | lia].
  - apply N.ltb_ge in E. destruct Hd as [Hx Hd]. simpl. split.
    + intros y Hy.
      apply (Permutation_in _ (insert_desc_perm b l)) in Hy.
      destruct Hy as [Heq|Hy]; [subst y; exact E | auto].
    + auto.
Qed.

Lemma sort_desc_descending (l : list Batch) : descending (sort_desc l).
Proof.
  unfold sort_desc. induction l as [|x l IH]; simpl; [exact I|].
  now apply insert_desc_descending.
Qed.

(** X18. GET /admin/batches answers 200 with every stored batch exactly
    once, newest first. *)
Theorem all_batches_listed_newest_first (req : Req) (env : Env) (db : DB) :
  exists l : list Batch,
    fst (Admin.get_batches req env db)
    = mkResponse 200 (JObj [("success", JBool true);
                            ("batches", JArr (map (populated_batch db) l))])
    /\ Permutation l (batches db)
    /\ descending l.
Proof.
  exists (sort_desc (batches db)). split; [|split].
  - unfold Admin.get_batches. run. simpl. now rewrite filter_true.
  - apply sort_desc_perm.
  - apply sort_desc_descending.
Qed.

(* ================================================================= *)
(** ** Who may read a batch *)

Lemma populated_member (db : DB) (ids : list string) (q : option string) :
  existsb (fun s => opt_eqb (Some (u_id s)) q) (populate_students db ids)
  = true ->
  exists i u, q = Some i /\ In i ids /\ In u (users db) /\ u_id u = i.
Proof.
  intros H. apply existsb_exists in H. destruct H as (s & Hs & Hq).
  unfold populate_students in Hs. apply in_flat_map in Hs.
  destruct Hs as (i & Hi & Hs).
  destruct (find _ (users db)) as [u|] eqn:Hf; [|destruct Hs].
  destruct Hs as [<-|[]]. apply find_some in Hf. destruct Hf as [Hu E].
  apply String.eqb_eq in E.
  destruct q as [j|]; [|discriminate]. simpl in Hq.
  apply String.eqb_eq in Hq. exists i, u. subst. auto.
Qed.

(** X15. The student detail route answers 200 only to a bearer token
    that verifies, whose [userId] is the [userId] of the query, and only
    when the path parameter casts to the identifier of a stored batch
    and that [userId] is in the student list of the batch and is the
    identifier of a stored user. *)
Theorem student_batch_only_for_enrolled_caller (P : Primitives)
    (cfg : Config) (req : Req) (env : Env) (db : DB) :
  status (fst (UserRoutes.get_student_batch cfg req env db)) = 200 ->
  exists (h tok uid batch_id : string) (c : Claims) (b : Batch) (u : User),
    r_authorization req = Some h
    /\ bearer_segment h = Some tok
    /\ jwt_verify tok (JWT_SECRET cfg) (now env) = JwtOk c
    /\ userId c = Some uid
    /\ prop "userId" (r_query req) = Some uid
    /\ cast_id (r_batchId req) = Some batch_id
    /\ find (fun x => b_id x =? batch_id) (batches db) = Some b
    /\ In uid (b_students b)
    /\ In u (users db) /\ u_id u = uid.
Proof.
  unfold UserRoutes.get_student_batch, bearer_segment. run.
  destruct (r_authorization req) as [h|]; simpl; [|discriminate].
  destruct (Js.startsWith "Bearer " h) eqn:Hpre; simpl; [|discriminate].
  destruct (second_segment h) as [tok|] eqn:Hseg; simpl; [|discriminate].
  destruct (jwt_verify _ _ _) as [c| |] eqn:Hjwt; simpl; try discriminate.
  destruct (opt_eqb (userId c) _) eqn:Hsame; simpl; [|discriminate].
  destruct (cast_id (r_batchId req)) as [batch_id|] eqn:Hbid; simpl;
    [|discriminate].
  destruct (find _ (batches db)) as [b|] eqn:Hb; simpl; [|discriminate].
  destruct (existsb _ _) eqn:Hin; simpl; [|discriminate].
  intros _. apply populated_member in Hin.
  destruct Hin as (i & u & Hq & Hi & Hu & Hid).
  rewrite Hq in Hsame. destruct (userId c) as [j|] eqn:Hc; [|discriminate].
  simpl in Hsame. apply String.eqb_eq in Hsame. subst j.
  exists h, tok, i, batch_id, c, b, u. rewrite Hpre.
  repeat split; assumption.
Qed.

Lemma student_batch_only_for_enrolled_caller_witness :
  exists (h tok uid batch_id : string) (c : Claims) (b : Batch) (u : User),
    Some "Bearer user:0x2" = Some h
    /\ bearer_segment h = Some tok
    /\ jwt_verify (Primitives := Example.plain) tok "secret" 100 = JwtOk c
    /\ userId c = Some uid
    /\ Some "0x2" = Some uid
    /\ cast_id "0x1" = Some batch_id
    /\ find (fun x => b_id x =? batch_id) (batches Example.db4) = Some b
    /\ In uid (b_students b)
    /\ In u (users Example.db4) /\ u_id u = uid.
Proof.
  refine (@student_batch_only_for_enrolled_caller Example.plain Example.cfg
            (incoming (mkHttp (Some "Bearer user:0x2") [("userId", "0x2")]
                         [] None) "0x1")
            Example.env Example.db4 _).
  reflexivity.
Defined.

(** X16. The parent detail route answers 200 only when the [parentId] of
    the query casts to the identifier of a stored user with role parent,
    the [studentId] casts to the identifier of a stored user whose
    [parentEmail] is that parent's e-mail, the path parameter casts to
    the identifier of a stored batch, and the [studentId] is in the
    student list of that batch. *)
Theorem parent_batch_only_for_linked_student (req : Req) (env : Env)
    (db : DB) :
  status (fst (UserRoutes.get_parent_batch req env db)) = 200 ->
  exists (pid sid parent_id student_id batch_id : string)
         (parent student : User) (b : Batch),
    prop "parentId" (r_query req) = Some pid
    /\ prop "studentId" (r_query req) = Some sid
    /\ cast_id pid = Some parent_id
    /\ find (fun u => u_id u =? parent_id) (users db) = Some parent
    /\ u_role parent = "parent"
    /\ cast_id sid = Some student_id
    /\ find (fun u => u_id u =? student_id) (users db) = Some student
    /\ u_parentEmail student = Some (u_email parent)
    /\ cast_id (r_batchId req) = Some batch_id
    /\ find (fun x => b_id x =? batch_id) (batches db) = Some b
    /\ In sid (b_students b).
Proof.
  unfold UserRoutes.get_parent_batch. run.
  destruct (r_authorization req) as [h|]; simpl; [|discriminate].
  destruct (negb _); simpl; [discriminate|].
  destruct (prop "parentId" (r_query req)) as [pid|]; simpl.
  2:{ destruct (prop "studentId" (r_query req)) as [sid|]; simpl;
        [|discriminate].
      destruct (cast_id sid); simpl; discriminate. }
  destruct (cast_id pid) as [parent_id|] eqn:Hpid; simpl; [|discriminate].
  destruct (prop "studentId" (r_query req)) as [sid|]; simpl.
  2:{ destruct (find _ (users db)) as [p|]; simpl; [|discriminate].
      destruct (negb _); simpl; discriminate. }
  destruct (cast_id sid) as [student_id|] eqn:Hsid; simpl; [|discriminate].
  destruct (find (fun u => u_id u =? parent_id) (users db))
    as [parent|] eqn:Hp; simpl; [|discriminate].
  destruct (u_role parent =? "parent") eqn:Hrole; simpl; [|discriminate].
  destruct (find (fun u => u_id u =? student_id) (users db))
    as [student|] eqn:Hs; simpl; [|discriminate].
  destruct (opt_eqb (u_parentEmail student) _) eqn:Hlink; simpl;
    [|discriminate].
  destruct (cast_id (r_batchId req)) as [batch_id|] eqn:Hbid; simpl;
    [|discriminate].
  destruct (find _ (batches db)) as [b|] eqn:Hb; simpl; [|discriminate].
  destruct (existsb _ _) eqn:Hin; simpl; [|discriminate].
  intros _. apply (@populated_member db _ (Some sid)) in Hin.
  destruct Hin as (i & u & [= <-] & Hi & _).
  apply String.eqb_eq in Hrole.
  destruct (u_parentEmail student) as [pe|] eqn:Hpe; [|discriminate].
  simpl in Hlink. apply String.eqb_eq in Hlink. subst pe.
  exists pid, sid, parent_id, student_id, batch_id, parent, student, b.
  repeat split; first [assumption | reflexivity].
Qed.

Lemma parent_batch_only_for_linked_student_witness :
  exists (pid sid parent_id student_id batch_id : string)
         (parent student : User) (b : Batch),
    Some "0x3" = Some pid
    /\ Some "0x2" = Some sid
    /\ cast_id pid = Some parent_id
    /\ find (fun u => u_id u =? parent_id) (users Example.db4) = Some parent
    /\ u_role parent = "parent"
    /\ cast_id sid = Some student_id
    /\ find (fun u => u_id u =? student_id) (users Example.db4)
       = Some student
    /\ u_parentEmail student = Some (u_email parent)
    /\ cast_id "0x1" = Some batch_id
    /\ find (fun x => b_id x =? batch_id) (batches Example.db4) = Some b
    /\ In sid (b_students b).
Proof.
  refine (@parent_batch_only_for_linked_student
            (incoming (mkHttp (Some "Bearer anything")
                         [("parentId", "0x3"); ("studentId", "0x2")]
                         [] None) "0x1")
            Example.env Example.db4 _).
  reflexivity.
Defined.

Lemma Forall2_map_each {A B} (R : A -> B -> Prop) (f : A -> B)
    (l : list A) :
  (forall x, In x l -> R x (f x)) -> Forall2 R l (map f l).
Proof.
  induction l as [|x l IH]; simpl; intros H; constructor.
  - apply H. now left.
  - apply IH. intros y Hy. apply H. now right.
Qed.

(** X17. The parent listing route answers 200 only to a bearer token
    that verifies and whose [userId] casts to the identifier of a stored
    user with role parent.  Its data then has one entry for each user
    whose [parentEmail] is that parent's e-mail, in stored order; the
    entry names the user and lists the batches whose student list
    contains the user's identifier, each once, newest first. *)
Theorem parent_listing_only_for_parent (P : Primitives) (cfg : Config)
    (req : Req) (env : Env) (db : DB) :
  status (fst (UserRoutes.get_parent_student_batches cfg req env db)) = 200 ->
  exists (h tok pid parent_id : string) (c : Claims) (parent : User)
         (entries : list json),
    r_authorization req = Some h
    /\ bearer_segment h = Some tok
    /\ jwt_verify tok (JWT_SECRET cfg) (now env) = JwtOk c
    /\ userId c = Some pid
    /\ cast_id pid = Some parent_id
    /\ find (fun u => u_id u =? parent_id) (users db) = Some parent
    /\ u_role parent = "parent"
    /\ jget "data"
         (body (fst (UserRoutes.get_parent_student_batches cfg req env db)))
       = Some (JArr entries)
    /\ Forall2
         (fun (student : User) (entry : json) =>
            jpath ["student"; "id"] entry = Some (JStr (u_id student))
            /\ exists (listed : list Batch) (items : list json),
                 Permutation listed
                   (filter (fun b =>
                              if in_dec string_dec (u_id student)
                                        (b_students b)
                              then true else false)
                           (batches db))
                 /\ descending listed
                 /\ jget "batches" entry = Some (JArr items)
                 /\ Forall2
                      (fun (b : Batch) (item : json) =>
                         jget "_id" item = Some (JStr (b_id b))
                         /\ jget "batch_code" item
                            = Some (JStr (b_batch_code b)))
                      listed items)
         (filter (fun u => opt_eqb (u_parentEmail u) (Some (u_email parent)))
                 (users db))
         entries.
Proof.
  unfold UserRoutes.get_parent_student_batches, bearer_segment. run.
  destruct (r_authorization req) as [h|]; simpl; [|discriminate].
  destruct (Js.startsWith "Bearer " h) eqn:Hpre; simpl; [|discriminate].
  destruct (second_segment h) as [tok|] eqn:Hseg; simpl; [|discriminate].
  destruct (jwt_verify _ _ _) as [c| |] eqn:Hjwt; simpl; try discriminate.
  destruct (userId c) as [pid|] eqn:Hc; simpl; [|discriminate].
  destruct (cast_id pid) as [parent_id|] eqn:Hpid; simpl; [|discriminate].
  destruct (find _ (users db)) as [parent|] eqn:Hp; simpl; [|discriminate].
  destruct (u_role parent =? "parent") eqn:Hrole; simpl; [|discriminate].
  intros _. apply String.eqb_eq in Hrole.
  exists h, tok, pid, parent_id, c, parent. eexists. rewrite Hpre.
  do 8 (split; [first [assumption | reflexivity]|]).
  apply Forall2_map_each. intros student _. split; [reflexivity|].
  exists (sort_desc
            (filter (fun b => includes (b_students b) (u_id student))
                    (batches db))).
  eexists. split; [|split; [|split]].
  - rewrite sort_desc_perm.
    rewrite (filter_ext
               (fun b => includes (b_students b) (u_id student))
               (fun b => if in_dec string_dec (u_id student) (b_students b)
                         then true else false)); [reflexivity|].
    intros b.
    destruct (in_dec string_dec (u_id student) (b_students b)) as [Hin|Hin].
    + now apply includes_In.
    + now apply includes_not_In.
  - apply sort_desc_descending.
  - reflexivity.
  - apply Forall2_map_each. intros b _. split; reflexivity.
Qed.

Lemma parent_listing_only_for_parent_witness :
  exists (h tok pid parent_id : string) (c : Claims) (parent : User)
         (entries : list json),
    Some "Bearer user:0x3" = Some h
    /\ bearer_segment h = Some tok
    /\ jwt_verify (Primitives := Example.plain) tok "secret" 100 = JwtOk c
    /\ userId c = Some pid
    /\ cast_id pid = Some parent_id
    /\ find (fun u => u_id u =? parent_id) (users Example.db4) = Some parent
    /\ u_role parent = "parent"
    /\ jget "data"
         (body (fst (UserRoutes.get_parent_student_batches
                       (P := Example.plain) Example.cfg
                       (incoming (mkHttp (Some "Bearer user:0x3") [] [] None)
                                 "")
                       Example.env Example.db4)))
       = Some (JArr entries)
    /\ Forall2
         (fun (student : User) (entry : json) =>
            jpath ["student"; "id"] entry = Some (JStr (u_id student))
            /\ exists (listed : list Batch) (items : list json),
                 Permutation listed
                   (filter (fun b =>
                              if in_dec string_dec (u_id student)
                                        (b_students b)
                              then true else false)
                           (batches Example.db4))
                 /\ descending listed
                 /\ jget "batches" entry = Some (JArr items)
                 /\ Forall2
                      (fun (b : Batch) (item : json) =>
                         jget "_id" item = Some (JStr (b_id b))
                         /\ jget "batch_code" item
                            = Some (JStr (b_batch_code b)))
                      listed items)
         (filter (fun u => opt_eqb (u_parentEmail u) (Some (u_email parent)))
                 (users Example.db4))
         entries.
Proof.
  refine (@parent_listing_only_for_parent Example.plain Example.cfg
            (incoming (mkHttp (Some "Bearer user:0x3") [] [] None) "")
            Example.env Example.db4 _).
  reflexivity.
Defined.

(* ================================================================= *)
(** ** Joining a batch and seeing it *)

(** What a join answered with 200 did. *)
Lemma join_accepted (P : Primitives) cfg req env db :
  status (fst (UserRoutes.post_join_batch cfg req env db)) = 200 ->
  exists (tok uid sid : string) (c : Claims) (student : User) (b : Batch),
    second_segment (str (r_authorization req)) = Some tok
    /\ jwt_verify tok (JWT_SECRET cfg) (now env) = JwtOk c
    /\ userId c = Some uid
    /\ cast_id uid = Some sid
    /\ find (fun u => u_id u =? sid) (users db) = Some student
    /\ u_role student = "student"
    /\ find (fun x => b_batch_code x
                      =? Js.toUpperCase (str (prop "batch_code" (r_body req))))
            (batches db) = Some b
    /\ ~ In sid (b_students b)
    /\ Js.truthy (prop "batch_code" (r_body req)) = true
    /\ snd (UserRoutes.post_join_batch cfg req env db)
       = mkDB (users db) (admins db)
              (map (fun x => if b_id x =? b_id b then joined env b sid else x)
                   (batches db))
              (next_oid db).
Proof.
  unfold UserRoutes.post_join_batch. run.
  destruct (Js.truthy (prop "batch_code" (r_body req))) eqn:Hcode; simpl;
    [|discriminate].
  destruct (negb _); simpl; [discriminate|].
  destruct (second_segment _) as [tok|] eqn:Hseg; simpl; [|discriminate].
  destruct (jwt_verify _ _ _) as [c| |] eqn:Hjwt; simpl; try discriminate.
  destruct (userId c) as [uid|] eqn:Hc; simpl; [|discriminate].
  destruct (cast_id uid) as [sid|] eqn:Hsid; simpl; [|discriminate].
  destruct (find _ (users db)) as [student|] eqn:Hu; simpl; [|discriminate].
  destruct (u_role student =? "student") eqn:Hrole; simpl; [|discriminate].
  destruct (find _ (batches db)) as [b|] eqn:Hb; simpl; [|discriminate].
  destruct (includes _ _) eqn:Hinc; simpl; [discriminate|].
  intros _. apply String.eqb_eq in Hrole.
  assert (Hid : u_id student = sid).
  { apply find_some in Hu. now apply String.eqb_eq. }
  rewrite Hid in *. apply includes_not_In in Hinc.
  exists tok, uid, sid, c, student, b.
  repeat split; assumption || reflexivity.
Qed.

(** X19. Join-batch answers 200 only to a token that verifies and whose
    [userId] casts to the identifier of a stored user with role student;
    what it then writes is that identifier, once, at the end of the
    student list of the batch with the upper-cased code, and nothing
    else. *)
Theorem join_enrols_only_the_token_holder (P : Primitives) (cfg : Config)
    (req : Req) (env : Env) (db : DB) :
  status (fst (UserRoutes.post_join_batch cfg req env db)) = 200 ->
  exists (tok uid sid : string) (c : Claims) (b : Batch),
    second_segment (str (r_authorization req)) = Some tok
    /\ jwt_verify tok (JWT_SECRET cfg) (now env) = JwtOk c
    /\ userId c = Some uid
    /\ cast_id uid = Some sid
    /\ resolves_to_student db sid = true
    /\ find (fun x => b_batch_code x
                      =? Js.toUpperCase (str (prop "batch_code" (r_body req))))
            (batches db) = Some b
    /\ ~ In sid (b_students b)
    /\ snd (UserRoutes.post_join_batch cfg req env db)
       = mkDB (users db) (admins db)
              (map (fun x => if b_id x =? b_id b then joined env b sid else x)
                   (batches db))
              (next_oid db).
Proof.
  intros H200.
  destruct (@join_accepted P cfg req env db H200)
    as (tok & uid & sid & c & student & b
        & H1 & H2 & H3 & Hsid & H4 & H5 & H6 & H7 & _ & H8).
  exists tok, uid, sid, c, b. repeat split; try assumption.
  unfold resolves_to_student. apply existsb_exists. exists student.
  apply find_some in H4. destruct H4 as [Hin Hid].
  split; [exact Hin|]. rewrite Hid, H5. reflexivity.
Qed.

Lemma join_enrols_only_the_token_holder_witness :
  let req := incoming Example.join_request "" in
  exists (tok uid sid : string) (c : Claims) (b : Batch),
    second_segment (str (r_authorization req)) = Some tok
    /\ jwt_verify (Primitives := Example.plain) tok "secret" 100 = JwtOk c
    /\ userId c = Some uid
    /\ cast_id uid = Some sid
    /\ resolves_to_student Example.db3 sid = true
    /\ find (fun x => b_batch_code x
                      =? Js.toUpperCase (str (prop "batch_code" (r_body req))))
            (batches Example.db3) = Some b
    /\ ~ In sid (b_students b)
    /\ snd (UserRoutes.post_join_batch (P := Example.plain) Example.cfg req
              Example.env Example.db3)
       = mkDB (users Example.db3) (admins Example.db3)
              (map (fun x => if b_id x =? b_id b
                             then joined Example.env b sid else x)
                   (batches Example.db3))
              (next_oid Example.db3).
Proof.
  refine (@join_enrols_only_the_token_holder Example.plain Example.cfg
            (incoming Example.join_request "") Example.env Example.db3 _).
  reflexivity.
Defined.

Lemma oid_nonempty (n : N) : oid n <> "".
Proof. unfold oid, HexString.of_N. destruct n; discriminate. Qed.

Lemma joined_in (env : Env) (b : Batch) (sid : string) (l : list Batch) :
  In b l ->
  In (joined env b sid)
     (map (fun x => if b_id x =? b_id b then joined env b sid else x) l).
Proof.
  intros Hb. apply in_map_iff. exists b. split; [|exact Hb].
  now rewrite String.eqb_refl.
Qed.

(** X20. In a state the application reaches, after a join answered with
    200, my-batches for the identifier of the token lists the joined
    batch. *)
Theorem joined_batch_is_listed (P : Primitives) (cfg : Config)
    (req req2 : Req) (env env2 : Env) (db : DB) (tok : string)
    (c : Claims) :
  reachable cfg db ->
  status (fst (UserRoutes.post_join_batch cfg req env db)) = 200 ->
  second_segment (str (r_authorization req)) = Some tok ->
  jwt_verify tok (JWT_SECRET cfg) (now env) = JwtOk c ->
  prop "student_id" (r_query req2) = userId c ->
  let out2 := UserRoutes.get_my_batches req2 env2
                (snd (UserRoutes.post_join_batch cfg req env db)) in
  status (fst out2) = 200
  /\ exists (items : list json) (item : json),
       jget "batches" (body (fst out2)) = Some (JArr items)
       /\ In item items
       /\ jget "batch_code" item
          = Some (JStr (Js.toUpperCase
                          (str (prop "batch_code" (r_body req))))).
Proof.
  intros Hr H200 Hseg Hjwt Hq. cbv zeta.
  destruct (@join_accepted P cfg req env db H200)
    as (tok' & uid & sid & c' & student & b
        & H1 & H2 & H3 & Hsid & H4 & H5 & H6 & H7 & _ & H8).
  rewrite Hseg in H1. injection H1 as <-. rewrite Hjwt in H2.
  injection H2 as <-. rewrite H8. rewrite H3 in Hq.
  assert (Hne : (uid =? "") = false).
  { apply String.eqb_neq. intros ->. rewrite cast_id_empty in Hsid.
    discriminate. }
  unfold UserRoutes.get_my_batches. run. rewrite Hq. simpl. rewrite Hne.
  simpl. rewrite Hsid. simpl. split; [reflexivity|].
  assert (Hcode : b_batch_code b
                  = Js.toUpperCase (str (prop "batch_code" (r_body req)))).
  { apply find_some in H6. now apply String.eqb_eq. }
  eexists. eexists. split; [reflexivity|]. split.
  - apply in_map.
    apply (Permutation_in _ (Permutation_sym (sort_desc_perm _))).
    apply filter_In. split.
    + apply joined_in. apply find_some in H6. exact (proj1 H6).
    + simpl. apply includes_last.
  - simpl. now rewrite Hcode.
Qed.

Lemma joined_batch_is_listed_witness :
  let out2 :=
    UserRoutes.get_my_batches
      (incoming (mkHttp None [("student_id", "0x2")] [] None) "")
      Example.env Example.db4 in
  status (fst out2) = 200
  /\ exists (items : list json) (item : json),
       jget "batches" (body (fst out2)) = Some (JArr items)
       /\ In item items
       /\ jget "batch_code" item = Some (JStr "CS101").
Proof.
  refine (@joined_batch_is_listed Example.plain Example.cfg
            (incoming Example.join_request "")
            (incoming (mkHttp None [("student_id", "0x2")] [] None) "")
            Example.env Example.env Example.db3 "user:0x2"
            (mkClaims None (Some "0x2") "" None)
            session_before_join _ _ _ _).
  - reflexivity.
  - reflexivity.
  - reflexivity.
  - reflexivity.
Defined.

(** X21. In a state the application reaches, after a join answered with
    200 to a token whose [userId] is the text of an identifier as the
    driver writes it, the student detail route answers 200 for the joined
    batch to a token of the same user. *)
Theorem joined_student_can_read_batch (P : Primitives) (cfg : Config)
    (req req2 : Req) (env env2 : Env) (db : DB) (tok h2 tok2 : string)
    (c c2 : Claims) (b : Batch) (n : N) :
  reachable cfg db ->
  status (fst (UserRoutes.post_join_batch cfg req env db)) = 200 ->
  second_segment (str (r_authorization req)) = Some tok ->
  jwt_verify tok (JWT_SECRET cfg) (now env) = JwtOk c ->
  userId c = Some (oid n) ->
  find (fun x => b_batch_code x
                 =? Js.toUpperCase (str (prop "batch_code" (r_body req))))
       (batches db) = Some b ->
  r_authorization req2 = Some h2 ->
  bearer_segment h2 = Some tok2 ->
  jwt_verify tok2 (JWT_SECRET cfg) (now env2) = JwtOk c2 ->
  userId c2 = userId c ->
  prop "userId" (r_query req2) = userId c ->
  r_batchId req2 = b_id b ->
  status (fst (UserRoutes.get_student_batch cfg req2 env2
                 (snd (UserRoutes.post_join_batch cfg req env db)))) = 200.
Proof.
  intros Hr H200 Hseg Hjwt Hwritten Hb Hh2 Hseg2 Hjwt2 Hsame Hq Hid.
  destruct (@join_accepted P cfg req env db H200)
    as (tok' & uid & sid & c' & student & b'
        & H1 & H2 & H3 & Hsid & H4 & H5 & H6 & H7 & _ & H8).
  rewrite Hseg in H1. injection H1 as <-. rewrite Hjwt in H2.
  injection H2 as <-. rewrite Hb in H6. injection H6 as <-.
  rewrite Hwritten in H3. injection H3 as <-.
  rewrite cast_id_oid in Hsid. injection Hsid as <-.
  rewrite H8. rewrite Hwritten in Hsame, Hq.
  unfold bearer_segment in Hseg2.
  destruct (Js.startsWith "Bearer " h2) eqn:Hpre; [|discriminate].
  assert (Hin : In b (batches db)) by (apply find_some in Hb; tauto).
  assert (Hfind : find (fun x => b_id x =? b_id b) (batches db) = Some b).
  { destruct (find_by_id_some b_id (batches db)
                (ex_intro _ b (conj Hin eq_refl))) as (y & Hy & Ey).
    rewrite Hy. f_equal.
    apply find_some in Hy. destruct Hy as [Hyin _].
    exact (@same_id_same_batch b (batches db) y
             (int_batch_unique (reachable_integrity Hr)) Hin Hyin Ey). }
  assert (Hcast : cast_id (b_id b) = Some (b_id b)).
  { destruct (int_batch_ids (reachable_integrity Hr) b Hin) as (k & _ & ->).
    apply cast_id_oid. }
  unfold UserRoutes.get_student_batch. run.
  rewrite Hh2, Hpre, Hseg2, Hq, Hid. simpl. rewrite Hjwt2, Hsame. simpl.
  rewrite String.eqb_refl, Hcast. simpl.
  rewrite (@find_replaced (b_id b) b (joined env b (oid n)) (batches db)
             eq_refl eq_refl Hfind).
  simpl.
  assert (Hex : existsb (fun s => u_id s =? oid n)
                  (populate_students
                     (mkDB (users db) (admins db)
                        (map (fun x => if b_id x =? b_id b
                                       then joined env b (oid n) else x)
                             (batches db)) (next_oid db))
                     (b_students b ++ [oid n])) = true).
  { apply existsb_exists. exists student. split.
    - unfold populate_students. apply in_flat_map. exists (oid n). split.
      + apply in_or_app. right. now left.
      + simpl. rewrite H4. now left.
    - apply find_some in H4. tauto. }
  rewrite Hex. reflexivity.
Qed.

Lemma joined_student_can_read_batch_witness :
  status (fst (UserRoutes.get_student_batch (P := Example.plain) Example.cfg
                 (incoming (mkHttp (Some "Bearer user:0x2")
                              [("userId", "0x2")] [] None) "0x1")
                 Example.env Example.db4)) = 200.
Proof.
  refine (@joined_student_can_read_batch Example.plain Example.cfg
            (incoming Example.join_request "")
            (incoming (mkHttp (Some "Bearer user:0x2")
                         [("userId", "0x2")] [] None) "0x1")
            Example.env Example.env Example.db3
            "user:0x2" "Bearer user:0x2" "user:0x2"
            (mkClaims None (Some "0x2") "" None)
            (mkClaims None (Some "0x2") "" None)
            (Example.batch1 []) 2
            session_before_join _ _ _ _ _ _ _ _ _ _ _).
  all: reflexivity.
Defined.

(** Why the [userId] is taken as the driver writes it: a token whose
    [userId] is another spelling of the student's identifier joins the
    batch, since the look-up casts it, and is then refused by the detail
    route, which compares the text of the token with the stored ones. *)
Lemma joined_under_another_spelling_cannot_read :
  let join :=
    UserRoutes.post_join_batch (P := Example.plain) Example.cfg
      (incoming (mkHttp (Some "Bearer user:0xA") []
                        [("batch_code", "cs101")] None) "")
      Example.env Example.db_class in
  let read :=
    UserRoutes.get_student_batch (P := Example.plain) Example.cfg
      (incoming (mkHttp (Some "Bearer user:0xA") [("userId", "0xA")] []
                        None) "0x1")
      Example.env (snd join) in
  status (fst join) = 200
  /\ map b_students (batches (snd join)) = [["0xa"]]
  /\ status (fst read) = 403.
Proof. repeat split; reflexivity. Qed.

(* ================================================================= *)
(** ** POST /user/join-batch: the outcomes *)

Lemma toUpperCase_empty (s : string) : Js.toUpperCase s = "" -> s = "".
Proof. destruct s; [reflexivity | discriminate]. Qed.

(** Batches that were only extended: the first with a given code still
    is, and lists whom it listed. *)
Lemma extends_keeps_enrolled (code sid : string) (l m : list Batch)
    (b : Batch) :
  Forall2 batch_extends l m ->
  find (fun x => b_batch_code x =? code) l = Some b ->
  In sid (b_students b) ->
  forall more,
  exists b', find (fun x => b_batch_code x =? code) (m ++ more) = Some b'
             /\ In sid (b_students b').
Proof.
  induction 1 as [|x y l m Hxy _ IH]; simpl; [discriminate|].
  destruct Hxy as (_ & _ & Hcode & _ & _ & _ & [added Hs] & _).
  rewrite Hcode. destruct (b_batch_code x =? code).
  - intros [= <-] Hin more. exists y. split; [reflexivity|].
    rewrite Hs. apply in_or_app. now left.
  - exact IH.
Qed.

Lemma later_keeps_enrolled (P : Primitives) cfg db db' (code sid : string)
    (b : Batch) :
  reachable cfg db -> later cfg db db' ->
  find (fun x => b_batch_code x =? code) (batches db) = Some b ->
  In sid (b_students b) ->
  exists b', find (fun x => b_batch_code x =? code) (batches db') = Some b'
             /\ In sid (b_students b').
Proof.
  intros Hr Hl Hb Hin. induction Hl as [db|db db' ep http env Hl IH].
  - now exists b.
  - destruct (IH Hr Hb) as (b1 & Hb1 & Hin1).
    destruct (change_grows
                (reachable_integrity (later_reachable Hr Hl))
                (app_change P cfg ep http env db'))
      as (_ & _ & bs & more & Hbs & F).
    rewrite Hbs. exact (extends_keeps_enrolled _ _ F Hb1 Hin1 more).
Qed.

(** The join route reads the request as it came over HTTP, so what it
    leaves is a state of the application. *)
Lemma join_step_reachable (P : Primitives) cfg req env db :
  reachable cfg db ->
  reachable cfg (snd (UserRoutes.post_join_batch cfg req env db)).
Proof. intros Hr. exact (reach_step UserJoinBatch (r_http req) env Hr). Qed.

(** C5 as it stands fails on a request without a batch code:
    the token resolves to a parent, and the answer is 400, not 403. *)
Lemma join_batch_parent_without_code_400 :
  let req := incoming (mkHttp (Some "Bearer user:0x3") [] [] None) "" in
  jwt_verify (Primitives := Example.plain) "user:0x3"
    (JWT_SECRET Example.cfg) (now Example.env)
  = JwtOk (mkClaims None (Some "0x3") "" None)
  /\ option_map u_role
       (find (fun u => u_id u =? "0x3") (users Example.db_school))
     = Some "parent"
  /\ status (fst (UserRoutes.post_join_batch (P := Example.plain)
                    Example.cfg req Example.env Example.db_school)) = 400.
Proof. repeat split; reflexivity. Qed.

(** C5 (amended).  On a request that carries a batch code, a token that
    verifies and whose [userId] is absent, or casts to an identifier that
    is of no user or of a user who is no student, is answered with 403
    and nothing is written.  After a join answered with 200 in a state
    the application reaches, in every later state a join by a token that
    verifies to a [userId] with the same cast, for a code with the same
    upper-case form, is answered with 409 and changes nothing.  And no join puts a
    duplicate into a student list: the identifier it appends was not in
    the list, so lists without duplicates stay so. *)
Theorem join_batch_outcomes (P : Primitives) (cfg : Config) (req : Req)
    (env : Env) (db : DB) (h tok : string) (c : Claims) :
  r_authorization req = Some h ->
  second_segment h = Some tok ->
  jwt_verify tok (JWT_SECRET cfg) (now env) = JwtOk c ->
  let out := UserRoutes.post_join_batch cfg req env db in
  let code := Js.toUpperCase (str (prop "batch_code" (r_body req))) in
  (Js.truthy (prop "batch_code" (r_body req)) = true ->
   (forall uid, userId c = Some uid ->
      exists sid, cast_id uid = Some sid
                  /\ forall u, find (fun u => u_id u =? sid) (users db)
                               = Some u ->
                               u_role u <> "student") ->
   status (fst out) = 403 /\ snd out = db)
  /\ (reachable cfg db -> status (fst out) = 200 ->
      forall (db2 : DB) (req2 : Req) (env2 : Env) (h2 tok2 code2 : string)
             (c2 : Claims),
        later cfg (snd out) db2 ->
        r_authorization req2 = Some h2 ->
        second_segment h2 = Some tok2 ->
        jwt_verify tok2 (JWT_SECRET cfg) (now env2) = JwtOk c2 ->
        option_map cast_id (userId c2) = option_map cast_id (userId c) ->
        prop "batch_code" (r_body req2) = Some code2 ->
        Js.toUpperCase code2 = code ->
        let out2 := UserRoutes.post_join_batch cfg req2 env2 db2 in
        status (fst out2) = 409 /\ snd out2 = db2)
  /\ (status (fst out) = 200 ->
      exists (b : Batch) (sid : string),
        find (fun x => b_batch_code x =? code) (batches db) = Some b
        /\ ~ In sid (b_students b)
        /\ snd out
           = mkDB (users db) (admins db)
                  (map (fun x => if b_id x =? b_id b
                                 then joined env b sid else x)
                       (batches db))
                  (next_oid db))
  /\ ((forall b, In b (batches db) -> NoDup (b_students b)) ->
      forall b, In b (batches (snd out)) -> NoDup (b_students b)).
Proof.
  intros Hh Hseg Hjwt. cbv zeta.
  assert (Hhne : (h =? "") = false).
  { destruct h; [discriminate Hseg | reflexivity]. }
  split; [|split; [|split]].
  - intros Hcode Hnon. unfold UserRoutes.post_join_batch. run.
    rewrite Hh, Hcode. simpl. rewrite Hhne. simpl. rewrite Hseg, Hjwt.
    simpl.
    destruct (userId c) as [uid|]; simpl; [|auto].
    destruct (Hnon uid eq_refl) as (sid & -> & Hrole). simpl.
    destruct (find _ (users db)) as [u|]; simpl; [|auto].
    specialize (Hrole u eq_refl). apply String.eqb_neq in Hrole.
    rewrite Hrole. simpl. auto.
  - intros Hr H200 db2 req2 env2 h2 tok2 code2 c2 Hl Hh2 Hseg2 Hjwt2 Hsame
           Hcode2 Hup.
    assert (Hh2ne : (h2 =? "") = false).
    { destruct h2; [discriminate Hseg2 | reflexivity]. }
    destruct (@join_accepted P cfg req env db H200)
      as (tok' & uid & sid & c' & student & b
          & H1 & H2 & H3 & Hsid & H4 & H5 & H6 & H7 & Htruthy & H8).
    rewrite Hh in H1. simpl in H1. rewrite Hseg in H1. injection H1 as <-.
    rewrite Hjwt in H2. injection H2 as <-.
    rewrite H3 in Hsame. simpl in Hsame. rewrite Hsid in Hsame.
    destruct (userId c2) as [uid2|] eqn:Huid2; [|discriminate Hsame].
    injection Hsame as Hsid2.
    assert (Hcne : (code2 =? "") = false).
    { apply String.eqb_neq. intros ->. simpl in Hup. symmetry in Hup.
      apply toUpperCase_empty in Hup.
      destruct (prop "batch_code" (r_body req)) as [k|]; [|discriminate].
      simpl in Hup, Htruthy. subst k. discriminate. }
    assert (Hk : b_batch_code b
                 = Js.toUpperCase (str (prop "batch_code" (r_body req)))).
    { apply find_some in H6. now apply String.eqb_eq. }
    assert (Hjoined :
      find (fun x => b_batch_code x
                     =? Js.toUpperCase (str (prop "batch_code" (r_body req))))
           (batches (snd (UserRoutes.post_join_batch cfg req env db)))
      = Some (joined env b sid)).
    { rewrite H8. cbn [batches].
      exact (@find_replaced_by_code _ b (joined env b sid) (batches db)
               Hk H6). }
    destruct (@later_keeps_enrolled P cfg _ db2 _ sid _
                (@join_step_reachable P cfg req env db Hr) Hl Hjoined
                ltac:(simpl; apply in_or_app; right; now left))
      as (b2 & Hb2 & Hin2).
    destruct (later_users Hl) as [more Hmore].
    assert (Hstudent : find (fun u => u_id u =? sid) (users db2)
                       = Some student).
    { rewrite Hmore, H8. cbn [users]. now rewrite find_app, H4. }
    unfold UserRoutes.post_join_batch. run.
    rewrite Hh2, Hcode2. simpl. rewrite Hcne, Hh2ne. simpl.
    rewrite Hseg2, Hjwt2. simpl. rewrite Huid2. simpl.
    rewrite Hsid2. simpl. rewrite Hstudent. simpl.
    apply String.eqb_eq in H5. rewrite H5. simpl.
    rewrite Hup, Hb2. simpl.
    assert (Hid : u_id student = sid).
    { apply find_some in H4. now apply String.eqb_eq. }
    rewrite Hid, (proj2 (includes_In _ _) Hin2). simpl. auto.
  - intros H200.
    destruct (@join_accepted P cfg req env db H200)
      as (tok' & uid & sid & c' & student & b
          & _ & _ & _ & _ & _ & _ & H6 & H7 & _ & H8).
    now exists b, sid.
  - intros Hnd b' Hb'.
    destruct (join_batch_effect P cfg req env db) as [[_ Hsame]|Hjoin].
    + rewrite Hsame in Hb'. auto.
    + destruct Hjoin as (b & sid & Hb & Hinc & Hdb).
      rewrite Hdb in Hb'. cbn [batches] in Hb'.
      apply in_map_iff in Hb'. destruct Hb' as (x & Hx & Hin).
      destruct (b_id x =? b_id b).
      * subst b'. simpl. apply NoDup_snoc; [auto|].
        now apply includes_not_In.
      * subst b'. auto.
Qed.

Lemma join_batch_outcomes_witness :
  let join := UserRoutes.post_join_batch (P := Example.plain) Example.cfg in
  let by_parent := incoming (mkHttp (Some "Bearer user:0x3") []
                                    [("batch_code", "cs101")] None) "" in
  let by_student := incoming Example.join_request "" in
  let again := incoming (mkHttp (Some "Bearer user:0x2") []
                                [("batch_code", "CS101")] None) "" in
  status (fst (join by_parent Example.env Example.db3)) = 403
  /\ status (fst (join by_student Example.env Example.db3)) = 200
  /\ status (fst (join again Example.env Example.db5)) = 409.
Proof.
  cbv zeta. split; [|split; [reflexivity|]].
  - refine (proj1 (proj1 (@join_batch_outcomes Example.plain Example.cfg
      (incoming (mkHttp (Some "Bearer user:0x3") []
                        [("batch_code", "cs101")] None) "")
      Example.env Example.db3 "Bearer user:0x3" "user:0x3"
      (mkClaims None (Some "0x3") "" None) eq_refl eq_refl eq_refl)
      eq_refl _)).
    intros uid [= <-]. exists "0x3". split; [reflexivity|].
    intros u [= <-]. discriminate.
  - refine (proj1 (proj1 (proj2 (@join_batch_outcomes Example.plain
      Example.cfg (incoming Example.join_request "")
      Example.env Example.db3 "Bearer user:0x2" "user:0x2"
      (mkClaims None (Some "0x2") "" None) eq_refl eq_refl eq_refl))
      session_before_join eq_refl Example.db5
      (incoming (mkHttp (Some "Bearer user:0x2") []
                        [("batch_code", "CS101")] None) "")
      Example.env "Bearer user:0x2" "user:0x2" "CS101"
      (mkClaims None (Some "0x2") "" None)
      _ eq_refl eq_refl eq_refl eq_refl eq_refl eq_refl)).
    unfold Example.db5. apply later_step. apply later_now.
Defined.

(* ================================================================= *)
(** ** Creating a batch and joining it *)

(** What a batch creation answered with 201 did. *)
Lemma batch_created (P : Primitives) req env db :
  status (fst (Admin.post_batches req env db)) = 201 ->
  exists b : Batch,
    b_batch_code b = Js.toUpperCase (field "batch_code" (r_body req))
    /\ b_id b = oid (next_oid db)
    /\ b_students b = []
    /\ find (fun x => b_batch_code x =? b_batch_code b) (batches db) = None
    /\ snd (Admin.post_batches req env db)
       = mkDB (users db) (admins db) (batches db ++ [b])
              (N.succ (next_oid db)).
Proof.
  unfold Admin.post_batches. run.
  destruct (zod_parse _ _) as [v|] eqn:Hv; simpl; [|discriminate].
  apply zod_parse_ok in Hv. subst v.
  destruct (cast_id _); simpl; [|discriminate].
  destruct (find _ (admins db)) as [adm|]; simpl; [|discriminate].
  destruct (find _ (batches db)) eqn:Hcode; simpl; [discriminate|].
  rewrite toUpperCase_idem, (find_none_existsb _ _ Hcode). simpl.
  intros _. eexists. repeat split; simpl; try reflexivity. exact Hcode.
Qed.

Lemma find_replaced_or_last (b b' : Batch) (l : list Batch) :
  b_id b' = b_id b ->
  find (fun x => b_id x =? b_id b)
       (map (fun x => if b_id x =? b_id b then b' else x) (l ++ [b]))
  = Some b'.
Proof.
  intros Hid. induction l as [|x l IH]; simpl.
  - now rewrite String.eqb_refl, Hid, String.eqb_refl.
  - destruct (b_id x =? b_id b) eqn:E.
    + now rewrite Hid, String.eqb_refl.
    + rewrite E. exact IH.
Qed.

(** X22. A batch that was just created (201) can be joined under its
    code in any letter case: a join with a code whose upper-case form is
    that of the created code, by a token that verifies and whose
    [userId] casts to the identifier of a stored student, is answered 200
    and makes that student the batch's one student. *)
Theorem created_batch_joins_in_any_case (P : Primitives) (cfg : Config)
    (req req2 : Req) (env env2 : Env) (db : DB)
    (h tok uid sid code2 : string) (c : Claims) (student : User) :
  status (fst (Admin.post_batches req env db)) = 201 ->
  prop "batch_code" (r_body req2) = Some code2 ->
  Js.toUpperCase code2 = Js.toUpperCase (field "batch_code" (r_body req)) ->
  r_authorization req2 = Some h ->
  second_segment h = Some tok ->
  jwt_verify tok (JWT_SECRET cfg) (now env2) = JwtOk c ->
  userId c = Some uid ->
  cast_id uid = Some sid ->
  find (fun u => u_id u =? sid) (users db) = Some student ->
  u_role student = "student" ->
  let out2 := UserRoutes.post_join_batch cfg req2 env2
                (snd (Admin.post_batches req env db)) in
  status (fst out2) = 200
  /\ option_map b_students
       (find (fun x => b_id x =? oid (next_oid db)) (batches (snd out2)))
     = Some [sid].
Proof.
  intros H201 Hcode2 Hup Hh Hseg Hjwt Hc Hsid Hu Hrole. cbv zeta.
  destruct (@batch_created P req env db H201)
    as (b & Hcode & Hid & Hst & Hnone & ->).
  assert (Hhne : (h =? "") = false).
  { destruct h; [discriminate Hseg | reflexivity]. }
  assert (Hcne : (code2 =? "") = false).
  { destruct code2; [|reflexivity]. simpl in Hup.
    destruct (field "batch_code" (r_body req)) eqn:Hf; [|discriminate].
    exfalso. revert H201. unfold Admin.post_batches. run.
    destruct (zod_parse _ _) as [v|] eqn:Hv; simpl; [|discriminate].
    unfold zod_parse in Hv.
    destruct (flat_map _ _) eqn:Hi; [|discriminate].
    simpl in Hi. apply app_eq_nil in Hi. destruct Hi as [Hi _].
    unfold zod_field in Hi. simpl in Hi. unfold field in Hf.
    destruct (prop "batch_code" (r_body req)); [|discriminate].
    subst. discriminate. }
  assert (Hfind : find (fun x => b_batch_code x =? Js.toUpperCase code2)
                    (batches db ++ [b]) = Some b).
  { rewrite Hup, <- Hcode, find_app, Hnone. simpl.
    now rewrite String.eqb_refl. }
  assert (H200 : status (fst (UserRoutes.post_join_batch cfg req2 env2
                   (mkDB (users db) (admins db) (batches db ++ [b])
                         (N.succ (next_oid db))))) = 200).
  { unfold UserRoutes.post_join_batch. run.
    rewrite Hh, Hcode2. simpl. rewrite Hcne, Hhne. simpl.
    rewrite Hseg, Hjwt. simpl. rewrite Hc. simpl. rewrite Hsid. simpl.
    rewrite Hu. simpl.
    rewrite Hrole. simpl. rewrite Hfind. simpl. rewrite Hst. reflexivity. }
  split; [exact H200|].
  destruct (@join_accepted P cfg req2 env2 _ H200)
    as (tok' & uid' & sid' & c' & st' & b'
        & H1 & H2 & H3 & Hsid' & H4 & H5 & H6 & H7 & _ & H8).
  rewrite Hh in H1. simpl in H1. rewrite Hseg in H1. injection H1 as <-.
  rewrite Hjwt in H2. injection H2 as <-. rewrite Hc in H3.
  injection H3 as <-. rewrite Hsid in Hsid'. injection Hsid' as <-.
  rewrite Hcode2 in H6. simpl in H6.
  rewrite Hfind in H6. injection H6 as <-.
  rewrite H8. cbn [batches]. rewrite <- Hid.
  rewrite (@find_replaced_or_last b (joined env2 b sid) (batches db) eq_refl).
  simpl. now rewrite Hst.
Qed.

Lemma created_batch_joins_in_any_case_witness :
  let db := mkDB [Example.student2; Example.parent3] [Example.admin0] [] 4 in
  let out2 :=
    UserRoutes.post_join_batch (P := Example.plain) Example.cfg
      (incoming (mkHttp (Some "Bearer user:0x2") []
                   [("batch_code", "Cs101")] None) "")
      Example.env
      (snd (Admin.post_batches (P := Example.plain)
              (incoming (Example.post Example.batch_body) "")
              Example.env db)) in
  status (fst out2) = 200
  /\ option_map b_students
       (find (fun x => b_id x =? oid 4) (batches (snd out2)))
     = Some ["0x2"].
Proof.
  refine (@created_batch_joins_in_any_case Example.plain Example.cfg
            (incoming (Example.post Example.batch_body) "")
            (incoming (mkHttp (Some "Bearer user:0x2") []
                         [("batch_code", "Cs101")] None) "")
            Example.env Example.env
            (mkDB [Example.student2; Example.parent3] [Example.admin0] [] 4)
            "Bearer user:0x2" "user:0x2" "0x2" "0x2" "Cs101"
            (mkClaims None (Some "0x2") "" None) Example.student2
            _ _ _ _ _ _ _ _ _ _).
  all: reflexivity.
Defined.

(* ================================================================= *)
(** ** Registering as a student and logging in *)

(** What a student registration answered with 201 did. *)
Lemma student_registered (P : Primitives) cfg req env db :
  status (fst (UserRoutes.post_register cfg req env db)) = 201 ->
  let o := r_body req in
  email_exists db (field "email" o) = false
  /\ zod_email (field "email" o) = true
  /\ (6 <= String.length (field "password" o))%nat
  /\ (exists parent,
        users (snd (UserRoutes.post_register cfg req env db))
        = users db
          ++ [mkUser (oid (next_oid db)) (field "name" o) (field "email" o)
                (Some (field "parentEmail" o))
                (bcrypt_hash (field "password" o) (SALT_ROUNDS cfg)
                             (salt env))
                "student"; parent])
  /\ (JWT_SECRET cfg =? "") = false.
Proof.
  cbv zeta. unfold UserRoutes.post_register. run.
  destruct (zod_parse _ _) as [v|] eqn:Hv; simpl; [|discriminate].
  pose proof (@register_parsed P _ _ Hv) as (_ & _ & _ & Hlen).
  assert (Hmail : zod_email (field "email" (r_body req)) = true).
  { unfold zod_parse in Hv.
    destruct (flat_map _ _) eqn:Hi; [|discriminate].
    simpl in Hi. apply app_eq_nil in Hi. destruct Hi as [_ Hi].
    apply app_eq_nil in Hi. destruct Hi as [Hi _].
    unfold zod_field, field in *. simpl in Hi.
    destruct (prop "email" (r_body req)); [|discriminate].
    simpl in Hi. destruct (zod_email s); [reflexivity | discriminate]. }
  apply zod_parse_ok in Hv. subst v.
  destruct (find _ (users db)) eqn:Hfind; simpl; [discriminate|].
  apply find_none_existsb in Hfind.
  assert (HE : email_exists db (field "email" (r_body req)) = false).
  { revert Hfind. apply existsb_false_weaken. intros x Hx. now rewrite Hx. }
  destruct (user_email_unique cfg && existsb _ (users db)); simpl;
    [discriminate|].
  destruct (user_email_unique cfg && existsb _ (users db ++ _)); simpl;
    [discriminate|].
  destruct (JWT_SECRET cfg =? ""); simpl; [discriminate|].
  intros _. do 3 (split; [assumption|]). split; [|reflexivity].
  eexists. rewrite <- app_assoc. reflexivity.
Qed.

(** X23. After a student registration answered 201, in every later state,
    a student login with the registered e-mail and password is answered
    200 with a token, valid for 24 hours, for the registered student. *)
Theorem student_register_then_login (P : Primitives) (cfg : Config)
    (req req2 : Req) (env env2 : Env) (db db2 : DB) :
  bcrypt_sound P -> zod_email_nonempty P ->
  status (fst (UserRoutes.post_register cfg req env db)) = 201 ->
  later cfg (snd (UserRoutes.post_register cfg req env db)) db2 ->
  prop "email" (r_body req2) = Some (field "email" (r_body req)) ->
  prop "password" (r_body req2) = Some (field "password" (r_body req)) ->
  let out2 := UserRoutes.post_login_student cfg req2 env2 db2 in
  status (fst out2) = 200
  /\ jget "token" (body (fst out2))
     = Some (JStr (jwt_sign
                     (mkClaims None (Some (oid (next_oid db)))
                               (field "email" (r_body req)) (Some "student"))
                     (JWT_SECRET cfg) (24 * hour) (now env2))).
Proof.
  intros Hsound Hne H201 Hl He Hp. cbv zeta.
  destruct (@student_registered P cfg req env db H201)
    as (Hfree & Hmail & Hlen & (parent & Husers) & Hsec).
  destruct (later_users Hl) as [more Hmore]. rewrite Husers in Hmore.
  set (E := field "email" (r_body req)) in *.
  set (pw := field "password" (r_body req)) in *.
  assert (HEne : (E =? "") = false).
  { apply String.eqb_neq. intros Hz. rewrite Hz in Hmail.
    unfold zod_email_nonempty in Hne. congruence. }
  assert (Hpwne : (pw =? "") = false).
  { apply String.eqb_neq. intros Hz. rewrite Hz in Hlen. simpl in Hlen. lia. }
  assert (Hf1 : field "email" (r_body req2) = E)
    by (unfold field; now rewrite He).
  assert (Hf2 : field "password" (r_body req2) = pw)
    by (unfold field; now rewrite Hp).
  assert (Hfound :
    find (fun u => (u_email u =? E) && (u_role u =? "student")) (users db2)
    = Some (mkUser (oid (next_oid db)) (field "name" (r_body req)) E
              (Some (field "parentEmail" (r_body req)))
              (bcrypt_hash pw (SALT_ROUNDS cfg) (salt env)) "student")).
  { rewrite Hmore, <- app_assoc, find_app.
    rewrite (existsb_find_none _ _
               (existsb_false_weaken _
                  (fun u => (u_email u =? E) && (u_role u =? "student")) _
                  (fun x Hx => proj1 (proj1 (andb_true_iff _ _) Hx)) Hfree)).
    simpl. now rewrite String.eqb_refl. }
  unfold UserRoutes.post_login_student. run.
  rewrite He, Hp, Hf1, Hf2, Hsec. simpl. rewrite HEne, Hpwne. simpl.
  rewrite Hfound. simpl. rewrite Hsound. simpl. auto.
Qed.

Lemma student_register_then_login_witness :
  status (fst (UserRoutes.post_login_student (P := Example.plain)
                 Example.cfg
                 (incoming (Example.post [("email", "s@x.com");
                                          ("password", "secret1")]) "")
                 Example.env Example.db4)) = 200.
Proof.
  refine (proj1 (@student_register_then_login Example.plain Example.cfg
            (incoming (Example.post Example.register_body) "")
            (incoming (Example.post [("email", "s@x.com");
                                     ("password", "secret1")]) "")
            Example.env Example.env Example.db2 Example.db4
            (proj1 plain_is_sound) (proj2 plain_is_sound) _ _ _ _)).
  - reflexivity.
  - unfold Example.db4. apply later_step. apply later_now.
  - reflexivity.
  - reflexivity.
Defined.

(* ================================================================= *)
(** ** The login's e-mail expression and the bearer header *)

Lemma no_space_spaceless (s : string) :
  Js.no_space s = true <-> spaceless s.
Proof.
  unfold spaceless. induction s as [|c r IH]; simpl.
  - split; [intros _ c [] | reflexivity].
  - rewrite andb_true_iff, negb_true_iff, IH. split.
    + intros [Hc Hr] x [<-|Hx]; auto.
    + intros H. split; [apply H; now left | intros x Hx; apply H; now right].
Qed.

Lemma dot_then_more_spec (r : string) :
  Js.dot_then_more r = true
  <-> exists b c, c <> "" /\ r = (b ++ "." ++ c)%string.
Proof.
  induction r as [|ch r IH]; simpl.
  - split; [discriminate|]. intros (b & c & _ & H). destruct b; discriminate.
  - rewrite orb_true_iff, andb_true_iff, negb_true_iff, IH. split.
    + intros [[Hdot Hne]|(b & c & Hc & ->)].
      * apply Ascii.eqb_eq in Hdot. subst ch. exists "", r.
        split; [now apply String.eqb_neq | reflexivity].
      * exists (String ch b), c. split; [exact Hc | reflexivity].
    + intros (b & c & Hc & H). destruct b as [|x b]; simpl in H.
      * injection H as -> ->. left.
        split; [apply Ascii.eqb_refl | now apply String.eqb_neq].
      * injection H as -> ->. right. now exists b, c.
Qed.

Lemma at_then_domain_spec (r : string) :
  Js.at_then_domain r = true
  <-> exists a b c, b <> "" /\ c <> ""
                    /\ r = (a ++ "@" ++ b ++ "." ++ c)%string.
Proof.
  induction r as [|ch r IH]; simpl.
  - split; [discriminate|]. intros (a & b & c & _ & _ & H).
    destruct a; discriminate.
  - rewrite orb_true_iff, andb_true_iff, IH. split.
    + intros [[Hat Hdom]|(a & b & c & Hb & Hc & ->)].
      * apply Ascii.eqb_eq in Hat. subst ch.
        destruct r as [|x r']; [discriminate|].
        apply dot_then_more_spec in Hdom. destruct Hdom as (b & c & Hc & ->).
        exists "", (String x b), c. repeat split; [discriminate | exact Hc].
      * exists (String ch a), b, c. repeat split; assumption.
    + intros (a & b & c & Hb & Hc & H). destruct a as [|y a]; simpl in H.
      * injection H as -> ->. left. split; [apply Ascii.eqb_refl|].
        destruct b as [|x b]; [congruence|]. simpl.
        apply dot_then_more_spec. now exists b, c.
      * injection H as -> ->. right. now exists a, b, c.
Qed.

(** X24. The expression of the admin login accepts exactly the texts that
    have no white space and read [a@b.c] with [a], [b] and [c] non-empty. *)
Theorem email_regex_accepts (s : string) :
  Js.email_regex s = true
  <-> spaceless s
      /\ exists a b c, a <> "" /\ b <> "" /\ c <> ""
                       /\ s = (a ++ "@" ++ b ++ "." ++ c)%string.
Proof.
  unfold Js.email_regex. rewrite andb_true_iff, no_space_spaceless.
  split; intros [Hsp H]; (split; [exact Hsp|]).
  - destruct s as [|y r]; [discriminate|].
    apply at_then_domain_spec in H. destruct H as (a & b & c & Hb & Hc & ->).
    exists (String y a), b, c. repeat split; try assumption. discriminate.
  - destruct H as (a & b & c & Ha & Hb & Hc & ->).
    destruct a as [|y a]; [congruence|]. simpl.
    apply at_then_domain_spec. now exists a, b, c.
Qed.

Lemma split_spaceless (t : string) :
  ~ In " "%char (list_ascii_of_string t) -> Js.split " " t = [t].
Proof.
  induction t as [|ch t IH]; simpl; intros H; [reflexivity|].
  destruct (Ascii.eqb ch " ") eqn:E.
  - apply Ascii.eqb_eq in E. exfalso. apply H. now left.
  - rewrite IH; [reflexivity|]. intros Hin. apply H. now right.
Qed.

Lemma split_first (t rest : string) :
  ~ In " "%char (list_ascii_of_string t) ->
  hd_error (Js.split " " (t ++ " " ++ rest)%string) = Some t.
Proof.
  induction t as [|ch t IH]; simpl; intros H; [reflexivity|].
  destruct (Ascii.eqb ch " ") eqn:E.
  - apply Ascii.eqb_eq in E. exfalso. apply H. now left.
  - assert (Ht : ~ In " "%char (list_ascii_of_string t))
      by (intros Hin; apply H; now right).
    specialize (IH Ht). simpl in IH.
    destruct (Js.split " " _) as [|x l]; [discriminate|].
    simpl in *. injection IH as Hx. now subst x.
Qed.

(** X25. The bearer segment of ["Bearer t"] is [t] when [t] has no space,
    and so is that of ["Bearer t rest"]: what follows a further space is
    ignored. *)
Theorem bearer_segment_of_header (t rest : string) :
  ~ In " "%char (list_ascii_of_string t) ->
  bearer_segment ("Bearer " ++ t)%string = Some t
  /\ bearer_segment ("Bearer " ++ t ++ " " ++ rest)%string = Some t.
Proof.
  intros H. unfold bearer_segment, second_segment, Js.startsWith.
  split; simpl.
  - rewrite split_spaceless by exact H. destruct t; reflexivity.
  - pose proof (@split_first t rest H) as Hf. simpl in Hf.
    destruct (Js.split " " _); simpl in *; [discriminate|].
    rewrite Hf. destruct t; reflexivity.
Qed.

Lemma bearer_segment_of_header_witness :
  bearer_segment "Bearer abc" = Some "abc"
  /\ bearer_segment "Bearer abc and more" = Some "abc".
Proof.
  refine (@bearer_segment_of_header "abc" "and more" _).
  simpl. intros [H|[H|[H|[]]]]; discriminate H.
Defined.
